(** * convert_to_blosc_and_back.py: DICOM series <-> chunked Zarr store + JSON sidecar

    A shallow embedding of [src/convert_to_blosc_and_back.py].  The Python
    functions [save_metadata], [load_metadata], [dicom_to_zarr],
    [zarr_to_dicom] and [process_series] are written as computations in a
    state-and-exception monad over a file system ([gmap] from path strings to
    nodes), the console and the log of [ImageFileWriter.Execute] calls.

    What the script delegates to libraries (GDCM series discovery, the
    SimpleITK reader and writer, what SimpleITK accepts as a geometry and
    what geometry it gives a slice, the Blosc compressor, OS permissions)
    enters as the variables of [Section Script]; the parts of [os.path], of
    the Zarr chunk grid and of the [bytes] codec that the script's results
    depend on are written out. *)

From Stdlib Require Import ZArith Lia Ascii String.
From stdpp Require Import base gmap strings list fin_maps pretty.

Local Open Scope string_scope.
Local Open Scope list_scope.

(** ** [os.path] (POSIX flavour) *)

Module ospath.

Definition sep : ascii := "/"%char.
Definition extsep : ascii := "."%char.

Definition is_sep (c : ascii) : bool := bool_decide (c = sep).
Definition is_dot (c : ascii) : bool := bool_decide (c = extsep).

(** [sep in p] *)
Fixpoint has_sep (p : string) : bool :=
  match p with
  | EmptyString => false
  | String c r => is_sep c || has_sep r
  end.

Definition startswith_sep (p : string) : bool :=
  match p with
  | String c _ => is_sep c
  | EmptyString => false
  end.

Fixpoint endswith_sep (p : string) : bool :=
  match p with
  | EmptyString => false
  | String c EmptyString => is_sep c
  | String _ r => endswith_sep r
  end.

(** [os.path.basename(p)]: [p[p.rfind('/') + 1:]], the part after the last
    separator, all of [p] when there is none. *)
Fixpoint basename (p : string) : string :=
  match p with
  | EmptyString => EmptyString
  | String c r =>
      if has_sep r then basename r
      else if is_sep c then r
      else p
  end.

(** [os.path.join(a, b)] for two components. *)
Definition join (a b : string) : string :=
  if startswith_sep b then b
  else if bool_decide (a = "") || endswith_sep a then a +:+ b
  else a +:+ "/" +:+ b.

(** The suffix of [b] that starts at its last dot, if it has one. *)
Fixpoint last_dot_suffix (b : string) : option string :=
  match b with
  | EmptyString => None
  | String c r =>
      match last_dot_suffix r with
      | Some s => Some s
      | None => if is_dot c then Some b else None
      end
  end.

Fixpoint strip_leading_dots (b : string) : string :=
  match b with
  | String c r => if is_dot c then strip_leading_dots r else b
  | EmptyString => EmptyString
  end.

(** The second component of [os.path.splitext(p)]: the extension starts at
    the last dot of the last path component, provided a character other
    than a dot precedes it in that component; otherwise it is empty. *)
Definition splitext_ext (p : string) : string :=
  default "" (last_dot_suffix (strip_leading_dots (basename p))).

Fixpoint str_take (n : nat) (p : string) : string :=
  match n, p with
  | S n', String c r => String c (str_take n' r)
  | _, _ => EmptyString
  end.

(** [os.path.splitext(p)] = [(root, ext)] with [root + ext == p]. *)
Definition splitext (p : string) : string * string :=
  let ext := splitext_ext p in
  (str_take (String.length p - String.length ext) p, ext).

(** The prefix shared by everything stored below directory [d]. *)
Definition dir_prefix (d : string) : string :=
  if endswith_sep d then d else d +:+ "/".

(** [k] lies at or below [p] in the directory tree. *)
Definition under (p k : string) : bool :=
  bool_decide (k = p) || String.prefix (dir_prefix p) k.

End ospath.

(** [f"{i:04d}"]: decimal digits, padded on the left with zeros to width 4. *)
Definition zfill4 (i : nat) : string :=
  let digits := pretty i in
  String.app (string_of_list_ascii (replicate (4 - String.length digits) "0"%char)) digits.

(** ** numpy arrays and the element types SimpleITK hands out *)

Inductive dtype : Set :=
  | int8 | uint8 | int16 | uint16 | int32 | uint32 | int64 | uint64
  | float32 | float64.

Global Instance dtype_eq_dec : EqDecision dtype.
Proof. solve_decision. Defined.

(** [arr.itemsize], the width of one element in bytes. *)
Definition itemsize (t : dtype) : nat :=
  match t with
  | int8 | uint8 => 1
  | int16 | uint16 => 2
  | int32 | uint32 | float32 => 4
  | int64 | uint64 | float64 => 8
  end.

Definition is_signed (t : dtype) : bool :=
  match t with
  | int8 | int16 | int32 | int64 => true
  | _ => false
  end.

Definition bits (t : dtype) : Z := 8 * Z.of_nat (itemsize t).

(** An element is a [Z]: the integer itself for the integer types, the
    IEEE-754 bit pattern for the two float types. *)
Definition in_range (t : dtype) (v : Z) : Prop :=
  if is_signed t then (- 2 ^ (bits t - 1) <= v < 2 ^ (bits t - 1))%Z
  else (0 <= v < 2 ^ bits t)%Z.

(** A three-dimensional array in C order: [shape = (D, H, W)], and the
    element at [(z, y, x)] is [data[(z * H + y) * W + x]]. *)
Record ndarray : Type := NdArray {
  shape : nat * nat * nat;
  arr_dtype : dtype;
  data : list Z
}.

Definition depth_of (a : ndarray) : nat := (shape a).1.1.
Definition height_of (a : ndarray) : nat := (shape a).1.2.
Definition width_of (a : ndarray) : nat := (shape a).2.

(** What every numpy array satisfies. *)
Definition wf_array (a : ndarray) : Prop :=
  length (data a) = depth_of a * (height_of a * width_of a)
  ∧ Forall (in_range (arr_dtype a)) (data a).

Definition nonempty (a : ndarray) : Prop :=
  0 < depth_of a ∧ 0 < height_of a ∧ 0 < width_of a.

(** A degenerate shape: some dimension is zero. *)
Definition degenerate (a : ndarray) : Prop :=
  depth_of a = 0 ∨ height_of a = 0 ∨ width_of a = 0.

(** ** The [bytes] codec: elements to bytes in a recorded byte order *)

Inductive endian : Set := little | big.

Global Instance endian_eq_dec : EqDecision endian.
Proof. solve_decision. Defined.

(** [n] little-endian bytes of the unsigned value [u]. *)
Fixpoint le_bytes (n : nat) (u : Z) : list Z :=
  match n with
  | 0 => []
  | S n' => (u mod 256)%Z :: le_bytes n' (u / 256)%Z
  end.

Fixpoint le_value (bs : list Z) : Z :=
  match bs with
  | [] => 0%Z
  | b :: r => (b + 256 * le_value r)%Z
  end.

(** Two's complement for the signed types. *)
Definition to_unsigned (t : dtype) (v : Z) : Z := (v mod 2 ^ bits t)%Z.

Definition of_unsigned (t : dtype) (u : Z) : Z :=
  if is_signed t && (2 ^ (bits t - 1) <=? u)%Z then (u - 2 ^ bits t)%Z else u.

Definition encode_elem (e : endian) (t : dtype) (v : Z) : list Z :=
  let bs := le_bytes (itemsize t) (to_unsigned t v) in
  match e with little => bs | big => rev bs end.

Definition decode_elem (e : endian) (t : dtype) (bs : list Z) : Z :=
  of_unsigned t (le_value (match e with little => bs | big => rev bs end)).

Definition bytes_encode (e : endian) (t : dtype) (vs : list Z) : list Z :=
  concat (encode_elem e t <$> vs).

(** Cut a byte string into groups of [n] bytes; [fuel] bounds the number of
    groups, and a string whose length is no multiple of [n] gives [None]. *)
Fixpoint groups (fuel n : nat) (bs : list Z) : option (list (list Z)) :=
  match bs with
  | [] => Some []
  | _ =>
      match fuel with
      | 0 => None
      | S fuel' =>
          if decide (n ≠ 0 ∧ n <= length bs)
          then (take n bs ::.) <$> groups fuel' n (drop n bs)
          else None
      end
  end.

Definition bytes_decode (e : endian) (t : dtype) (bs : list Z) : option (list Z) :=
  fmap (M := list) (decode_elem e t) <$> groups (length bs) (itemsize t) bs.

(** ** The chunked store (Zarr v3 array) *)

(** Configuration of the [blosc] codec, as the script passes it. *)
Record blosc_config : Type := BloscConfig {
  cname : string;
  clevel : nat;
  shuffle : string;
  typesize : nat
}.

(** A Zarr array on disk: the metadata document of [zarr.json] and the
    encoded chunks, keyed by chunk-grid coordinates. *)
Record zarr_array : Type := ZarrArray {
  zarr_format : nat;
  z_shape : nat * nat * nat;
  z_chunks : nat * nat * nat;
  z_dtype : dtype;
  z_endian : endian;
  z_blosc : blosc_config;
  z_chunkdata : gmap (nat * nat * nat) (list Z)
}.

(** Plane [i] of a C-order volume with planes of [hw] elements. *)
Definition plane (hw : nat) (d : list Z) (i : nat) : list Z :=
  take hw (drop (i * hw) d).

(** ** SimpleITK images, slices and tag dictionaries *)

(** A Python [float], by its IEEE-754 binary64 bit pattern. *)
Abbreviation float := Z (only parsing).
Definition float_zero : float := 0%Z.
Definition float_one : float := 4607182418800017408%Z.

(** A Python [dict] from [str] to [str]: its items in insertion order, keys
    pairwise distinct. *)
Abbreviation dict := (list (string * string)).

(** [d[k] = v] *)
Fixpoint dict_set (k v : string) (d : dict) : dict :=
  match d with
  | [] => [(k, v)]
  | (k', v') :: r => if decide (k' = k) then (k, v) :: r else (k', v') :: dict_set k v r
  end.

Definition dict_keys (d : dict) : list string := fst <$> d.

Fixpoint dict_get (k : string) (d : dict) : option string :=
  match d with
  | [] => None
  | (k', v') :: r => if decide (k' = k) then Some v' else dict_get k r
  end.

(** A volume: pixel array in (z, y, x) order plus geometry. *)
Record sitk_image : Type := SitkImage {
  img_array : ndarray;
  img_origin : list float;
  img_spacing : list float;
  img_direction : list float
}.

(** [image.GetSize()] is (x, y, z). *)
Definition GetSize (im : sitk_image) : nat * nat * nat :=
  (width_of (img_array im), height_of (img_array im), depth_of (img_array im)).

Definition GetPixelID (im : sitk_image) : Z :=
  match arr_dtype (img_array im) with
  | int8 => 0 | uint8 => 1 | int16 => 2 | uint16 => 3 | int32 => 4
  | uint32 => 5 | int64 => 6 | uint64 => 7 | float32 => 8 | float64 => 9
  end%Z.

Definition GetPixelIDTypeAsString (im : sitk_image) : string :=
  match arr_dtype (img_array im) with
  | int8 => "8-bit signed integer" | uint8 => "8-bit unsigned integer"
  | int16 => "16-bit signed integer" | uint16 => "16-bit unsigned integer"
  | int32 => "32-bit signed integer" | uint32 => "32-bit unsigned integer"
  | int64 => "64-bit signed integer" | uint64 => "64-bit unsigned integer"
  | float32 => "32-bit float" | float64 => "64-bit float"
  end.

(** [sitk.GetArrayFromImage] and [sitk.GetImageFromArray]. *)
Definition GetArrayFromImage (im : sitk_image) : ndarray := img_array im.

Definition GetImageFromArray (a : ndarray) : sitk_image :=
  {| img_array := a;
     img_origin := [float_zero; float_zero; float_zero];
     img_spacing := [float_one; float_one; float_one];
     img_direction := [float_one; float_zero; float_zero;
                       float_zero; float_one; float_zero;
                       float_zero; float_zero; float_one] |}.

(** A two-dimensional image, as [image[:, :, i]] gives it: the pixels of one
    plane in (y, x) order, its size (x, y), a two-dimensional geometry and
    its own metadata dictionary.  [sl_index] remembers the plane. *)
Record slice_image : Type := SliceImage {
  sl_index : nat;
  sl_size : nat * nat;
  sl_dtype : dtype;
  sl_pixels : list Z;
  sl_origin : list float;
  sl_spacing : list float;
  sl_direction : list float;
  sl_meta : gmap string string
}.

(** ** The JSON sidecar *)

(** The object [json.load] returns.  A key that is absent is [None]. *)
Record metadata : Type := Metadata {
  m_filenames : option (list string);
  m_origin : option (list float);
  m_spacing : option (list float);
  m_direction : option (list float);
  m_size : option (nat * nat * nat);
  m_pixel_id : option Z;
  m_pixel_id_type_as_string : option string;
  m_slices_metadata : option (list dict)
}.

(** ** Exceptions, file system, console *)

Inductive exn : Type :=
  | KeyError (key : string)
  | IndexError
  | PermissionError (path : string)
  | FileNotFoundError (path : string)
  | FileExistsError (path : string)
  | NotADirectoryError (path : string)
  | IsADirectoryError (path : string)
  | ValueError (what : string)
  | RuntimeError (what : string).

(** What a path holds: a directory, a Zarr store (a directory to the
    operating system), a JSON document, or a file that the image writer
    left for a slice (the image file itself or a companion of it). *)
Inductive node : Type :=
  | NDir
  | NZarr (z : zarr_array)
  | NJson (m : metadata)
  | NDicom (s : slice_image).

(** A node that holds entries: a directory or a store. *)
Definition is_dir (o : option node) : bool :=
  match o with
  | Some NDir | Some (NZarr _) => true
  | _ => false
  end.

Inductive console : Type :=
  | PrintProcessing (series_id : string)
  | PrintLoadingDicom
  | PrintNoDicomFiles (series_dir : string)
  | PrintConverting
  | PrintSaved (zarr_path json_path : string)
  | PrintLoadingBack
  | PrintReconstructing
  | PrintErrorWritingSlice (i : nat) (e : exn)
  | PrintReconstructed (recon_series_dir : string)
  | PrintRule.

(** One call [writer.SetFileName(p); writer.Execute(img)] and how it ended. *)
Record writer_call : Type := WriterCall {
  wc_path : string;
  wc_image : slice_image;
  wc_error : option exn
}.

Record state : Type := State {
  fs : gmap string node;
  stdout : list console;
  writer_log : list writer_call
}.

Inductive result (A : Type) : Type :=
  | Ok (a : A)
  | Raise (e : exn).
Arguments Ok {A} a.
Arguments Raise {A} e.

(** A Python statement: it runs in a state and returns or raises; what it
    did to the state before raising stays done. *)
Definition M (A : Type) : Type := state → result A * state.

Definition ret {A} (a : A) : M A := λ s, (Ok a, s).
Definition raise {A} (e : exn) : M A := λ s, (Raise e, s).
Definition bind {A B} (m : M A) (k : A → M B) : M B :=
  λ s, match m s with
       | (Ok a, s') => k a s'
       | (Raise e, s') => (Raise e, s')
       end.

(** [try: m  except Exception as e: h e] *)
Definition try_except {A} (m : M A) (h : exn → M A) : M A :=
  λ s, match m s with
       | (Ok a, s') => (Ok a, s')
       | (Raise e, s') => h e s'
       end.

Declare Scope py_scope.
Delimit Scope py_scope with py.
Notation "'let*' x := m 'in' k" := (bind m (λ x, k))
  (at level 10, x pattern, m at level 100, k at level 200) : py_scope.
Notation "m >> k" := (bind m (λ _, k))
  (at level 100, k at level 200, right associativity) : py_scope.
Local Open Scope py_scope.

Definition get_fs : M (gmap string node) := λ s, (Ok (fs s), s).
Definition set_fs (f : gmap string node) : M unit :=
  λ s, (Ok (), {| fs := f; stdout := stdout s; writer_log := writer_log s |}).
Definition print (c : console) : M unit :=
  λ s, (Ok (), {| fs := fs s; stdout := (stdout s ++ [c])%list; writer_log := writer_log s |}).
Definition log_call (c : writer_call) : M unit :=
  λ s, (Ok (), {| fs := fs s; stdout := stdout s; writer_log := (writer_log s ++ [c])%list |}).

Arguments ret {A} a s /.
Arguments raise {A} e s /.
Arguments get_fs s /.
Arguments set_fs f s /.
Arguments print c s /.
Arguments log_call c s /.

(** [for x in l: body x] *)
Fixpoint for_each {A} (l : list A) (body : A → M unit) : M unit :=
  match l with
  | [] => ret ()
  | x :: r => body x >> for_each r body
  end.

(** [l[i]] *)
Definition index {A} (l : list A) (i : nat) : M A :=
  match l !! i with
  | Some x => ret x
  | None => raise IndexError
  end.

(** [d[key]] on the sidecar object. *)
Definition getitem {A} (key : string) (field : option A) : M A :=
  match field with
  | Some x => ret x
  | None => raise (KeyError key)
  end.

(** [for x in l: acc = body acc x], for loops that update a local variable. *)
Fixpoint fold_m {A B} (body : B → A → M B) (l : list A) (acc : B) : M B :=
  match l with
  | [] => ret acc
  | x :: r => let* acc' := body acc x in fold_m body r acc'
  end.

(** The same two shapes for code that touches no state (decoding). *)
Definition rbind {A B} (r : result A) (k : A → result B) : result B :=
  match r with
  | Ok a => k a
  | Raise e => Raise e
  end.

Definition lift {A} (r : result A) : M A :=
  match r with
  | Ok a => ret a
  | Raise e => raise e
  end.

(** Python truthiness of a value that is [None] or a [str]. *)
Definition truthy (o : option string) : bool :=
  match o with
  | Some s => bool_decide (s ≠ "")
  | None => false
  end.

(** The module constants. *)
Definition RAW_DIR : string := "data/raw".
Definition CONVERTED_DIR : string := "data/converted".
Definition RECONSTRUCTED_DIR : string := "data/reconstructed".

(** ** The batch driver's own output *)

(** The two messages of [main].  Both are printed on a path that returns at
    once, before any series is processed, so they are kept in a list of their
    own without losing anything of the order of the output. *)
Inductive main_console : Type :=
  | PrintRawDirMissing (raw_dir : string)
  | PrintNoSeriesFolders (raw_dir : string).

Record batch : Type := Batch {
  b_state : state;
  b_stdout : list main_console
}.

(** ** A small world for worked examples

    One series of two 2x2 slices of signed 16-bit pixels, a compressor that
    only prepends the element width, a writer that can be made to fail for
    one file, and a [SetMetaData] that refuses the SOP instance UID. *)

Module Demo.

Definition series_files (series_dir : string) : list string :=
  if decide (series_dir = "data/raw/S1")
  then ["data/raw/S1/a.dcm"; "data/raw/S1/b.dcm"]
  else [].

Definition volume : ndarray :=
  {| shape := (2, 2, 2); arr_dtype := int16;
     data := [1; -2; 3; 4; 5; 6; 7; -8]%Z |}.

(** A volume of depth 0. *)
Definition empty_volume : ndarray :=
  {| shape := (0, 2, 2); arr_dtype := uint8; data := [] |}.

Definition image : sitk_image :=
  {| img_array := volume;
     img_origin := [float_zero; float_zero; float_zero];
     img_spacing := [float_one; float_one; float_one];
     img_direction := [float_one; float_zero; float_zero;
                       float_zero; float_one; float_zero;
                       float_zero; float_zero; float_one] |}.

Definition tags : list dict :=
  [[("0008|0060", "CT"); ("0008|0018", "1.2.3.1")];
   [("0008|0060", "CT"); ("0008|0018", "1.2.3.2")]].

Definition read_series (names : list string) : result (sitk_image * list dict) :=
  if decide (names = ["data/raw/S1/a.dcm"; "data/raw/S1/b.dcm"])
  then Ok (image, tags)
  else Raise (RuntimeError "cannot read the series").

Definition all_writable (path : string) : bool := true.
Definition read_only (path : string) : bool := false.

Definition compress (c : blosc_config) (bs : list Z) : list Z :=
  Z.of_nat (typesize c) :: bs.
Definition decompress (c : blosc_config) (bs : list Z) : list Z := tail bs.

Definition refuse_uid (k v : string) : option exn :=
  if decide (k = "0008|0018") then Some (RuntimeError "refused") else None.

Definition writer_ok (path : string) (img : slice_image) : option exn := None.

Definition writer_fails_on_a (path : string) (img : slice_image) : option exn :=
  if decide (path = "data/reconstructed/S1/a.dcm")
  then Some (RuntimeError "disk full") else None.

Definition initial : state := {| fs := ∅; stdout := []; writer_log := [] |}.

(** SimpleITK on the geometry lists of this world: an origin and a spacing
    need three entries (more are dropped), a spacing no zero among them; a
    direction needs nine entries and must not be the zero matrix. *)
Definition as_origin (l : list float) : result (list float) :=
  if decide (3 <= length l) then Ok (take 3 l)
  else Raise (RuntimeError "vector too short").

Definition as_spacing (l : list float) : result (list float) :=
  if decide (3 <= length l ∧ float_zero ∉ take 3 l) then Ok (take 3 l)
  else Raise (RuntimeError "zero-valued spacing").

Definition as_direction (l : list float) : result (list float) :=
  if decide (length l = 9 ∧ l ≠ replicate 9 float_zero) then Ok l
  else Raise (RuntimeError "bad direction").

(** The slices of an axis-aligned volume: the first two entries of origin
    and spacing, and the upper left 2x2 block of the direction. *)
Definition plane_geometry (o sp d : list float) (i : nat)
    : list float * list float * list float :=
  (take 2 o, take 2 sp, take 2 d ++ take 2 (drop 3 d)).

(** A writer that leaves one file per call, and one that writes a header
    next to every [.img] file. *)
Definition no_companion (out_name : string) : list string := [].

Definition header_companion (out_name : string) : list string :=
  if decide ((ospath.splitext out_name).2 = ".img") then [".hdr"] else [].

(** An [rmtree] that is refused before it removed anything, and one that
    empties the directory and is refused for the directory itself. *)
Definition rmtree_stops_at_once (p : string) (f : gmap string node)
    : exn * (string → bool) :=
  (PermissionError p, λ _, true).

Definition rmtree_fails_on_the_directory (p : string) (f : gmap string node)
    : exn * (string → bool) :=
  (PermissionError p, λ _, false).

(** A reader that returns the first slice alone, with its dictionary,
    whatever the number of file names. *)
Definition first_plane : ndarray :=
  {| shape := (1, 2, 2); arr_dtype := int16; data := [1; -2; 3; 4]%Z |}.

Definition first_plane_image : sitk_image :=
  {| img_array := first_plane;
     img_origin := img_origin image;
     img_spacing := img_spacing image;
     img_direction := img_direction image |}.

Definition read_first_slice (names : list string) : result (sitk_image * list dict) :=
  Ok (first_plane_image, take 1 tags).

(** The store of [volume], written on a little-endian machine. *)
Definition store : zarr_array :=
  {| zarr_format := 3; z_shape := (2, 2, 2); z_chunks := (1, 2, 2);
     z_dtype := int16; z_endian := little;
     z_blosc := {| cname := "zstd"; clevel := 1; shuffle := "bitshuffle"; typesize := 2 |};
     z_chunkdata := {[ (0, 0, 0) := [2; 1; 0; 254; 255; 3; 0; 4; 0]%Z;
                       (1, 0, 0) := [2; 5; 0; 6; 0; 7; 0; 248; 255]%Z ]} |}.

Definition sidecar (filenames : list string) (slices_metadata : list dict) : metadata :=
  {| m_filenames := Some filenames;
     m_origin := Some (img_origin image);
     m_spacing := Some (img_spacing image);
     m_direction := Some (img_direction image);
     m_size := Some (2, 2, 2);
     m_pixel_id := Some 2%Z;
     m_pixel_id_type_as_string := Some "16-bit signed integer";
     m_slices_metadata := Some slices_metadata |}.

(** What a slice of an earlier, deeper reconstruction looks like. *)
Definition stale_slice : slice_image :=
  {| sl_index := 2; sl_size := (2, 2); sl_dtype := int16;
     sl_pixels := [9; 9; 9; 9]%Z;
     sl_origin := []; sl_spacing := []; sl_direction := []; sl_meta := ∅ |}.

(** The converted tree with the store and a sidecar, and an output
    directory that an earlier reconstruction of depth 3 left behind. *)
Definition converted (m : metadata) : state :=
  {| fs := {[ "data/converted/S1.zarr" := NZarr store;
              "data/converted/S1.json" := NJson m;
              "data/reconstructed/S1" := NDir;
              "data/reconstructed/S1/0002.dcm" := NDicom stale_slice ]};
     stdout := []; writer_log := [] |}.

(** A store of two planes without rows, and the converted tree around it. *)
Definition flat_store : zarr_array :=
  {| zarr_format := 3; z_shape := (2, 0, 2); z_chunks := (1, 1, 2);
     z_dtype := int16; z_endian := little;
     z_blosc := {| cname := "zstd"; clevel := 1; shuffle := "bitshuffle"; typesize := 2 |};
     z_chunkdata := ∅ |}.

Definition flat_converted (m : metadata) : state :=
  {| fs := {[ "data/converted/S1.zarr" := NZarr flat_store;
              "data/converted/S1.json" := NJson m ]};
     stdout := []; writer_log := [] |}.

(** A sidecar whose spacing has a zero entry. *)
Definition sidecar_with_zero_spacing : metadata :=
  {| m_filenames := Some ["data/raw/S1/a.dcm"; "data/raw/S1/b.dcm"];
     m_origin := Some (img_origin image);
     m_spacing := Some [float_one; float_one; float_zero];
     m_direction := Some (img_direction image);
     m_size := Some (2, 2, 2);
     m_pixel_id := Some 2%Z;
     m_pixel_id_type_as_string := Some "16-bit signed integer";
     m_slices_metadata := Some tags |}.


End Demo.

(** A raw tree for the batch driver: a stray file, a directory without
    DICOM files, a series that cannot be read, and the demo series. *)
Module DemoBatch.

Definition entries (raw_dir : string) : list (string * bool) :=
  if decide (raw_dir = "data/raw")
  then [("data/raw/notes.txt", false); ("data/raw/S0", true);
        ("data/raw/BAD", true); ("data/raw/S1", true)]
  else [].

Definition only_files (raw_dir : string) : list (string * bool) :=
  [("data/raw/notes.txt", false)].

Definition series_files (series_dir : string) : list string :=
  if decide (series_dir = "data/raw/BAD") then ["data/raw/BAD/x.dcm"]
  else Demo.series_files series_dir.

Definition with_raw_dir : state :=
  {| fs := {[ "data/raw" := NDir ]}; stdout := []; writer_log := [] |}.

(** A sidecar that lacks every key but the geometry. *)
Definition bare_sidecar : metadata :=
  {| m_filenames := None;
     m_origin := Some (img_origin Demo.image);
     m_spacing := Some (img_spacing Demo.image);
     m_direction := Some (img_direction Demo.image);
     m_size := None; m_pixel_id := None; m_pixel_id_type_as_string := None;
     m_slices_metadata := None |}.

(** A sidecar without [spacing]. *)
Definition sidecar_without_spacing : metadata :=
  {| m_filenames := Some ["data/raw/S1/a.dcm"; "data/raw/S1/b.dcm"];
     m_origin := Some (img_origin Demo.image);
     m_spacing := None;
     m_direction := Some (img_direction Demo.image);
     m_size := Some (2, 2, 2); m_pixel_id := Some 2%Z;
     m_pixel_id_type_as_string := Some "16-bit signed integer";
     m_slices_metadata := Some Demo.tags |}.

(** The sidecar path alone is read-only. *)
Definition sidecar_read_only (path : string) : bool :=
  bool_decide (path ≠ "data/converted/S1.json").

(** A raw tree with a directory without DICOM files before the demo series. *)
Definition two_dirs (raw_dir : string) : list (string * bool) :=
  [("data/raw/S0", true); ("data/raw/S1", true)].

(** The batch before [main] starts, with and without the raw directory. *)
Definition start : batch := {| b_state := with_raw_dir; b_stdout := [] |}.
Definition start_without_raw_dir : batch := {| b_state := Demo.initial; b_stdout := [] |}.

End DemoBatch.

(** ** The script *)

Section Script.

(** [sys.byteorder] of the machine that writes. *)
Variable sys_byteorder : endian.
(** [ImageSeriesReader.GetGDCMSeriesFileNames]: the ordered member files of
    a series directory. *)
Variable GetGDCMSeriesFileNames : string → list string.
(** [reader.Execute()] on the given file names, with
    [MetaDataDictionaryArrayUpdateOn]: the volume and one tag dictionary
    per slice read, or the exception SimpleITK raises. *)
Variable reader_Execute : list string → result (sitk_image * list dict).
(** Whether the operating system lets the process create, replace or
    remove the entry at a path (a directory with all it holds). *)
Variable writable : string → bool.
(** The Blosc compressor and decompressor. *)
Variable blosc_encode blosc_decode : blosc_config → list Z → list Z.
(** The exception [Image.SetMetaData(k, v)] raises, if it does. *)
Variable SetMetaData_error : string → string → option exn.
(** The exception [ImageFileWriter.Execute] raises for a file name and a
    slice, if it does. *)
Variable writer_error : string → slice_image → option exn.
(** How [shutil.rmtree] ends on a tree the operating system does not let
    the process remove: the exception it raises (for the first entry it
    cannot remove), and which entries below the directory are still there
    at that point. *)
Variable rmtree_failure : string → gmap string node → exn * (string → bool).
(** What a three-dimensional image keeps of the list passed to
    [SetOrigin], [SetSpacing] and [SetDirection], or the exception the call
    raises (for a list that is too short, a spacing with a zero entry, a
    singular direction matrix). *)
Variable as_origin as_spacing as_direction : list float → result (list float).
(** Origin, spacing and direction of the two-dimensional image
    [image[:, :, i]], from origin, spacing and direction of the volume. *)
Variable plane_geometry :
  list float → list float → list float → nat → list float * list float * list float.
(** The extensions of the files [ImageFileWriter.Execute] writes next to
    the file it is given.  The image format follows from the file name, and
    some formats keep header and pixels in two files: [a.img] comes with
    [a.hdr]. *)
Variable companion_extensions : string → list string.

(** *** [os], [shutil] *)

Definition exists_ (p : string) : M bool :=
  let* f := get_fs in ret (bool_decide (is_Some (f !! p))).

(** [os.makedirs(p, exist_ok=True)] *)
Definition makedirs (p : string) : M unit :=
  let* f := get_fs in
  match f !! p with
  | Some (NJson _) | Some (NDicom _) => raise (FileExistsError p)
  | Some _ => ret ()
  | None =>
      if writable p then set_fs (<[p := NDir]> f)
      else raise (PermissionError p)
  end.

(** What is left of a file system once the tree at [p] is gone. *)
Definition without_tree (p : string) (f : gmap string node) : gmap string node :=
  filter (λ kv, ospath.under p kv.1 = false) f.

(** What is left when [shutil.rmtree(p)] stops half-way: everything outside
    the tree, the directory itself, and the entries it had not removed. *)
Definition partly_removed (p : string) (survives : string → bool)
    (f : gmap string node) : gmap string node :=
  filter (λ kv, ospath.under p kv.1 = false ∨ kv.1 = p ∨ survives kv.1 = true) f.

(** [shutil.rmtree(p)]: the whole tree goes, or the call raises at the
    first entry it cannot remove and what it removed before stays
    removed. *)
Definition rmtree (p : string) : M unit :=
  let* f := get_fs in
  match f !! p with
  | None => raise (FileNotFoundError p)
  | Some (NJson _) | Some (NDicom _) => raise (NotADirectoryError p)
  | Some _ =>
      if writable p then set_fs (without_tree p f)
      else
        set_fs (partly_removed p (rmtree_failure p f).2 f) >>
        raise (rmtree_failure p f).1
  end.

(** *** [zarr] *)

(** The codec pipeline of one chunk: [bytes] then [blosc]. *)
Definition encode_chunk (z : zarr_array) (vs : list Z) : list Z :=
  blosc_encode (z_blosc z) (bytes_encode (z_endian z) (z_dtype z) vs).

Definition decode_chunk (z : zarr_array) (bs : list Z) : option (list Z) :=
  bytes_decode (z_endian z) (z_dtype z) (blosc_decode (z_blosc z) bs).

(** The store keeps one plane per chunk: chunk shape [(1, H, W)]. *)
Definition plane_chunked (z : zarr_array) : Prop :=
  z_chunks z = (1, (z_shape z).1.2, (z_shape z).2).

Global Instance plane_chunked_dec z : Decision (plane_chunked z).
Proof. unfold plane_chunked. apply _. Defined.

(** The chunk grid of a plane-chunked store: [(i, 0, 0)] for every plane
    [i]; empty when a plane holds no element. *)
Definition chunk_grid (z : zarr_array) : list nat :=
  let '(d, h, w) := z_shape z in
  if decide (0 < h ∧ 0 < w) then seq 0 d else [].

(** [zarr.open(path, mode="w", zarr_format=3, shape=.., chunks=..,
    dtype=.., codecs=[bytes, blosc])]: whatever is at [path] is replaced by
    a new array without chunks. *)
Definition zarr_open_w (path : string) (shp chk : nat * nat * nat) (t : dtype)
    (e : endian) (b : blosc_config) : M unit :=
  let* f := get_fs in
  if writable path then
    set_fs (<[path := NZarr {| zarr_format := 3; z_shape := shp; z_chunks := chk;
                                z_dtype := t; z_endian := e; z_blosc := b;
                                z_chunkdata := ∅ |}]> (without_tree path f))
  else raise (PermissionError path).

Definition with_chunkdata (z : zarr_array) (c : gmap (nat * nat * nat) (list Z)) : zarr_array :=
  {| zarr_format := zarr_format z; z_shape := z_shape z; z_chunks := z_chunks z;
     z_dtype := z_dtype z; z_endian := z_endian z; z_blosc := z_blosc z;
     z_chunkdata := c |}.

(** The chunks after [z[:] = arr]. *)
Definition store_planes (z : zarr_array) (arr : ndarray) : gmap (nat * nat * nat) (list Z) :=
  let hw := height_of arr * width_of arr in
  foldr (λ i c, <[(i, 0, 0) := encode_chunk z (plane hw (data arr) i)]> c)
        (z_chunkdata z) (chunk_grid z).

(** [z[:] = arr] on the array stored at [path]. *)
Definition zarr_setitem (path : string) (arr : ndarray) : M unit :=
  let* f := get_fs in
  match f !! path with
  | Some (NZarr z) =>
      if decide (z_shape z = shape arr ∧ plane_chunked z)
      then set_fs (<[path := NZarr (with_chunkdata z (store_planes z arr))]> f)
      else raise (ValueError "shape or chunk grid mismatch")
  | _ => raise (FileNotFoundError path)
  end.

(** The number of elements of one chunk. *)
Definition chunk_volume (z : zarr_array) : nat :=
  (z_chunks z).1.1 * ((z_chunks z).1.2 * (z_chunks z).2).

(** One chunk read back and decoded; a chunk that was never written reads
    as the fill value 0. *)
Definition read_chunk (z : zarr_array) (c : nat * nat * nat) : result (list Z) :=
  match z_chunkdata z !! c with
  | None => Ok (replicate (chunk_volume z) 0%Z)
  | Some bs =>
      match decode_chunk z bs with
      | Some vs =>
          if decide (length vs = chunk_volume z) then Ok vs
          else Raise (ValueError "chunk of the wrong size")
      | None => Raise (ValueError "chunk does not decode")
      end
  end.

(** The element at C-order position [idx] of the array, that is at
    [(d, h, w)]: it lies in chunk [(d / cd, h / ch, w / cw)] of a store with
    chunk shape [(cd, ch, cw)], at [(d mod cd, h mod ch, w mod cw)]. *)
Definition read_element (z : zarr_array) (idx : nat) : result Z :=
  let '(_, H, W) := z_shape z in
  let '(cd, ch, cw) := z_chunks z in
  let d := idx / (H * W) in
  let h := (idx / W) mod H in
  let w := idx mod W in
  rbind (read_chunk z (d / cd, h / ch, w / cw)) (λ vs,
  match vs !! ((d mod cd * ch + h mod ch) * cw + w mod cw) with
  | Some v => Ok v
  | None => Raise (ValueError "chunk shape with a zero extent")
  end).

Fixpoint read_elements (z : zarr_array) (l : list nat) : result (list Z) :=
  match l with
  | [] => Ok []
  | idx :: r =>
      rbind (read_element z idx) (λ v,
      rbind (read_elements z r) (λ q, Ok (v :: q)))
  end.

(** [z[:]]: every element of the array, in C order, whatever the chunk
    shape of the store. *)
Definition zarr_getitem (z : zarr_array) : result ndarray :=
  let '(D, H, W) := z_shape z in
  rbind (read_elements z (seq 0 (D * (H * W)))) (λ d,
  Ok {| shape := z_shape z; arr_dtype := z_dtype z; data := d |}).

(** [zarr.open(path, mode="r")[:]] *)
Definition zarr_open_r_getitem (path : string) : M ndarray :=
  let* f := get_fs in
  match f !! path with
  | Some (NZarr z) => lift (zarr_getitem z)
  | _ => raise (FileNotFoundError path)
  end.

(** *** The reader's metadata dictionary array *)

Definition GetMetaDataKeys (dicts : list dict) (i : nat) : M (list string) :=
  match dicts !! i with
  | Some d => ret (dict_keys d)
  | None => raise (RuntimeError "slice index out of range")
  end.

Definition GetMetaData (dicts : list dict) (i : nat) (key : string) : M string :=
  match dicts !! i with
  | Some d =>
      match dict_get key d with
      | Some v => ret v
      | None => raise (RuntimeError "key not in dictionary")
      end
  | None => raise (RuntimeError "slice index out of range")
  end.

(** *** [save_metadata], [load_metadata] *)

(** [with open(path, "w") as f: json.dump(m, f, indent=4)] *)
Definition json_dump (path : string) (m : metadata) : M unit :=
  let* f := get_fs in
  match f !! path with
  | Some NDir | Some (NZarr _) => raise (IsADirectoryError path)
  | _ =>
      if writable path then set_fs (<[path := NJson m]> f)
      else raise (PermissionError path)
  end.

Definition save_metadata (image : sitk_image) (reader : list dict)
    (filenames : list string) (output_path : string) : M unit :=
  let depth := (GetSize image).2 in
  let* slices_metadata :=
    fold_m (λ slices_metadata i,
              let* keys := GetMetaDataKeys reader i in
              let* slice_tags :=
                fold_m (λ slice_tags key,
                          let* v := GetMetaData reader i key in
                          ret (dict_set key v slice_tags))
                       keys [] in
              ret (slices_metadata ++ [slice_tags])%list)
           (seq 0 depth) [] in
  json_dump output_path
    {| m_filenames := Some filenames;
       m_origin := Some (img_origin image);
       m_spacing := Some (img_spacing image);
       m_direction := Some (img_direction image);
       m_size := Some (GetSize image);
       m_pixel_id := Some (GetPixelID image);
       m_pixel_id_type_as_string := Some (GetPixelIDTypeAsString image);
       m_slices_metadata := Some slices_metadata |}.

(** [with open(path, "r") as f: return json.load(f)] *)
Definition load_metadata (input_path : string) : M metadata :=
  let* f := get_fs in
  match f !! input_path with
  | Some (NJson m) => ret m
  | Some NDir | Some (NZarr _) => raise (IsADirectoryError input_path)
  | Some (NDicom _) => raise (ValueError "not a JSON document")
  | None => raise (FileNotFoundError input_path)
  end.

(** *** [dicom_to_zarr] *)

Definition blosc_configuration (arr : ndarray) : blosc_config :=
  {| cname := "zstd"; clevel := 1; shuffle := "bitshuffle";
     typesize := itemsize (arr_dtype arr) |}.

(** Lines 79-110: remove a store that is in the way, create the new one
    chunked by slice, and assign the array to it. *)
Definition save_array (zarr_path : string) (arr : ndarray) : M unit :=
  let* ex := exists_ zarr_path in
  (if ex : bool then rmtree zarr_path else ret ()) >>
  let chunks := (1, height_of arr, width_of arr) in
  zarr_open_w zarr_path (shape arr) chunks (arr_dtype arr)
    (if decide (sys_byteorder = little) then little else big)
    (blosc_configuration arr) >>
  zarr_setitem zarr_path arr.

Definition dicom_to_zarr (series_dir : string) : M (option string * option string) :=
  let series_id := ospath.basename series_dir in
  print (PrintProcessing series_id) >>
  print PrintLoadingDicom >>
  let dicom_names := GetGDCMSeriesFileNames series_dir in
  if bool_decide (dicom_names = []) then
    print (PrintNoDicomFiles series_dir) >>
    ret (None, None)
  else
    let* (image, reader) := lift (reader_Execute dicom_names) in
    let arr := GetArrayFromImage image in
    print PrintConverting >>
    makedirs CONVERTED_DIR >>
    let zarr_path := ospath.join CONVERTED_DIR (series_id +:+ ".zarr") in
    let json_path := ospath.join CONVERTED_DIR (series_id +:+ ".json") in
    save_array zarr_path arr >>
    save_metadata image reader dicom_names json_path >>
    print (PrintSaved zarr_path json_path) >>
    ret (Some zarr_path, Some json_path).

(** *** [zarr_to_dicom] *)

(** [image.SetOrigin(o)], [image.SetSpacing(sp)], [image.SetDirection(d)]:
    the image keeps what SimpleITK makes of the list, or the call raises
    and the script stops there. *)
Definition SetOrigin (im : sitk_image) (o : list float) : result sitk_image :=
  rbind (as_origin o) (λ v,
  Ok {| img_array := img_array im; img_origin := v;
        img_spacing := img_spacing im; img_direction := img_direction im |}).

Definition SetSpacing (im : sitk_image) (sp : list float) : result sitk_image :=
  rbind (as_spacing sp) (λ v,
  Ok {| img_array := img_array im; img_origin := img_origin im;
        img_spacing := v; img_direction := img_direction im |}).

Definition SetDirection (im : sitk_image) (d : list float) : result sitk_image :=
  rbind (as_direction d) (λ v,
  Ok {| img_array := img_array im; img_origin := img_origin im;
        img_spacing := img_spacing im; img_direction := v |}).

(** [image[:, :, i]] when it returns: plane [i] of the volume as a
    two-dimensional image of the volume's element type. *)
Definition extract_slice (im : sitk_image) (i : nat) : slice_image :=
  let a := img_array im in
  let g := plane_geometry (img_origin im) (img_spacing im) (img_direction im) i in
  {| sl_index := i;
     sl_size := (width_of a, height_of a);
     sl_dtype := arr_dtype a;
     sl_pixels := plane (height_of a * width_of a) (data a) i;
     sl_origin := g.1.1;
     sl_spacing := g.1.2;
     sl_direction := g.2;
     sl_meta := ∅ |}.

(** The exception [image[:, :, i]] raises, if it does: [IndexError] for an
    index beyond the depth, [RuntimeError] for a plane without pixels. *)
Definition slicing_error (im : sitk_image) (i : nat) : option exn :=
  let a := img_array im in
  if decide (depth_of a <= i) then Some IndexError
  else if decide (height_of a = 0 ∨ width_of a = 0)
       then Some (RuntimeError "plane without pixels")
       else None.

(** Line 160, as far as it can end the loop. *)
Definition take_plane (im : sitk_image) (i : nat) : M unit :=
  match slicing_error im i with
  | Some e => raise e
  | None => ret ()
  end.

(** [slice_img.SetMetaData(k, v)]: the entry is set, or the call raises and
    the slice is as before. *)
Definition SetMetaData (img : slice_image) (k v : string) : result slice_image :=
  match SetMetaData_error k v with
  | Some e => Raise e
  | None =>
      Ok {| sl_index := sl_index img; sl_size := sl_size img; sl_dtype := sl_dtype img;
            sl_pixels := sl_pixels img; sl_origin := sl_origin img;
            sl_spacing := sl_spacing img; sl_direction := sl_direction img;
            sl_meta := <[k := v]> (sl_meta img) |}
  end.

(** The files a successful [writer.Execute] leaves for the file name
    [out_name]: the file itself and its companions, which share its root. *)
Definition written_paths (out_name : string) : list string :=
  out_name :: ((λ ext, (ospath.splitext out_name).1 +:+ ext)
                 <$> companion_extensions out_name).

(** The file system once the writer has written [slice_img] to [paths]
    (every file of the slice is recorded as holding the slice). *)
Definition write_files (slice_img : slice_image) (paths : list string)
    (f : gmap string node) : gmap string node :=
  foldr (λ p g, <[p := NDicom slice_img]> g) f paths.

(** The outcome of [writer.SetFileName(out_name); writer.Execute(slice_img)]
    on file system [f]: a name that ends in a separator cannot be written,
    nor can a file be written where a directory is; apart from that the
    writer decides.  SimpleITK reports every failure as a [RuntimeError]. *)
Definition writer_outcome (f : gmap string node) (out_name : string)
    (slice_img : slice_image) : option exn :=
  if ospath.endswith_sep out_name
     || bool_decide (Exists (λ p, is_dir (f !! p) = true) (written_paths out_name))
  then Some (RuntimeError "cannot write the file")
  else writer_error out_name slice_img.

(** [writer.SetFileName(out_name); writer.Execute(slice_img)] *)
Definition writer_Execute (out_name : string) (slice_img : slice_image) : M unit :=
  let* f := get_fs in
  match writer_outcome f out_name slice_img with
  | Some e =>
      log_call {| wc_path := out_name; wc_image := slice_img; wc_error := Some e |} >>
      raise e
  | None =>
      set_fs (write_files slice_img (written_paths out_name) f) >>
      log_call {| wc_path := out_name; wc_image := slice_img; wc_error := None |}
  end.

(** Lines 164-172: the tags of slice [i], each key under its own [try]. *)
Definition restore_tags (slices_metadata : list dict) (i : nat)
    (slice_img : slice_image) : M slice_image :=
  if decide (i < length slices_metadata) then
    let* slice_tags := index slices_metadata i in
    fold_m (λ img kv,
              try_except (lift (SetMetaData img kv.1 kv.2)) (λ _, ret img))
           slice_tags slice_img
  else ret slice_img.

(** Lines 179-182: the file a slice goes to. *)
Definition output_name (recon_series_dir : string) (filenames : list string)
    (extension : string) (i : nat) : M string :=
  if decide (i < length filenames) then
    let* fi := index filenames i in
    ret (ospath.join recon_series_dir (ospath.basename fi))
  else
    ret (ospath.join recon_series_dir (zfill4 i +:+ extension)).

(** Lines 149-153: the extension of the fall-back names. *)
Definition detect_extension (filenames : list string) : M string :=
  if bool_decide (filenames ≠ []) then
    let* f0 := index filenames 0 in
    ret (ospath.splitext f0).2
  else ret ".dcm".

(** Lines 160-188: one turn of the loop over the slices, for a plane that
    can be taken. *)
Definition write_slice (reconstructed_image : sitk_image) (recon_series_dir : string)
    (filenames : list string) (extension : string) (slices_metadata : list dict)
    (i : nat) : M unit :=
  let slice_img := extract_slice reconstructed_image i in
  let* slice_img := restore_tags slices_metadata i slice_img in
  let* out_name := output_name recon_series_dir filenames extension i in
  try_except (writer_Execute out_name slice_img)
             (λ e, print (PrintErrorWritingSlice i e)).

(** Lines 158-188, [for i in range(depth): ...]: the slicing of line 160
    stands outside every [try] and ends the loop when it raises. *)
Definition write_slices (reconstructed_image : sitk_image) (recon_series_dir : string)
    (filenames : list string) (extension : string) (slices_metadata : list dict)
    (depth : nat) : M unit :=
  for_each (seq 0 depth)
    (λ i, take_plane reconstructed_image i >>
          write_slice reconstructed_image recon_series_dir filenames extension
                      slices_metadata i).

(** Lines 138-141: the output directory, emptied if it was there. *)
Definition fresh_directory (recon_series_dir : string) : M unit :=
  let* ex := exists_ recon_series_dir in
  (if ex : bool then rmtree recon_series_dir else ret ()) >>
  makedirs recon_series_dir.

Definition zarr_to_dicom (zarr_path json_path series_id : string) : M unit :=
  print PrintLoadingBack >>
  let* arr_loaded := zarr_open_r_getitem zarr_path in
  let* metadata := load_metadata json_path in
  print PrintReconstructing >>
  let reconstructed_image := GetImageFromArray arr_loaded in
  let* origin := getitem "origin" (m_origin metadata) in
  let* reconstructed_image := lift (SetOrigin reconstructed_image origin) in
  let* spacing := getitem "spacing" (m_spacing metadata) in
  let* reconstructed_image := lift (SetSpacing reconstructed_image spacing) in
  let* direction := getitem "direction" (m_direction metadata) in
  let* reconstructed_image := lift (SetDirection reconstructed_image direction) in
  let recon_series_dir := ospath.join RECONSTRUCTED_DIR series_id in
  fresh_directory recon_series_dir >>
  let filenames := default [] (m_filenames metadata) in
  let* extension := detect_extension filenames in
  let depth := depth_of arr_loaded in
  let slices_metadata := default [] (m_slices_metadata metadata) in
  write_slices reconstructed_image recon_series_dir filenames extension
               slices_metadata depth >>
  print (PrintReconstructed recon_series_dir) >>
  print PrintRule.

(** *** [process_series] *)

Definition process_series (series_dir : string) : M unit :=
  let series_id := ospath.basename series_dir in
  let* (zarr_path, json_path) := dicom_to_zarr series_dir in
  if truthy zarr_path && truthy json_path then
    match zarr_path, json_path with
    | Some zp, Some jp => zarr_to_dicom zp jp series_id
    | _, _ => ret ()
    end
  else ret ().

(** *** What the loop leaves behind, without exceptions *)

(** One key of a tag dictionary under [try: ... except Exception: pass]. *)
Definition attach (img : slice_image) (kv : string * string) : slice_image :=
  match SetMetaData img kv.1 kv.2 with
  | Ok img' => img'
  | Raise _ => img
  end.

(** Slice [i] as it reaches the writer. *)
Definition tagged_slice (image : sitk_image) (slices_metadata : list dict)
    (i : nat) : slice_image :=
  foldl attach (extract_slice image i) (default [] (slices_metadata !! i)).

(** [sl] is plane [i] of the array [a]: the pixels of that plane in (y, x)
    order, the element type of the array, and the size (x, y) of a plane. *)
Definition is_plane (a : ndarray) (i : nat) (sl : slice_image) : Prop :=
  sl_index sl = i
  ∧ sl_pixels sl = plane (height_of a * width_of a) (data a) i
  ∧ sl_dtype sl = arr_dtype a
  ∧ sl_size sl = (width_of a, height_of a).

(** The file name slice [i] goes to. *)
Definition slice_name (recon_series_dir : string) (filenames : list string)
    (extension : string) (i : nat) : string :=
  match filenames !! i with
  | Some fi => ospath.join recon_series_dir (ospath.basename fi)
  | None => ospath.join recon_series_dir (zfill4 i +:+ extension)
  end.

(** Everything the turns [l] of the loop are to leave in the output
    directory. *)
Definition slice_files (recon_series_dir : string) (filenames : list string)
    (extension : string) (l : list nat) : list string :=
  l ≫= λ i, written_paths (slice_name recon_series_dir filenames extension i).

(** The state after one turn of the loop. *)
Definition after_slice (image : sitk_image) (recon_series_dir : string)
    (filenames : list string) (extension : string) (slices_metadata : list dict)
    (s : state) (i : nat) : state :=
  let img := tagged_slice image slices_metadata i in
  let out_name := slice_name recon_series_dir filenames extension i in
  match writer_outcome (fs s) out_name img with
  | Some e =>
      {| fs := fs s;
         stdout := stdout s ++ [PrintErrorWritingSlice i e];
         writer_log := writer_log s
                         ++ [{| wc_path := out_name; wc_image := img; wc_error := Some e |}] |}
  | None =>
      {| fs := write_files img (written_paths out_name) (fs s);
         stdout := stdout s;
         writer_log := writer_log s
                         ++ [{| wc_path := out_name; wc_image := img; wc_error := None |}] |}
  end.

(** The writer calls of the turns [l] of the loop, started in state [s]. *)
Fixpoint loop_calls (image : sitk_image) (recon_series_dir : string)
    (filenames : list string) (extension : string) (slices_metadata : list dict)
    (s : state) (l : list nat) : list writer_call :=
  match l with
  | [] => []
  | i :: r =>
      let img := tagged_slice image slices_metadata i in
      let out_name := slice_name recon_series_dir filenames extension i in
      {| wc_path := out_name; wc_image := img;
         wc_error := writer_outcome (fs s) out_name img |}
      :: loop_calls image recon_series_dir filenames extension slices_metadata
           (after_slice image recon_series_dir filenames extension slices_metadata s i) r
  end.


(** The entries [SetMetaData] accepts. *)
Definition accepted (d : dict) : dict :=
  filter (λ kv, SetMetaData_error kv.1 kv.2 = None) d.

Definition set_entry (m : gmap string string) (kv : string * string) : gmap string string :=
  <[kv.1 := kv.2]> m.

(** The entries strictly below directory [d]. *)
Definition listdir (f : gmap string node) (d : string) : gmap string node :=
  filter (λ kv, ospath.under d kv.1 = true ∧ kv.1 ≠ d) f.

(** The array [zarr.open(.., mode="w", ..)] creates for [arr], and the same
    array after [z[:] = arr]. *)
Definition created_array (arr : ndarray) : zarr_array :=
  {| zarr_format := 3; z_shape := shape arr;
     z_chunks := (1, height_of arr, width_of arr);
     z_dtype := arr_dtype arr;
     z_endian := if decide (sys_byteorder = little) then little else big;
     z_blosc := blosc_configuration arr;
     z_chunkdata := ∅ |}.

Definition stored_array (arr : ndarray) : zarr_array :=
  with_chunkdata (created_array arr) (store_planes (created_array arr) arr).

(** What [rmtree] accepts at a path: nothing there, a directory or a store. *)
Definition no_plain_file (f : gmap string node) (p : string) : Prop :=
  match f !! p with
  | Some (NJson _) | Some (NDicom _) => False
  | _ => True
  end.

(** The extension [zarr_to_dicom] detects for the fall-back names. *)
Definition fallback_extension (filenames : list string) : string :=
  match filenames with
  | [] => ".dcm"
  | f0 :: _ => (ospath.splitext f0).2
  end.

(** The state in which the loop over the slices starts: the two progress
    lines are out and the output directory is there and empty. *)
Definition at_loop_start (recon_series_dir : string) (s : state) : state :=
  {| fs := <[recon_series_dir := NDir]>
             (if bool_decide (is_Some (fs s !! recon_series_dir))
              then without_tree recon_series_dir (fs s) else fs s);
     stdout := stdout s ++ [PrintLoadingBack; PrintReconstructing];
     writer_log := writer_log s |}.

(** What the image keeps of a sidecar entry that is there and accepted. *)
Definition kept (as_ : list float → result (list float))
    (entry : option (list float)) : list float :=
  match entry with
  | Some l => match as_ l with Ok v => v | Raise _ => [] end
  | None => []
  end.

(** The volume [zarr_to_dicom] cuts into slices. *)
Definition reconstructed (arr : ndarray) (m : metadata) : sitk_image :=
  {| img_array := arr;
     img_origin := kept as_origin (m_origin m);
     img_spacing := kept as_spacing (m_spacing m);
     img_direction := kept as_direction (m_direction m) |}.

(** The state [zarr_to_dicom] ends in when nothing before the loop raises. *)
Definition after_reconstruction (arr : ndarray) (m : metadata)
    (series_id : string) (s : state) : state :=
  let recon_series_dir := ospath.join RECONSTRUCTED_DIR series_id in
  let filenames := default [] (m_filenames m) in
  let s' := foldl (after_slice (reconstructed arr m) recon_series_dir filenames
                               (fallback_extension filenames)
                               (default [] (m_slices_metadata m)))
                  (at_loop_start recon_series_dir s) (seq 0 (depth_of arr)) in
  {| fs := fs s';
     stdout := stdout s' ++ [PrintReconstructed recon_series_dir; PrintRule];
     writer_log := writer_log s' |}.

(** What [zarr_to_dicom] needs in order to run through its loop: a store
    that loads as [arr], a sidecar [m] with an origin, a spacing and a
    direction that SimpleITK accepts, an output directory it may replace,
    and planes that hold pixels (unless there is no plane at all). *)
Definition reconstructible (zarr_path json_path series_id : string)
    (arr : ndarray) (m : metadata) (s : state) : Prop :=
  (∃ z, fs s !! zarr_path = Some (NZarr z) ∧ zarr_getitem z = Ok arr)
  ∧ fs s !! json_path = Some (NJson m)
  ∧ (∃ o v, m_origin m = Some o ∧ as_origin o = Ok v)
  ∧ (∃ sp v, m_spacing m = Some sp ∧ as_spacing sp = Ok v)
  ∧ (∃ d v, m_direction m = Some d ∧ as_direction d = Ok v)
  ∧ writable (ospath.join RECONSTRUCTED_DIR series_id) = true
  ∧ no_plain_file (fs s) (ospath.join RECONSTRUCTED_DIR series_id)
  ∧ (0 < depth_of arr → 0 < height_of arr ∧ 0 < width_of arr).

(** A statement that does not raise [IndexError], whatever the state. *)
Definition never_IndexError {A} (m : M A) : Prop :=
  ∀ s e s', m s = (Raise e, s') → e ≠ IndexError.

(** *** [main] *)

(** [os.scandir(d)]: the entries of a directory, each with its path and
    whether it is a directory. *)
Variable scandir : string → list (string * bool).

Definition main (b : batch) : result unit * batch :=
  let s := b_state b in
  match fs s !! RAW_DIR with
  | None =>
      (Ok (), {| b_state := s; b_stdout := b_stdout b ++ [PrintRawDirMissing RAW_DIR] |})
  | Some (NJson _) | Some (NDicom _) =>
      (Raise (NotADirectoryError RAW_DIR), b)
  | Some _ =>
      let entries := scandir RAW_DIR in
      let series_dirs := fst <$> filter (λ f, f.2 = true) entries in
      if bool_decide (series_dirs = []) then
        (Ok (), {| b_state := s; b_stdout := b_stdout b ++ [PrintNoSeriesFolders RAW_DIR] |})
      else
        let (r, s') := for_each series_dirs process_series s in
        (r, {| b_state := s'; b_stdout := b_stdout b |})
  end.

(** *** Preconditions of a whole conversion *)

(** A statement that leaves the file system and the writer log alone,
    whether it returns or raises. *)
Definition quiet {A} (m : M A) : Prop :=
  ∀ s r s', m s = (r, s') → fs s' = fs s ∧ writer_log s' = writer_log s.



(** A single path component that names an entry of its directory: no
    separator in it, and not the empty name, [.] or [..] (the file system
    of this development compares paths as they are written). *)
Definition plain_name (b : string) : bool :=
  negb (ospath.has_sep b) && bool_decide (b ≠ "" ∧ b ≠ "." ∧ b ≠ "..").

(** A statement that changes the file system at most at the paths in
    [where_], whether it returns or raises. *)
Definition touches_only {A} (where_ : string → Prop) (m : M A) : Prop :=
  ∀ s r s' k, m s = (r, s') → ¬ where_ k → fs s' !! k = fs s !! k.

(** The series in [series_dir] loads as [image] with the tag dictionaries
    [dicts]: discovery finds files, the reader returns a well-formed,
    non-empty volume with a three-dimensional geometry, and there is a
    dictionary (distinct keys) for every slice. *)
Definition loads_as (series_dir : string) (image : sitk_image) (dicts : list dict) : Prop :=
  GetGDCMSeriesFileNames series_dir ≠ []
  ∧ reader_Execute (GetGDCMSeriesFileNames series_dir) = Ok (image, dicts)
  ∧ wf_array (img_array image) ∧ nonempty (img_array image)
  ∧ depth_of (img_array image) <= length dicts
  ∧ Forall (λ d : dict, NoDup d.*1) dicts
  ∧ length (img_origin image) = 3 ∧ length (img_spacing image) = 3
  ∧ length (img_direction image) = 9.

(** SimpleITK takes the geometry of [image] back as it handed it out. *)
Definition geometry_accepted (image : sitk_image) : Prop :=
  as_origin (img_origin image) = Ok (img_origin image)
  ∧ as_spacing (img_spacing image) = Ok (img_spacing image)
  ∧ as_direction (img_direction image) = Ok (img_direction image).

(** The converted tree can take the store of [series_dir]: the directory is
    there or may be created, the store path is writable and free of a plain
    file. *)
Definition store_placeable (series_dir : string) (s : state) : Prop :=
  let zarr_path := ospath.join CONVERTED_DIR (ospath.basename series_dir +:+ ".zarr") in
  no_plain_file (fs s) CONVERTED_DIR
  ∧ (fs s !! CONVERTED_DIR = None → writable CONVERTED_DIR = true)
  ∧ writable zarr_path = true
  ∧ no_plain_file (fs s) zarr_path.

(** The sidecar path holds no directory. *)
Definition sidecar_free (series_dir : string) (s : state) : Prop :=
  is_dir (fs s !! ospath.join CONVERTED_DIR (ospath.basename series_dir +:+ ".json")) = false.

(** The file system as [dicom_to_zarr] leaves it for a series that loads as
    [image] with dictionaries [dicts], sidecar included or not. *)
Definition with_store (series_dir : string) (image : sitk_image) (s : state)
    : gmap string node :=
  let zarr_path := ospath.join CONVERTED_DIR (ospath.basename series_dir +:+ ".zarr") in
  <[zarr_path := NZarr (stored_array (GetArrayFromImage image))]>
    (without_tree zarr_path
       (match fs s !! CONVERTED_DIR with
        | None => <[CONVERTED_DIR := NDir]> (fs s)
        | Some _ => fs s
        end)).

Definition sidecar_of (series_dir : string) (image : sitk_image) (dicts : list dict)
    : metadata :=
  {| m_filenames := Some (GetGDCMSeriesFileNames series_dir);
     m_origin := Some (img_origin image);
     m_spacing := Some (img_spacing image);
     m_direction := Some (img_direction image);
     m_size := Some (GetSize image);
     m_pixel_id := Some (GetPixelID image);
     m_pixel_id_type_as_string := Some (GetPixelIDTypeAsString image);
     m_slices_metadata := Some (take (depth_of (img_array image)) dicts) |}.

Definition after_dicom_to_zarr (series_dir : string) (image : sitk_image)
    (dicts : list dict) (s : state) : state :=
  let series_id := ospath.basename series_dir in
  let zarr_path := ospath.join CONVERTED_DIR (series_id +:+ ".zarr") in
  let json_path := ospath.join CONVERTED_DIR (series_id +:+ ".json") in
  {| fs := <[json_path := NJson (sidecar_of series_dir image dicts)]>
             (with_store series_dir image s);
     stdout := stdout s ++ [PrintProcessing series_id; PrintLoadingDicom; PrintConverting;
                            PrintSaved zarr_path json_path];
     writer_log := writer_log s |}.

(** Leading zeros dropped. *)
Fixpoint strip_zeros (p : string) : string :=
  match p with
  | String c r => if bool_decide (c = "0"%char) then strip_zeros r else p
  | EmptyString => EmptyString
  end.

(** ** Properties *)

(** *** The monad *)

Lemma bind_ok {A B} (m : M A) (k : A → M B) s a s1 :
  m s = (Ok a, s1) → bind m k s = k a s1.
Proof. intros H. unfold bind. by rewrite H. Qed.

Lemma bind_raise {A B} (m : M A) (k : A → M B) s e s1 :
  m s = (Raise e, s1) → bind m k s = (Raise e, s1).
Proof. intros H. unfold bind. by rewrite H. Qed.

Lemma bind_ok_inv {A B} (m : M A) (k : A → M B) s b s' :
  bind m k s = (Ok b, s') → ∃ a s1, m s = (Ok a, s1) ∧ k a s1 = (Ok b, s').
Proof.
  unfold bind. destruct (m s) as [[a|e] s1]; intros H.
  - by exists a, s1.
  - discriminate.
Qed.

Lemma state_eta s :
  {| fs := fs s; stdout := stdout s; writer_log := writer_log s |} = s.
Proof. by destruct s. Qed.

Lemma print_run c s :
  print c s = (Ok (), {| fs := fs s; stdout := stdout s ++ [c]; writer_log := writer_log s |}).
Proof. reflexivity. Qed.

Lemma lift_ok_inv {A} (r : result A) s a s' :
  lift r s = (Ok a, s') → r = Ok a ∧ s' = s.
Proof. destruct r; cbn; intros H; by simplify_eq. Qed.

Lemma for_each_app {A} (l1 l2 : list A) (body : A → M unit) :
  ∀ s s1, for_each l1 body s = (Ok (), s1) →
          for_each (l1 ++ l2) body s = for_each l2 body s1.
Proof.
  induction l1 as [|x l1 IH]; intros s s1 H; cbn in *.
  - by simplify_eq.
  - unfold bind in *. destruct (body x s) as [[[]|e] s2]; [eauto | discriminate].
Qed.


(** *** The loop over the slices, turn by turn *)

Lemma restore_keys_run (d : dict) :
  ∀ img s,
    fold_m (λ img kv, try_except (lift (SetMetaData img kv.1 kv.2)) (λ _, ret img)) d img s
    = (Ok (foldl attach img d), s).
Proof.
  induction d as [|kv d IH]; intros img s; [done|].
  cbn [fold_m foldl]. unfold bind, try_except at 1, attach at 2.
  destruct (SetMetaData img kv.1 kv.2) as [img'|e]; cbn; apply IH.
Qed.

Lemma restore_tags_run slices_metadata i img s :
  restore_tags slices_metadata i img s
  = (Ok (foldl attach img (default [] (slices_metadata !! i))), s).
Proof.
  unfold restore_tags. case_decide as Hi.
  - destruct (lookup_lt_is_Some_2 slices_metadata i Hi) as [d Hd].
    unfold index, bind. rewrite Hd. cbn. apply restore_keys_run.
  - rewrite lookup_ge_None_2 by lia. done.
Qed.

Lemma output_name_run recon_series_dir filenames extension i s :
  output_name recon_series_dir filenames extension i s
  = (Ok (slice_name recon_series_dir filenames extension i), s).
Proof.
  unfold output_name, slice_name. case_decide as Hi.
  - destruct (lookup_lt_is_Some_2 filenames i Hi) as [fi Hfi].
    unfold index, bind. by rewrite Hfi.
  - by rewrite lookup_ge_None_2 by lia.
Qed.

Lemma write_slice_run image recon_series_dir filenames extension slices_metadata i s :
  write_slice image recon_series_dir filenames extension slices_metadata i s
  = (Ok (), after_slice image recon_series_dir filenames extension slices_metadata s i).
Proof.
  unfold write_slice.
  rewrite (bind_ok _ _ _ _ _ (restore_tags_run _ _ _ _)).
  rewrite (bind_ok _ _ _ _ _ (output_name_run _ _ _ _ _)).
  unfold try_except, writer_Execute, after_slice, tagged_slice, bind. cbn.
  by destruct (writer_outcome _ _ _).
Qed.

Lemma slicing_error_None image i :
  i < depth_of (img_array image) →
  0 < height_of (img_array image) → 0 < width_of (img_array image) →
  slicing_error image i = None.
Proof.
  intros Hi Hh Hw. unfold slicing_error.
  rewrite decide_False by lia. by rewrite decide_False by lia.
Qed.

Lemma take_plane_run image i s :
  slicing_error image i = None → take_plane image i s = (Ok (), s).
Proof. intros H. unfold take_plane. by rewrite H. Qed.

Lemma for_each_write_slice_run image recon_series_dir filenames extension slices_metadata l :
  (∀ i, i ∈ l → slicing_error image i = None) →
  ∀ s,
    for_each l (λ i, take_plane image i >>
                     write_slice image recon_series_dir filenames extension
                                 slices_metadata i) s
    = (Ok (), foldl (after_slice image recon_series_dir filenames extension slices_metadata) s l).
Proof.
  induction l as [|i l IH]; intros Hl s; [done|].
  cbn [for_each foldl].
  assert ((take_plane image i >>
           write_slice image recon_series_dir filenames extension slices_metadata i) s
          = (Ok (), after_slice image recon_series_dir filenames extension
                                slices_metadata s i)) as Hturn.
  { rewrite (bind_ok _ _ _ _ _ (take_plane_run _ _ _ (Hl i (list_elem_of_here _ _)))).
    apply write_slice_run. }
  rewrite (bind_ok _ _ _ _ _ Hturn).
  apply IH. intros i' Hi'. apply Hl. by apply list_elem_of_further.
Qed.

Lemma write_slices_run image recon_series_dir filenames extension slices_metadata depth s :
  depth <= depth_of (img_array image) →
  (0 < depth → 0 < height_of (img_array image) ∧ 0 < width_of (img_array image)) →
  write_slices image recon_series_dir filenames extension slices_metadata depth s
  = (Ok (), foldl (after_slice image recon_series_dir filenames extension slices_metadata)
                  s (seq 0 depth)).
Proof.
  intros Hd Hp. apply for_each_write_slice_run.
  intros i Hi. apply elem_of_seq in Hi. apply slicing_error_None; [lia | apply Hp; lia..].
Qed.

(** The log grows by one call per turn, in order. *)
Lemma after_slices_log image recon_series_dir filenames extension slices_metadata l :
  ∀ s,
    let s' := foldl (after_slice image recon_series_dir filenames extension slices_metadata) s l in
    wc_path <$> writer_log s'
    = (wc_path <$> writer_log s) ++ (slice_name recon_series_dir filenames extension <$> l)
    ∧ wc_image <$> writer_log s'
      = (wc_image <$> writer_log s) ++ (tagged_slice image slices_metadata <$> l).
Proof.
  induction l as [|i l IH]; intros s; cbn.
  - by rewrite !app_nil_r.
  - destruct (IH (after_slice image recon_series_dir filenames extension slices_metadata s i))
      as [IH1 IH2].
    cbn in IH1, IH2. rewrite IH1, IH2. unfold after_slice.
    destruct (writer_outcome _ _ _); cbn; rewrite !fmap_app, <- !app_assoc; done.
Qed.

Lemma after_slices_log_length image recon_series_dir filenames extension slices_metadata l s :
  length (writer_log (foldl (after_slice image recon_series_dir filenames extension
                                         slices_metadata) s l))
  = length (writer_log s) + length l.
Proof.
  destruct (after_slices_log image recon_series_dir filenames extension slices_metadata l s)
    as [H _].
  apply (f_equal length) in H. by rewrite length_app, !length_fmap in H.
Qed.


(** *** The [bytes] codec is invertible on the range of each element type *)

Lemma length_le_bytes n : ∀ u, length (le_bytes n u) = n.
Proof. induction n as [|n IH]; intros u; cbn; [done | by rewrite IH]. Qed.

Lemma le_value_le_bytes n :
  ∀ u, (0 <= u < 256 ^ Z.of_nat n)%Z → le_value (le_bytes n u) = u.
Proof.
  induction n as [|n IH]; intros u Hu.
  - cbn in *. lia.
  - cbn [le_bytes le_value]. rewrite Nat2Z.inj_succ, Z.pow_succ_r in Hu by lia.
    rewrite IH.
    + pose proof (Z.div_mod u 256). lia.
    + split; [apply Z.div_pos; lia | apply Z.div_lt_upper_bound; lia].
Qed.

Lemma pow_bits t : (2 ^ bits t = 256 ^ Z.of_nat (itemsize t))%Z.
Proof. unfold bits. rewrite Z.pow_mul_r by lia. done. Qed.

Lemma to_unsigned_range t v : (0 <= to_unsigned t v < 2 ^ bits t)%Z.
Proof. unfold to_unsigned. apply Z.mod_pos_bound. by destruct t. Qed.

Lemma of_to_unsigned t v : in_range t v → of_unsigned t (to_unsigned t v) = v.
Proof.
  unfold in_range, of_unsigned, to_unsigned.
  assert (0 < bits t)%Z as Hpos by (by destruct t).
  assert (2 ^ bits t = 2 * 2 ^ (bits t - 1))%Z as ->.
  { rewrite <- Z.pow_succ_r by lia. f_equal. lia. }
  assert (0 < 2 ^ (bits t - 1))%Z as HP by (apply Z.pow_pos_nonneg; lia).
  set (P := (2 ^ (bits t - 1))%Z) in *.
  destruct (is_signed t); cbn; intros Hv.
  - destruct (Z_lt_le_dec v 0) as [Hneg|Hnn].
    + rewrite <- (Z.mod_add v 1 (2 * P)) by lia.
      rewrite Z.mod_small by lia.
      destruct (Z.leb_spec P (v + 1 * (2 * P))); lia.
    + rewrite Z.mod_small by lia.
      destruct (Z.leb_spec P v); lia.
  - apply Z.mod_small. lia.
Qed.

Lemma decode_encode_elem e t v :
  in_range t v → decode_elem e t (encode_elem e t v) = v.
Proof.
  intros Hv. unfold decode_elem, encode_elem.
  assert (le_value (le_bytes (itemsize t) (to_unsigned t v)) = to_unsigned t v) as Hle.
  { apply le_value_le_bytes. rewrite <- pow_bits. apply to_unsigned_range. }
  destruct e; rewrite ?rev_involutive, Hle; by apply of_to_unsigned.
Qed.

Lemma length_encode_elem e t v : length (encode_elem e t v) = itemsize t.
Proof.
  unfold encode_elem. destruct e; rewrite ?length_rev; apply length_le_bytes.
Qed.

Lemma groups_step fuel n (bs : list Z) :
  bs ≠ [] → n ≠ 0 → n <= length bs →
  groups (S fuel) n bs = (take n bs ::.) <$> groups fuel n (drop n bs).
Proof.
  intros Hne Hn Hlen. destruct bs as [|x r]; [done|].
  cbn [groups]. by rewrite decide_True.
Qed.

Lemma groups_concat n (blocks : list (list Z)) :
  0 < n → Forall (λ b, length b = n) blocks →
  ∀ fuel, length (concat blocks) <= fuel → groups fuel n (concat blocks) = Some blocks.
Proof.
  intros Hn Hall. induction Hall as [|b blocks Hb Hall IH]; intros fuel Hfuel.
  - by destruct fuel.
  - cbn [concat] in *. rewrite length_app in Hfuel.
    destruct fuel as [|fuel]; [lia|].
    rewrite groups_step.
    + rewrite take_app_length' by done. rewrite drop_app_length' by done.
      rewrite IH by lia. done.
    + intros Heq. apply (f_equal length) in Heq. rewrite length_app in Heq. cbn in Heq. lia.
    + lia.
    + rewrite length_app. lia.
Qed.

Lemma bytes_decode_encode e t vs :
  Forall (in_range t) vs → bytes_decode e t (bytes_encode e t vs) = Some vs.
Proof.
  intros Hvs. unfold bytes_decode, bytes_encode.
  rewrite (groups_concat (itemsize t) (encode_elem e t <$> vs)).
  - cbn. f_equal. rewrite <- list_fmap_compose.
    induction Hvs as [|v vs Hv Hvs IH]; [done|].
    cbn. rewrite decode_encode_elem by done. by f_equal.
  - by destruct t; cbn; lia.
  - apply Forall_fmap, Forall_forall. intros v _. apply length_encode_elem.
  - done.
Qed.


(** *** The file system *)

Lemma lookup_without_tree p f k :
  without_tree p f !! k = if ospath.under p k then None else f !! k.
Proof.
  unfold without_tree. destruct (ospath.under p k) eqn:Hu.
  - apply map_lookup_filter_None_2. right. intros x _. cbn. by rewrite Hu.
  - destruct (f !! k) as [x|] eqn:Hk.
    + by apply map_lookup_filter_Some_2.
    + apply map_lookup_filter_None_2. by left.
Qed.

Lemma under_refl p : ospath.under p p = true.
Proof. unfold ospath.under. by rewrite bool_decide_eq_true_2. Qed.

Lemma without_tree_idemp p f : without_tree p (without_tree p f) = without_tree p f.
Proof.
  apply map_eq. intros k. rewrite !lookup_without_tree.
  by destruct (ospath.under p k).
Qed.

Lemma without_tree_insert p f x :
  without_tree p (<[p := x]> f) = without_tree p f.
Proof.
  apply map_eq. intros k. rewrite !lookup_without_tree.
  destruct (ospath.under p k) eqn:Hu; [done|].
  rewrite lookup_insert_ne; [done|]. intros ->. by rewrite under_refl in Hu.
Qed.

(** *** Planes *)

Lemma concat_planes hw (d : list Z) n :
  ∀ k, concat (plane hw d <$> seq k n) = take (n * hw) (drop (k * hw) d).
Proof.
  induction n as [|n IH]; intros k; [done|].
  cbn [seq fmap list_fmap concat]. rewrite IH. unfold plane.
  replace (S k * hw) with (k * hw + hw) by lia.
  rewrite <- drop_drop. rewrite take_take_drop. f_equal.
Qed.

Lemma concat_planes_all hw (d : list Z) n :
  length d = n * hw → concat (plane hw d <$> seq 0 n) = d.
Proof.
  intros Hlen. rewrite concat_planes. cbn. apply take_ge. lia.
Qed.

Lemma length_plane hw (d : list Z) n i :
  length d = n * hw → i < n → length (plane hw d i) = hw.
Proof.
  intros Hlen Hi. unfold plane. rewrite length_take, length_drop. nia.
Qed.

Lemma Forall_plane (P : Z → Prop) hw d i : Forall P d → Forall P (plane hw d i).
Proof. intros H. unfold plane. by apply Forall_take, Forall_drop. Qed.

(** *** Writing the planes and reading them back *)

Lemma lookup_store_planes (z : zarr_array) (arr : ndarray) (l : list nat)
    (c : gmap (nat * nat * nat) (list Z)) (i : nat) :
  foldr (λ (i : nat) (c : gmap (nat * nat * nat) (list Z)), <[(i, 0, 0) := encode_chunk z (plane (height_of arr * width_of arr) (data arr) i)]> c)
        c l !! (i, 0, 0)
  = if decide (i ∈ l)
    then Some (encode_chunk z (plane (height_of arr * width_of arr) (data arr) i))
    else c !! (i, 0, 0).
Proof.
  induction l as [|j l IH]; cbn [foldr].
  - rewrite decide_False; [done | apply not_elem_of_nil].
  - destruct (decide (j = i)) as [->|Hne].
    + rewrite lookup_insert_eq. rewrite decide_True; [done | apply list_elem_of_here].
    + rewrite lookup_insert_ne by congruence. rewrite IH.
      destruct (decide (i ∈ l)) as [Hin|Hnin].
      * rewrite decide_True; [done | by apply list_elem_of_further].
      * rewrite decide_False; [done|]. intros [Heq|Hin]%elem_of_cons; [by subst | done].
Qed.


Section Lossless.

(** The compressor is lossless. *)
Hypothesis blosc_lossless : ∀ c bs, blosc_decode c (blosc_encode c bs) = bs.

Lemma read_chunk_stored arr i :
  wf_array arr → nonempty arr → i < depth_of arr →
  read_chunk (stored_array arr) (i, 0, 0)
  = Ok (plane (height_of arr * width_of arr) (data arr) i).
Proof.
  intros [Hlen Hrange] (Hd & Hh & Hw) Hi.
  unfold read_chunk, chunk_volume, stored_array, store_planes, with_chunkdata. cbn.
  rewrite lookup_store_planes.
  assert (chunk_grid (created_array arr) = seq 0 (depth_of arr)) as ->.
  { unfold chunk_grid, created_array, depth_of, height_of, width_of in *. cbn.
    destruct (shape arr) as [[d h] w]. cbn in *. by rewrite decide_True. }
  rewrite decide_True by (apply elem_of_seq; lia).
  unfold decode_chunk, encode_chunk. cbn.
  rewrite blosc_lossless, bytes_decode_encode by by apply Forall_plane.
  rewrite decide_True; [done|].
  rewrite (length_plane _ _ (depth_of arr)) by done. lia.
Qed.

Lemma read_element_stored arr idx v :
  wf_array arr → nonempty arr → data arr !! idx = Some v →
  read_element (stored_array arr) idx = Ok v.
Proof.
  intros Hwf Hne Hv. pose proof Hwf as [Hlen _]. pose proof Hne as (Hd & Hh & Hw).
  pose proof (lookup_lt_Some _ _ _ Hv) as Hidx. rewrite Hlen in Hidx.
  pose proof (read_chunk_stored arr (idx / (height_of arr * width_of arr)) Hwf Hne) as Hchunk.
  unfold read_element.
  change (z_shape (stored_array arr)) with (shape arr).
  change (z_chunks (stored_array arr)) with (1, height_of arr, width_of arr).
  unfold depth_of, height_of, width_of in *.
  destruct (shape arr) as [[D H] W]. cbn [fst snd] in *.
  assert (idx / (H * W) < D) as HdD by (apply Nat.Div0.div_lt_upper_bound; lia).
  assert (idx / W mod H < H) as HhH by (apply Nat.mod_upper_bound; lia).
  assert (idx mod W < W) as HwW by (apply Nat.mod_upper_bound; lia).
  rewrite Nat.div_1_r, (Nat.div_small _ H), (Nat.div_small _ W) by done.
  rewrite Hchunk by done. cbn [rbind].
  rewrite Nat.mod_1_r, (Nat.mod_small _ H), (Nat.mod_small (idx mod W) W) by done.
  cbn [Nat.mul Nat.add].
  assert (idx mod (H * W) = idx / W mod H * W + idx mod W) as Hoff.
  { rewrite (Nat.mul_comm H W), Nat.Div0.mod_mul_r. lia. }
  rewrite <- Hoff. unfold plane.
  rewrite lookup_take_lt by (apply Nat.mod_upper_bound; lia).
  rewrite lookup_drop.
  replace (idx / (H * W) * (H * W) + idx mod (H * W)) with idx; [by rewrite Hv|].
  rewrite (Nat.div_mod_eq idx (H * W)) at 1. lia.
Qed.

Lemma read_elements_run z (l : list nat) (vs : list Z) :
  Forall2 (λ idx v, read_element z idx = Ok v) l vs → read_elements z l = Ok vs.
Proof.
  induction 1 as [|idx v l vs Hv _ IH]; [done|].
  cbn [read_elements]. by rewrite Hv, IH.
Qed.

(** Reading the array that was stored gives the array. *)
Lemma zarr_getitem_stored arr :
  wf_array arr → nonempty arr → zarr_getitem (stored_array arr) = Ok arr.
Proof.
  intros Hwf Hne. pose proof Hwf as [Hlen _].
  assert (read_elements (stored_array arr)
            (seq 0 (depth_of arr * (height_of arr * width_of arr)))
          = Ok (data arr)) as Hread.
  { apply read_elements_run.
    apply Forall2_same_length_lookup_2; [by rewrite length_seq|].
    intros i idx v Hi Hv. apply lookup_seq in Hi as [-> _].
    by eapply read_element_stored. }
  unfold zarr_getitem.
  change (z_shape (stored_array arr)) with (shape arr).
  change (z_dtype (stored_array arr)) with (arr_dtype arr).
  unfold depth_of, height_of, width_of in Hread.
  destruct arr as [[[D H] W] t d]. cbn [shape fst snd] in *.
  by rewrite Hread.
Qed.

End Lossless.

(** *** [save_array] *)

Lemma zarr_setitem_created zarr_path arr f so lg :
  f !! zarr_path = Some (NZarr (created_array arr)) →
  zarr_setitem zarr_path arr {| fs := f; stdout := so; writer_log := lg |}
  = (Ok (), {| fs := <[zarr_path := NZarr (stored_array arr)]> f;
               stdout := so; writer_log := lg |}).
Proof.
  intros Hf. unfold zarr_setitem, bind. cbn. rewrite Hf.
  rewrite decide_True; [done|]. done.
Qed.

Lemma zarr_open_w_run zarr_path arr g so lg :
  writable zarr_path = true →
  zarr_open_w zarr_path (shape arr) (1, height_of arr, width_of arr)
    (arr_dtype arr) (if decide (sys_byteorder = little) then little else big)
    (blosc_configuration arr) {| fs := g; stdout := so; writer_log := lg |}
  = (Ok (), {| fs := <[zarr_path := NZarr (created_array arr)]> (without_tree zarr_path g);
               stdout := so; writer_log := lg |}).
Proof. intros Hw. unfold zarr_open_w, bind. cbn. by rewrite Hw. Qed.

Lemma save_array_run zarr_path arr s :
  writable zarr_path = true → no_plain_file (fs s) zarr_path →
  save_array zarr_path arr s
  = (Ok (), {| fs := <[zarr_path := NZarr (stored_array arr)]> (without_tree zarr_path (fs s));
               stdout := stdout s; writer_log := writer_log s |}).
Proof.
  intros Hw Hnf. destruct s as [f so lg]. unfold no_plain_file in Hnf. cbn in Hnf.
  unfold save_array, exists_, bind at 1 2. cbn.
  assert (∀ g, (zarr_open_w zarr_path (shape arr) (1, height_of arr, width_of arr)
                  (arr_dtype arr) (if decide (sys_byteorder = little) then little else big)
                  (blosc_configuration arr) >> zarr_setitem zarr_path arr)
                 {| fs := g; stdout := so; writer_log := lg |}
               = (Ok (), {| fs := <[zarr_path := NZarr (stored_array arr)]> (without_tree zarr_path g);
                            stdout := so; writer_log := lg |})) as Hopen.
  { intros g. rewrite (bind_ok _ _ _ _ _ (zarr_open_w_run _ _ _ _ _ Hw)).
    rewrite zarr_setitem_created by apply lookup_insert_eq.
    by rewrite insert_insert_eq. }
  destruct (f !! zarr_path) as [n|] eqn:Hn.
  - rewrite bool_decide_eq_true_2 by done.
    unfold rmtree, bind at 1 2. cbn. rewrite Hn.
    destruct n; try done; rewrite Hw; cbn; rewrite Hopen, without_tree_idemp; done.
  - rewrite bool_decide_eq_false_2 by (by intros [? ?]). cbn.
    apply Hopen.
Qed.


(** The store and its sidecar never share a path. *)
Lemma converted_paths_ne series_id :
  ospath.join CONVERTED_DIR (series_id +:+ ".zarr")
  ≠ ospath.join CONVERTED_DIR (series_id +:+ ".json").
Proof.
  unfold ospath.join.
  assert (ospath.startswith_sep (series_id +:+ ".zarr")
          = ospath.startswith_sep (series_id +:+ ".json")) as Hs
    by (by destruct series_id).
  rewrite <- Hs. destruct (ospath.startswith_sep (series_id +:+ ".zarr")).
  - intros H. by apply (inj (String.app series_id)) in H.
  - change (bool_decide (CONVERTED_DIR = "") || ospath.endswith_sep CONVERTED_DIR) with false.
    cbv iota. intros H.
    apply (inj (String.app CONVERTED_DIR)), (inj (String.app "/")) in H.
    by apply (inj (String.app series_id)) in H.
Qed.

Lemma save_array_ok_inv zarr_path arr s s' :
  save_array zarr_path arr s = (Ok (), s') →
  s' = {| fs := <[zarr_path := NZarr (stored_array arr)]> (without_tree zarr_path (fs s));
          stdout := stdout s; writer_log := writer_log s |}.
Proof.
  destruct (writable zarr_path) eqn:Hw.
  - destruct (fs s !! zarr_path) as [n|] eqn:Hn.
    + destruct n.
      1,2: rewrite save_array_run by (by unfold no_plain_file; rewrite ?Hn); congruence.
      all: unfold save_array, exists_, bind at 1 2; cbn; rewrite Hn;
        rewrite bool_decide_eq_true_2 by done;
        unfold rmtree, bind at 1 2; cbn; rewrite Hn; cbn; discriminate.
    + rewrite save_array_run by (by unfold no_plain_file; rewrite ?Hn). congruence.
  - unfold save_array, exists_, bind at 1 2. cbn.
    destruct (fs s !! zarr_path) as [n|] eqn:Hn.
    + rewrite bool_decide_eq_true_2 by done.
      unfold rmtree, bind at 1 2. cbn. rewrite Hn.
      destruct n; rewrite ?Hw; cbn; discriminate.
    + rewrite bool_decide_eq_false_2 by (by intros [? ?]).
      unfold bind, zarr_open_w. cbn. rewrite Hw. cbn. discriminate.
Qed.

(** *** [save_metadata] *)

Lemma GetMetaData_state reader i key s v s' :
  GetMetaData reader i key s = (Ok v, s') → s' = s.
Proof.
  unfold GetMetaData. destruct (reader !! i) as [d|]; [|discriminate].
  destruct (dict_get key d); cbn; intros H; by simplify_eq.
Qed.

Lemma slice_tags_loop_state reader i (keys : list string) :
  ∀ acc s r s',
    fold_m (λ slice_tags key,
              let* v := GetMetaData reader i key in
              ret (dict_set key v slice_tags)) keys acc s = (Ok r, s') →
    s' = s.
Proof.
  induction keys as [|k keys IH]; intros acc s r s' H.
  - cbn in H. by simplify_eq.
  - cbn [fold_m] in H. apply bind_ok_inv in H as (acc' & s1 & Hb & Hrest).
    apply bind_ok_inv in Hb as (v & s2 & Hv & Hret).
    apply GetMetaData_state in Hv. cbn in Hret. simplify_eq.
    by apply IH in Hrest.
Qed.

Lemma slices_metadata_loop reader (l : list nat) :
  ∀ acc s r s',
    fold_m (λ slices_metadata i,
              let* keys := GetMetaDataKeys reader i in
              let* slice_tags :=
                fold_m (λ slice_tags key,
                          let* v := GetMetaData reader i key in
                          ret (dict_set key v slice_tags))
                       keys [] in
              ret (slices_metadata ++ [slice_tags])) l acc s = (Ok r, s') →
    s' = s ∧ length r = length acc + length l.
Proof.
  induction l as [|i l IH]; intros acc s r s' H.
  - cbn in H. simplify_eq. split; [done | cbn; lia].
  - cbn [fold_m] in H. apply bind_ok_inv in H as (acc' & s1 & Hbody & Hrest).
    apply bind_ok_inv in Hbody as (keys & s2 & Hkeys & Hbody).
    apply bind_ok_inv in Hbody as (tags & s3 & Htags & Hret).
    unfold GetMetaDataKeys in Hkeys.
    destruct (reader !! i); cbn in Hkeys; [|discriminate].
    apply slice_tags_loop_state in Htags. cbn in Hret. simplify_eq.
    apply IH in Hrest as [-> Hlen]. split; [done|].
    rewrite Hlen, length_app. cbn. lia.
Qed.

Lemma save_metadata_ok_inv image reader filenames output_path s s' :
  save_metadata image reader filenames output_path s = (Ok (), s') →
  ∃ slices_metadata,
    length slices_metadata = depth_of (img_array image)
    ∧ s' = {| fs := <[output_path :=
                        NJson {| m_filenames := Some filenames;
                                 m_origin := Some (img_origin image);
                                 m_spacing := Some (img_spacing image);
                                 m_direction := Some (img_direction image);
                                 m_size := Some (GetSize image);
                                 m_pixel_id := Some (GetPixelID image);
                                 m_pixel_id_type_as_string := Some (GetPixelIDTypeAsString image);
                                 m_slices_metadata := Some slices_metadata |}]> (fs s);
              stdout := stdout s; writer_log := writer_log s |}.
Proof.
  unfold save_metadata. intros H.
  apply bind_ok_inv in H as (sm & s1 & Hloop & Hdump).
  apply slices_metadata_loop in Hloop as [-> Hlen].
  exists sm. split.
  - rewrite Hlen, length_seq. done.
  - unfold json_dump, bind in Hdump. cbn in Hdump.
    destruct (fs s !! output_path) as [[| | |]|]; cbn in Hdump; try discriminate;
      destruct (writable output_path); cbn in Hdump; by simplify_eq.
Qed.


(** *** [dicom_to_zarr] *)

Lemma dicom_to_zarr_empty series_dir s :
  GetGDCMSeriesFileNames series_dir = [] →
  dicom_to_zarr series_dir s
  = (Ok (None, None),
     {| fs := fs s;
        stdout := stdout s ++ [PrintProcessing (ospath.basename series_dir);
                               PrintLoadingDicom; PrintNoDicomFiles series_dir];
        writer_log := writer_log s |}).
Proof.
  intros Hnames. unfold dicom_to_zarr. rewrite Hnames.
  unfold bind. cbn. by rewrite <- !app_assoc.
Qed.

Lemma dicom_to_zarr_ok_inv series_dir s zo jo s' :
  dicom_to_zarr series_dir s = (Ok (zo, jo), s') →
  GetGDCMSeriesFileNames series_dir ≠ [] →
  let zarr_path := ospath.join CONVERTED_DIR (ospath.basename series_dir +:+ ".zarr") in
  let json_path := ospath.join CONVERTED_DIR (ospath.basename series_dir +:+ ".json") in
  ∃ image dicts slices_metadata,
    reader_Execute (GetGDCMSeriesFileNames series_dir) = Ok (image, dicts)
    ∧ zo = Some zarr_path ∧ jo = Some json_path
    ∧ length slices_metadata = depth_of (img_array image)
    ∧ fs s' !! zarr_path = Some (NZarr (stored_array (img_array image)))
    ∧ fs s' !! json_path
      = Some (NJson {| m_filenames := Some (GetGDCMSeriesFileNames series_dir);
                       m_origin := Some (img_origin image);
                       m_spacing := Some (img_spacing image);
                       m_direction := Some (img_direction image);
                       m_size := Some (GetSize image);
                       m_pixel_id := Some (GetPixelID image);
                       m_pixel_id_type_as_string := Some (GetPixelIDTypeAsString image);
                       m_slices_metadata := Some slices_metadata |}).
Proof.
  intros H Hnames. cbv zeta. unfold dicom_to_zarr in H.
  rewrite bool_decide_eq_false_2 in H by done.
  apply bind_ok_inv in H as ([] & s1 & _ & H).
  apply bind_ok_inv in H as ([] & s2 & _ & H).
  apply bind_ok_inv in H as ([image dicts] & s3 & Hexec & H).
  apply lift_ok_inv in Hexec as [Hexec ->].
  apply bind_ok_inv in H as ([] & s4 & _ & H).
  apply bind_ok_inv in H as ([] & s5 & _ & H).
  apply bind_ok_inv in H as ([] & s6 & Hsave & H).
  apply bind_ok_inv in H as ([] & s7 & Hmeta & H).
  apply bind_ok_inv in H as ([] & s8 & Hprint & H).
  apply save_array_ok_inv in Hsave.
  apply save_metadata_ok_inv in Hmeta as (sm & Hlen & Hs7).
  cbn in Hprint, H. simplify_eq.
  exists image, dicts, sm. cbn.
  split_and!; try done.
  - rewrite lookup_insert_ne by (intros Heq; by apply (converted_paths_ne (ospath.basename series_dir))).
    apply lookup_insert_eq.
  - apply lookup_insert_eq.
Qed.


(** *** What the loop does to the log, the console and the file system *)

Section Loop.

Variables (image : sitk_image) (recon_series_dir : string)
  (filenames : list string) (extension : string) (slices_metadata : list dict).

Local Abbreviation step :=
  (after_slice image recon_series_dir filenames extension slices_metadata).
Local Abbreviation calls :=
  (loop_calls image recon_series_dir filenames extension slices_metadata).
Local Abbreviation name := (slice_name recon_series_dir filenames extension).
Local Abbreviation img := (tagged_slice image slices_metadata).

Lemma lookup_write_files (sl : slice_image) (paths : list string) (f : gmap string node) k :
  write_files sl paths f !! k
  = if decide (k ∈ paths) then Some (NDicom sl) else f !! k.
Proof.
  induction paths as [|p paths IH]; cbn [write_files foldr].
  - rewrite decide_False; [done | apply not_elem_of_nil].
  - destruct (decide (p = k)) as [->|Hne].
    + rewrite lookup_insert_eq. rewrite decide_True; [done | apply list_elem_of_here].
    + rewrite lookup_insert_ne by done. fold (write_files sl paths f). rewrite IH.
      destruct (decide (k ∈ paths)) as [Hin|Hnin].
      * rewrite decide_True; [done | by apply list_elem_of_further].
      * rewrite decide_False; [done|]. intros [Heq|Hin]%elem_of_cons; [by subst | done].
Qed.

Lemma name_written p : p ∈ written_paths p.
Proof. apply list_elem_of_here. Qed.

Lemma after_slice_fs s i :
  fs (step s i)
  = match writer_outcome (fs s) (name i) (img i) with
    | Some _ => fs s
    | None => write_files (img i) (written_paths (name i)) (fs s)
    end.
Proof. unfold after_slice. by destruct (writer_outcome _ _ _). Qed.

Lemma after_slice_log s i :
  writer_log (step s i)
  = writer_log s ++ [{| wc_path := name i; wc_image := img i;
                        wc_error := writer_outcome (fs s) (name i) (img i) |}].
Proof. unfold after_slice. by destruct (writer_outcome _ _ _). Qed.


Lemma loop_log l : ∀ s, writer_log (foldl step s l) = writer_log s ++ calls s l.
Proof.
  induction l as [|i l IH]; intros s; cbn [foldl loop_calls].
  - by rewrite app_nil_r.
  - by rewrite IH, after_slice_log, <- app_assoc.
Qed.


Lemma length_loop_calls l : ∀ s, length (calls s l) = length l.
Proof. induction l as [|i l IH]; intros s; cbn; [done | by rewrite IH]. Qed.

(** Call [j] is the call for the [j]-th slice of the loop. *)
Lemma lookup_loop_calls l :
  ∀ s j c, calls s l !! j = Some c →
           ∃ i, l !! j = Some i ∧ wc_path c = name i ∧ wc_image c = img i.
Proof.
  induction l as [|i l IH]; intros s j c Hc; [done|].
  destruct j as [|j]; cbn in Hc.
  - simplify_eq. by exists i.
  - by apply IH in Hc.
Qed.

(** Every entry after the loop was there before or was written for a
    slice. *)
Lemma loop_fs_origin l :
  ∀ s k n, fs (foldl step s l) !! k = Some n →
           fs s !! k = Some n
           ∨ ∃ i, i ∈ l ∧ k ∈ written_paths (name i) ∧ n = NDicom (img i).
Proof.
  induction l as [|i l IH]; intros s k n Hk; cbn [foldl] in Hk; [by left|].
  apply IH in Hk as [Hk|(i' & Hi' & Hin & ->)].
  - rewrite after_slice_fs in Hk.
    destruct (writer_outcome _ _ _); [by left|].
    rewrite lookup_write_files in Hk. case_decide as Hin; [|by left].
    simplify_eq. right. exists i. split; [apply list_elem_of_here | done].
  - right. exists i'. split; [by apply list_elem_of_further | done].
Qed.

(** A call that ended without exception was not aimed at a directory. *)
Lemma writer_outcome_None f p sl :
  writer_outcome f p sl = None →
  ospath.endswith_sep p = false ∧ ∀ q, q ∈ written_paths p → is_dir (f !! q) = false.
Proof.
  unfold writer_outcome. destruct (ospath.endswith_sep p); [done|]. cbn.
  case_bool_decide as Hex; [done|]. intros _. split; [done|].
  intros q Hq. destruct (is_dir (f !! q)) eqn:Hdir; [|done].
  destruct Hex. apply Exists_exists. by exists q.
Qed.

Lemma loop_fs_dirs l :
  ∀ s k, is_dir (fs s !! k) = true → fs (foldl step s l) !! k = fs s !! k.
Proof.
  induction l as [|i l IH]; intros s k Hk; cbn [foldl]; [done|].
  assert (fs (step s i) !! k = fs s !! k) as Hstep.
  { rewrite after_slice_fs. destruct (writer_outcome _ _ _) eqn:Ho; [done|].
    apply writer_outcome_None in Ho as [_ Ho].
    rewrite lookup_write_files. rewrite decide_False; [done|].
    intros Hin. apply Ho in Hin. congruence. }
  rewrite IH; [done|]. by rewrite Hstep.
Qed.

Lemma loop_fs_mono l :
  ∀ s k, is_Some (fs s !! k) → is_Some (fs (foldl step s l) !! k).
Proof.
  induction l as [|i l IH]; intros s k Hk; cbn [foldl]; [done|].
  apply IH. rewrite after_slice_fs. destruct (writer_outcome _ _ _); [done|].
  rewrite lookup_write_files. by case_decide.
Qed.

Lemma loop_fs_untouched l :
  ∀ s k, (∀ i, i ∈ l → k ∉ written_paths (name i)) →
         fs (foldl step s l) !! k = fs s !! k.
Proof.
  induction l as [|i l IH]; intros s k Hk; cbn [foldl]; [done|].
  rewrite IH by (intros i' Hi'; apply Hk; by apply list_elem_of_further).
  rewrite after_slice_fs. destruct (writer_outcome _ _ _); [done|].
  rewrite lookup_write_files. rewrite decide_False; [done|].
  apply Hk, list_elem_of_here.
Qed.

(** A slice whose call ended without exception is in the file system,
    under its name, unless a later call writes to that name. *)
Lemma loop_fs_written l :
  ∀ s j i c,
    l !! j = Some i → calls s l !! j = Some c → wc_error c = None →
    (∀ j' i', j < j' → l !! j' = Some i' → name i ∉ written_paths (name i')) →
    fs (foldl step s l) !! name i = Some (NDicom (img i)).
Proof.
  induction l as [|i0 l IH]; intros s j i c Hj Hc Herr Hlater; [done|].
  destruct j as [|j]; cbn in Hj, Hc; cbn [foldl].
  - simplify_eq. cbn in Herr.
    rewrite loop_fs_untouched.
    + rewrite after_slice_fs, Herr, lookup_write_files.
      rewrite decide_True; [done | apply name_written].
    + intros i' [j' Hj']%list_elem_of_lookup. apply (Hlater (S j')); [lia | done].
  - eapply IH; [done..|]. intros j' i' Hlt Hj'. apply (Hlater (S j')); [lia | done].
Qed.

(** When no call raised, every file of every slice is in the file system. *)
Lemma loop_fs_all_written l :
  ∀ s, Forall (λ c, wc_error c = None) (calls s l) →
       ∀ i q, i ∈ l → q ∈ written_paths (name i) → is_Some (fs (foldl step s l) !! q).
Proof.
  induction l as [|i0 l IH]; intros s Hall i q Hi Hq; [by apply elem_of_nil in Hi|].
  cbn [loop_calls] in Hall. apply Forall_cons in Hall as [Hi0 Hall].
  cbn in Hi0. cbn [foldl].
  apply elem_of_cons in Hi as [->|Hi]; [|by eapply IH].
  apply loop_fs_mono. rewrite after_slice_fs, Hi0, lookup_write_files.
  by rewrite decide_True.
Qed.

End Loop.

(** *** Tags, key by key *)

Lemma attach_meta img kv :
  sl_meta (attach img kv)
  = match SetMetaData_error kv.1 kv.2 with
    | Some _ => sl_meta img
    | None => set_entry (sl_meta img) kv
    end.
Proof. unfold attach, SetMetaData. by destruct (SetMetaData_error _ _). Qed.

Lemma attach_pixels img kv :
  sl_pixels (attach img kv) = sl_pixels img ∧ sl_index (attach img kv) = sl_index img.
Proof. unfold attach, SetMetaData. by destruct (SetMetaData_error _ _). Qed.

(** Attaching with failures is attaching the accepted entries alone. *)
Lemma foldl_attach_meta (d : dict) :
  ∀ img, sl_meta (foldl attach img d) = foldl set_entry (sl_meta img) (accepted d).
Proof.
  induction d as [|kv d IH]; intros img; [done|].
  cbn [foldl]. rewrite IH, attach_meta. unfold accepted.
  rewrite filter_cons. case_decide as Hkv; rewrite Hkv || destruct (SetMetaData_error _ _); done.
Qed.

Lemma foldl_attach_pixels (d : dict) :
  ∀ img, sl_pixels (foldl attach img d) = sl_pixels img
         ∧ sl_index (foldl attach img d) = sl_index img.
Proof.
  induction d as [|kv d IH]; intros img; [done|].
  cbn [foldl]. destruct (IH (attach img kv)) as [-> ->]. apply attach_pixels.
Qed.

Lemma foldl_set_entry_notin (d : dict) k :
  ∀ m, k ∉ d.*1 → foldl set_entry m d !! k = m !! k.
Proof.
  induction d as [|[k' v'] d IH]; intros m Hk; [done|].
  cbn in Hk. apply not_elem_of_cons in Hk as [Hne Hk].
  cbn [foldl]. rewrite IH by done. unfold set_entry. cbn.
  by rewrite lookup_insert_ne.
Qed.

Lemma foldl_set_entry_in (d : dict) k v :
  ∀ m, NoDup d.*1 → (k, v) ∈ d → foldl set_entry m d !! k = Some v.
Proof.
  induction d as [|[k' v'] d IH]; intros m Hnd Hin; [by apply elem_of_nil in Hin|].
  cbn in Hnd. apply NoDup_cons in Hnd as [Hk' Hnd].
  cbn [foldl]. apply elem_of_cons in Hin as [Heq|Hin].
  - simplify_eq. rewrite foldl_set_entry_notin by done.
    unfold set_entry. cbn. apply lookup_insert_eq.
  - by apply IH.
Qed.

Lemma accepted_keys_NoDup (d : dict) : NoDup d.*1 → NoDup (accepted d).*1.
Proof.
  intros Hnd. unfold accepted. induction d as [|kv d IH]; [done|].
  cbn in Hnd. apply NoDup_cons in Hnd as [Hk Hnd].
  rewrite filter_cons. case_decide; [|by apply IH].
  cbn. apply NoDup_cons. split; [|by apply IH].
  intros Hin. apply Hk. apply list_elem_of_fmap in Hin as (kv' & -> & Hin).
  apply list_elem_of_fmap. exists kv'. split; [done|].
  by apply list_elem_of_filter in Hin as [_ ?].
Qed.

(** In a dictionary, an accepted key ends up with its value and a refused
    key is simply absent, whatever happened to the other keys. *)
Lemma tags_key_by_key (d : dict) img k v :
  NoDup d.*1 → sl_meta img = ∅ → (k, v) ∈ d →
  sl_meta (foldl attach img d) !! k
  = match SetMetaData_error k v with Some _ => None | None => Some v end.
Proof.
  intros Hnd Hempty Hin. rewrite foldl_attach_meta, Hempty.
  destruct (SetMetaData_error k v) eqn:Herr.
  - rewrite foldl_set_entry_notin; [done|].
    intros Hk. apply list_elem_of_fmap in Hk as ([k' v'] & Heq & Hk). cbn in Heq. subst k'.
    apply list_elem_of_filter in Hk as [Hacc Hk]. cbn in Hacc.
    assert (v' = v) as ->; [|congruence].
    clear -Hnd Hin Hk. induction d as [|[k0 v0] d IH]; [by apply elem_of_nil in Hin|].
    cbn in Hnd. apply NoDup_cons in Hnd as [Hk0 Hnd].
    apply elem_of_cons in Hin as [Hin|Hin], Hk as [Hk|Hk]; simplify_eq; try done.
    + destruct Hk0. apply list_elem_of_fmap. by exists (k0, v').
    + destruct Hk0. apply list_elem_of_fmap. by exists (k0, v).
    + by apply IH.
  - apply foldl_set_entry_in; [by apply accepted_keys_NoDup|].
    apply list_elem_of_filter. by split.
Qed.

(** *** Paths below a directory *)

Lemma has_sep_basename p : ospath.has_sep (ospath.basename p) = false.
Proof.
  induction p as [|c r IH]; [done|]. cbn.
  destruct (ospath.has_sep r) eqn:Hr; [done|].
  destruct (ospath.is_sep c) eqn:Hc; [done|]. cbn. by rewrite Hc, Hr.
Qed.

Lemma startswith_has_sep b : ospath.has_sep b = false → ospath.startswith_sep b = false.
Proof. destruct b as [|c r]; [done|]. cbn. by destruct (ospath.is_sep c). Qed.

Lemma app_String c (a b : string) : String c a +:+ b = String c (a +:+ b).
Proof. done. Qed.

Lemma app_empty (b : string) : "" +:+ b = b.
Proof. done. Qed.

Lemma string_app_assoc (a b c : string) : (a +:+ b) +:+ c = a +:+ b +:+ c.
Proof. induction a as [|x a IH]; [done|]. by rewrite !app_String, IH. Qed.

Lemma prefix_app (a b : string) : String.prefix a (a +:+ b) = true.
Proof.
  induction a as [|x a IH]; [by destruct b|].
  rewrite app_String. cbn. destruct (Ascii.ascii_dec x x); [done | congruence].
Qed.

Lemma join_below d b :
  d ≠ "" → ospath.startswith_sep b = false →
  ospath.join d b = ospath.dir_prefix d +:+ b.
Proof.
  intros Hd Hb. unfold ospath.join, ospath.dir_prefix. rewrite Hb.
  rewrite bool_decide_eq_false_2 by done. cbn.
  destruct (ospath.endswith_sep d); [done|]. by rewrite string_app_assoc.
Qed.

Lemma under_join d b :
  d ≠ "" → ospath.startswith_sep b = false → ospath.under d (ospath.join d b) = true.
Proof.
  intros Hd Hb. unfold ospath.under. rewrite join_below by done.
  rewrite prefix_app. apply orb_true_r.
Qed.

Lemma basename_app_sep a b :
  ospath.has_sep b = false → ospath.basename (a +:+ String "/" b) = b.
Proof.
  intros Hb. induction a as [|c a IH].
  - rewrite app_empty. cbn. by rewrite Hb.
  - rewrite app_String. cbn.
    assert (ospath.has_sep (a +:+ String "/" b) = true) as ->; [|done].
    clear. induction a as [|x a IH]; [done|].
    rewrite app_String. cbn. rewrite IH. apply orb_true_r.
Qed.

Lemma endswith_sep_split d :
  ospath.endswith_sep d = true → ∃ d0, d = d0 +:+ "/".
Proof.
  induction d as [|c r IH]; [done|]. cbn. destruct r as [|c' r'].
  - intros Hc. exists "". rewrite app_empty. unfold ospath.is_sep in Hc.
    apply bool_decide_eq_true_1 in Hc. by rewrite Hc.
  - intros Hr. destruct (IH Hr) as [d0 Hd0]. exists (String c d0).
    rewrite app_String. by rewrite Hd0.
Qed.

(** The last component of a file put into a directory is its own name. *)
Lemma basename_join d b :
  ospath.has_sep b = false → ospath.basename (ospath.join d b) = b.
Proof.
  intros Hb. unfold ospath.join. rewrite startswith_has_sep by done.
  destruct (bool_decide (d = "")) eqn:Hd.
  - apply bool_decide_eq_true_1 in Hd. subst d. cbn. rewrite app_empty.
    clear -Hb. induction b as [|c r IH]; [done|]. cbn in *.
    apply orb_false_elim in Hb as [Hc Hr]. by rewrite Hr, Hc.
  - cbn. destruct (ospath.endswith_sep d) eqn:He.
    + destruct (endswith_sep_split d He) as [d0 ->].
      rewrite string_app_assoc. by apply basename_app_sep.
    + by apply (basename_app_sep d b).
Qed.

Lemma recon_series_dir_nonempty series_id :
  ospath.join RECONSTRUCTED_DIR series_id ≠ "".
Proof.
  unfold ospath.join. destruct series_id as [|c r]; [done|].
  cbn. destruct (ospath.is_sep c); [done|].
  unfold RECONSTRUCTED_DIR. by rewrite app_String.
Qed.

(** *** The files of a slice lie in its directory *)

Lemma string_length_app (a b : string) :
  String.length (a +:+ b) = String.length a + String.length b.
Proof. induction a as [|c a IH]; [done|]. rewrite app_String. cbn. by rewrite IH. Qed.

Lemma prefix_app_r (a b c : string) :
  String.prefix a b = true → String.prefix a (b +:+ c) = true.
Proof.
  revert b. induction a as [|x a IH]; intros [|y b] H.
  - by destruct c.
  - by destruct (String y b +:+ c).
  - done.
  - rewrite app_String. cbn in H |- *.
    destruct (Ascii.ascii_dec x y); [by apply IH | done].
Qed.

Lemma str_take_app (pre b : string) n :
  String.length pre <= n →
  ospath.str_take n (pre +:+ b) = pre +:+ ospath.str_take (n - String.length pre) b.
Proof.
  revert n. induction pre as [|c pre IH]; intros n Hn.
  - rewrite !app_empty. cbn. by rewrite Nat.sub_0_r.
  - rewrite !app_String. destruct n as [|n]; cbn in Hn; [lia|].
    cbn. f_equal. apply IH. lia.
Qed.

Lemma length_last_dot_suffix b s :
  ospath.last_dot_suffix b = Some s → String.length s <= String.length b.
Proof.
  revert s. induction b as [|c r IH]; intros s; [done|]. cbn.
  destruct (ospath.last_dot_suffix r) as [t|].
  - intros Hs. simplify_eq. specialize (IH s eq_refl). lia.
  - destruct (ospath.is_dot c); [|done]. intros Hs. by simplify_eq.
Qed.

Lemma length_strip_leading_dots b :
  String.length (ospath.strip_leading_dots b) <= String.length b.
Proof.
  induction b as [|c r IH]; [done|]. cbn. destruct (ospath.is_dot c); cbn; lia.
Qed.

Lemma length_basename p : String.length (ospath.basename p) <= String.length p.
Proof.
  induction p as [|c r IH]; [done|]. cbn.
  destruct (ospath.has_sep r); [lia|]. destruct (ospath.is_sep c); cbn; lia.
Qed.

Lemma length_splitext_ext p :
  String.length (ospath.splitext_ext p) <= String.length (ospath.basename p).
Proof.
  unfold ospath.splitext_ext.
  pose proof (length_strip_leading_dots (ospath.basename p)) as Hs.
  destruct (ospath.last_dot_suffix _) as [s|] eqn:Hl; cbn; [|lia].
  apply length_last_dot_suffix in Hl. lia.
Qed.

Lemma has_sep_app_sep a b : ospath.has_sep (a +:+ String "/" b) = true.
Proof.
  induction a as [|x a IH]; [done|]. rewrite app_String. cbn. rewrite IH. apply orb_true_r.
Qed.

Lemma length_basename_app_sep a b :
  String.length (ospath.basename (a +:+ String "/" b)) <= String.length b.
Proof.
  induction a as [|c a IH].
  - rewrite app_empty. cbn. destruct (ospath.has_sep b); [apply length_basename | done].
  - rewrite app_String. cbn. by rewrite has_sep_app_sep.
Qed.

Lemma dir_prefix_split d : ∃ d0, ospath.dir_prefix d = d0 +:+ "/".
Proof.
  unfold ospath.dir_prefix. destruct (ospath.endswith_sep d) eqn:He.
  - by apply endswith_sep_split.
  - by exists d.
Qed.

(** The root of a file in directory [d] still starts with the directory. *)
Lemma prefix_splitext_root d b :
  String.prefix (ospath.dir_prefix d) (ospath.splitext (ospath.dir_prefix d +:+ b)).1 = true.
Proof.
  destruct (dir_prefix_split d) as [d0 Hd0].
  assert (ospath.dir_prefix d +:+ b = d0 +:+ String "/" b) as Hp
    by (by rewrite Hd0, string_app_assoc).
  pose proof (length_splitext_ext (ospath.dir_prefix d +:+ b)) as Hext.
  pose proof (length_basename_app_sep d0 b) as Hb. rewrite <- Hp in Hb.
  unfold ospath.splitext. cbn [fst].
  rewrite str_take_app; [apply prefix_app|]. rewrite string_length_app. lia.
Qed.

(** Whatever a successful writer call leaves for a file of directory [d]
    lies in [d]. *)
Lemma under_written_paths d b q :
  d ≠ "" → ospath.startswith_sep b = false →
  q ∈ written_paths (ospath.join d b) → ospath.under d q = true.
Proof.
  intros Hd Hb Hq. unfold written_paths in Hq.
  apply elem_of_cons in Hq as [->|Hq]; [by apply under_join|].
  apply list_elem_of_fmap in Hq as (ext & -> & _).
  rewrite join_below by done. unfold ospath.under.
  rewrite prefix_app_r; [apply orb_true_r | apply prefix_splitext_root].
Qed.

(** *** The output directory after the loop *)

Lemma lookup_listdir f d k :
  listdir f d !! k
  = if decide (ospath.under d k = true ∧ k ≠ d) then f !! k else None.
Proof.
  unfold listdir. case_decide as Hk.
  - destruct (f !! k) as [n|] eqn:Hf.
    + by apply map_lookup_filter_Some_2.
    + apply map_lookup_filter_None_2. by left.
  - apply map_lookup_filter_None_2. right. intros n _. done.
Qed.

Lemma listdir_at_loop_start d s :
  (fs s !! d = None → listdir (fs s) d = ∅) →
  listdir (fs (at_loop_start d s)) d = ∅
  ∧ fs (at_loop_start d s) !! d = Some NDir.
Proof.
  intros Hwf. unfold at_loop_start. cbn. split; [|apply lookup_insert_eq].
  apply map_eq. intros k. rewrite lookup_listdir, lookup_empty.
  case_decide as Hk; [|done]. destruct Hk as [Hu Hne].
  rewrite lookup_insert_ne by done.
  destruct (fs s !! d) as [n|] eqn:Hd.
  - rewrite bool_decide_eq_true_2 by done. rewrite lookup_without_tree. by rewrite Hu.
  - rewrite bool_decide_eq_false_2 by (by intros [? ?]).
    specialize (Hwf eq_refl). apply (f_equal (λ m, m !! k)) in Hwf.
    rewrite lookup_listdir, lookup_empty in Hwf. by rewrite decide_True in Hwf.
Qed.

Lemma lookup_seq_0 n i : i < n → seq 0 n !! i = Some i.
Proof. intros Hi. by rewrite lookup_seq_lt. Qed.

Lemma size_list_to_set_le (l : list string) :
  size (list_to_set (C := gset string) l) <= length l.
Proof.
  induction l as [|x l IH]; cbn.
  - by rewrite size_empty.
  - rewrite size_union_alt, size_singleton.
    assert (list_to_set (C := gset string) l ∖ {[x]} ⊆ list_to_set l) as Hsub.
    { intros y Hy. by apply elem_of_difference in Hy as [Hy _]. }
    apply subseteq_size in Hsub. lia.
Qed.

Section LoopDirectory.

Variables (image : sitk_image) (recon_series_dir : string)
  (filenames : list string) (extension : string) (slices_metadata : list dict).

Local Abbreviation step :=
  (after_slice image recon_series_dir filenames extension slices_metadata).
Local Abbreviation calls :=
  (loop_calls image recon_series_dir filenames extension slices_metadata).
Local Abbreviation name := (slice_name recon_series_dir filenames extension).
Local Abbreviation img := (tagged_slice image slices_metadata).
Local Abbreviation files := (slice_files recon_series_dir filenames extension).

Lemma elem_of_slice_files l q :
  q ∈ files l ↔ ∃ i, i ∈ l ∧ q ∈ written_paths (name i).
Proof.
  unfold slice_files. rewrite list_elem_of_bind. split; intros (i & H1 & H2); by exists i.
Qed.

(** Without companion files a slice is its one file. *)
Lemma slice_files_single l :
  (∀ i, i ∈ l → companion_extensions (name i) = []) → files l = name <$> l.
Proof.
  intros Hl. unfold slice_files. induction l as [|i l IH]; [done|].
  cbn. unfold written_paths at 1. rewrite (Hl i) by apply list_elem_of_here. cbn.
  f_equal. apply IH. intros i' Hi'. apply Hl. by apply list_elem_of_further.
Qed.

(** Nothing in the output directory predates the loop. *)
Lemma loop_no_stale l s k n :
  listdir (fs s) recon_series_dir = ∅ →
  listdir (fs (foldl step s l)) recon_series_dir !! k = Some n →
  ∃ i, i ∈ l ∧ k ∈ written_paths (name i) ∧ n = NDicom (img i).
Proof.
  intros Hempty Hk. rewrite lookup_listdir in Hk. case_decide as Hu; [|done].
  apply loop_fs_origin in Hk as [Hk|Hk]; [|done].
  apply (f_equal (λ m, m !! k)) in Hempty.
  rewrite lookup_listdir, lookup_empty, decide_True in Hempty by done. congruence.
Qed.

Lemma loop_listdir_dom_subseteq l s :
  listdir (fs s) recon_series_dir = ∅ →
  dom (listdir (fs (foldl step s l)) recon_series_dir) ⊆ list_to_set (files l).
Proof.
  intros Hempty k [n Hk]%elem_of_dom.
  destruct (loop_no_stale _ _ _ _ Hempty Hk) as (i & Hi & Hin & _).
  apply elem_of_list_to_set, elem_of_slice_files. by exists i.
Qed.

Lemma loop_listdir_size_le l s :
  listdir (fs s) recon_series_dir = ∅ →
  (∀ i, i ∈ l → companion_extensions (name i) = []) →
  size (listdir (fs (foldl step s l)) recon_series_dir) <= length l.
Proof.
  intros Hempty Hsingle. rewrite <- size_dom.
  pose proof (subseteq_size _ _ (loop_listdir_dom_subseteq l s Hempty)) as Hle.
  rewrite slice_files_single in Hle by done.
  pose proof (size_list_to_set_le (name <$> l)) as Hle'.
  rewrite length_fmap in Hle'. lia.
Qed.

(** A call that ended without exception wrote nothing over directory [k]. *)
Lemma loop_calls_not_dir l :
  ∀ s k, is_dir (fs s !! k) = true →
         Forall (λ c, wc_error c = None) (calls s l) →
         ∀ i, i ∈ l → k ∉ written_paths (name i).
Proof.
  induction l as [|i0 l IH]; intros s k Hk Hall i Hi; [by apply elem_of_nil in Hi|].
  cbn [loop_calls] in Hall. apply Forall_cons in Hall as [Hi0 Hall]. cbn in Hi0.
  apply elem_of_cons in Hi as [->|Hi].
  - apply writer_outcome_None in Hi0 as [_ Hi0]. intros Hin. apply Hi0 in Hin. congruence.
  - apply (IH (step s i0)); [|done..].
    pose proof (loop_fs_dirs image recon_series_dir filenames extension slices_metadata
                  [i0] s k Hk) as Hd.
    cbn [foldl] in Hd. by rewrite Hd.
Qed.

(** When no call raised, the directory holds exactly the files of the
    slices. *)
Lemma loop_listdir_dom l s :
  listdir (fs s) recon_series_dir = ∅ →
  is_dir (fs s !! recon_series_dir) = true →
  (∀ i q, i ∈ l → q ∈ written_paths (name i) → ospath.under recon_series_dir q = true) →
  Forall (λ c, wc_error c = None) (calls s l) →
  dom (listdir (fs (foldl step s l)) recon_series_dir) = list_to_set (files l).
Proof.
  intros Hempty Hdir Hunder Hall. apply set_eq. intros k. split.
  - apply loop_listdir_dom_subseteq. done.
  - intros (i & Hi & Hin)%elem_of_list_to_set%elem_of_slice_files.
    apply elem_of_dom. rewrite lookup_listdir, decide_True.
    + by eapply loop_fs_all_written.
    + split; [by eapply Hunder|]. intros ->.
      by eapply (loop_calls_not_dir l s recon_series_dir).
Qed.

Lemma loop_listdir_size l s :
  listdir (fs s) recon_series_dir = ∅ →
  is_dir (fs s !! recon_series_dir) = true →
  (∀ i, i ∈ l → ospath.under recon_series_dir (name i) = true) →
  (∀ i, i ∈ l → companion_extensions (name i) = []) →
  Forall (λ c, wc_error c = None) (calls s l) →
  NoDup (name <$> l) →
  size (listdir (fs (foldl step s l)) recon_series_dir) = length l.
Proof.
  intros Hempty Hdir Hunder Hsingle Hall Hnd.
  rewrite <- size_dom, loop_listdir_dom; [|done..| |done].
  - rewrite slice_files_single by done. rewrite size_list_to_set by done. apply length_fmap.
  - intros i q Hi Hq. unfold written_paths in Hq. rewrite (Hsingle i Hi) in Hq.
    apply list_elem_of_singleton in Hq as ->. by apply Hunder.
Qed.



End LoopDirectory.

(** *** [zarr_to_dicom] up to its loop *)

Lemma fresh_directory_run d s :
  writable d = true → no_plain_file (fs s) d →
  fresh_directory d s
  = (Ok (), {| fs := <[d := NDir]> (if bool_decide (is_Some (fs s !! d))
                                     then without_tree d (fs s) else fs s);
               stdout := stdout s; writer_log := writer_log s |}).
Proof.
  intros Hw Hnf. destruct s as [f so lg]. unfold no_plain_file in Hnf. cbn in *.
  assert (∀ g, g !! d = None →
               makedirs d {| fs := g; stdout := so; writer_log := lg |}
               = (Ok (), {| fs := <[d := NDir]> g; stdout := so; writer_log := lg |})) as Hmk.
  { intros g Hg. unfold makedirs, bind. cbn. by rewrite Hg, Hw. }
  unfold fresh_directory, exists_.
  destruct (f !! d) as [n|] eqn:Hn.
  - rewrite !bool_decide_eq_true_2 by done.
    assert (rmtree d {| fs := f; stdout := so; writer_log := lg |}
            = (Ok (), {| fs := without_tree d f; stdout := so; writer_log := lg |})) as Hrm.
    { unfold rmtree, bind. cbn. rewrite Hn. destruct n; try done; by rewrite Hw. }
    rewrite (bind_ok _ _ _ _ _ Hrm). apply Hmk.
    rewrite lookup_without_tree. by rewrite under_refl.
  - rewrite !bool_decide_eq_false_2 by (by intros [? ?]).
    unfold bind. cbn. by apply Hmk.
Qed.

Lemma detect_extension_run filenames s :
  detect_extension filenames s = (Ok (fallback_extension filenames), s).
Proof. unfold detect_extension. by destruct filenames. Qed.

Lemma getitem_some {A} key (x : A) s : getitem key (Some x) s = (Ok x, s).
Proof. done. Qed.

Lemma SetOrigin_run im o v s :
  as_origin o = Ok v →
  lift (SetOrigin im o) s
  = (Ok {| img_array := img_array im; img_origin := v;
           img_spacing := img_spacing im; img_direction := img_direction im |}, s).
Proof. intros H. unfold SetOrigin. by rewrite H. Qed.

Lemma SetSpacing_run im sp v s :
  as_spacing sp = Ok v →
  lift (SetSpacing im sp) s
  = (Ok {| img_array := img_array im; img_origin := img_origin im;
           img_spacing := v; img_direction := img_direction im |}, s).
Proof. intros H. unfold SetSpacing. by rewrite H. Qed.

Lemma SetDirection_run im d v s :
  as_direction d = Ok v →
  lift (SetDirection im d) s
  = (Ok {| img_array := img_array im; img_origin := img_origin im;
           img_spacing := img_spacing im; img_direction := v |}, s).
Proof. intros H. unfold SetDirection. by rewrite H. Qed.

Lemma zarr_to_dicom_run zarr_path json_path series_id arr m s :
  reconstructible zarr_path json_path series_id arr m s →
  zarr_to_dicom zarr_path json_path series_id s
  = (Ok (), after_reconstruction arr m series_id s).
Proof.
  intros ((z & Hz & Hget) & Hj & (o & vo & Ho & Hvo) & (sp & vsp & Hsp & Hvsp)
          & (d & vd & Hd & Hvd) & Hw & Hnf & Hplanes).
  unfold zarr_to_dicom.
  rewrite (bind_ok _ _ _ _ _ (print_run _ _)).
  assert (∀ so, zarr_open_r_getitem zarr_path
                  {| fs := fs s; stdout := so; writer_log := writer_log s |}
                = (Ok arr, {| fs := fs s; stdout := so; writer_log := writer_log s |})) as Hopen.
  { intros so. unfold zarr_open_r_getitem, bind. cbn. by rewrite Hz, Hget. }
  rewrite (bind_ok _ _ _ _ _ (Hopen _)).
  assert (∀ so, load_metadata json_path
                  {| fs := fs s; stdout := so; writer_log := writer_log s |}
                = (Ok m, {| fs := fs s; stdout := so; writer_log := writer_log s |})) as Hload.
  { intros so. unfold load_metadata, bind. cbn. by rewrite Hj. }
  rewrite (bind_ok _ _ _ _ _ (Hload _)).
  rewrite (bind_ok _ _ _ _ _ (print_run _ _)).
  rewrite Ho, Hsp, Hd.
  rewrite (bind_ok _ _ _ _ _ (getitem_some _ _ _)).
  rewrite (bind_ok _ _ _ _ _ (SetOrigin_run _ _ _ _ Hvo)).
  rewrite (bind_ok _ _ _ _ _ (getitem_some _ _ _)).
  rewrite (bind_ok _ _ _ _ _ (SetSpacing_run _ _ _ _ Hvsp)).
  rewrite (bind_ok _ _ _ _ _ (getitem_some _ _ _)).
  rewrite (bind_ok _ _ _ _ _ (SetDirection_run _ _ _ _ Hvd)).
  assert (∀ so, fresh_directory (ospath.join RECONSTRUCTED_DIR series_id)
                  {| fs := fs s; stdout := so; writer_log := writer_log s |}
                = (Ok (), {| fs := fs (at_loop_start (ospath.join RECONSTRUCTED_DIR series_id) s);
                             stdout := so; writer_log := writer_log s |})) as Hfresh.
  { intros so. by rewrite fresh_directory_run. }
  cbn [fs stdout writer_log].
  rewrite (bind_ok _ _ _ _ _ (Hfresh _)).
  rewrite (bind_ok _ _ _ _ _ (detect_extension_run _ _)).
  match goal with
  | |- context [write_slices ?im ?dir ?fl ?ext ?sm ?n] =>
      assert (∀ st, write_slices im dir fl ext sm n st
                    = (Ok (), foldl (after_slice im dir fl ext sm) st (seq 0 n))) as Hloop
        by (intros st; by apply write_slices_run)
  end.
  rewrite (bind_ok _ _ _ _ _ (Hloop _)).
  unfold bind. cbn. unfold after_reconstruction, at_loop_start, reconstructed, kept.
  rewrite Ho, Hsp, Hd, Hvo, Hvsp, Hvd. cbn. rewrite <- !app_assoc. cbn. done.
Qed.

(** *** Fall-back names *)

Lemma startswith_sep_app a b :
  ospath.startswith_sep a = false → ospath.startswith_sep b = false →
  ospath.startswith_sep (a +:+ b) = false.
Proof. destruct a as [|c a]; [by rewrite app_empty | by rewrite app_String]. Qed.

Lemma startswith_sep_pretty_go x :
  ∀ s, ospath.startswith_sep s = false → ospath.startswith_sep (pretty_N_go x s) = false.
Proof.
  induction (N.lt_wf_0 x) as [x _ IH]; intros s Hs.
  assert (x = 0 ∨ 0 < x)%N as [->|Hx] by lia.
  - by rewrite pretty_N_go_0.
  - rewrite pretty_N_go_step by done. apply IH; [by apply N.div_lt|].
    unfold pretty_N_char. by repeat case_match.
Qed.

Lemma startswith_sep_zfill4 i : ospath.startswith_sep (zfill4 i) = false.
Proof.
  unfold zfill4. apply startswith_sep_app.
  - by destruct (4 - String.length (pretty i)) as [|[|[|[|[|?]]]]].
  - unfold pretty, pretty_nat, pretty, pretty_N. case_decide; [done|].
    by apply startswith_sep_pretty_go.
Qed.

Lemma startswith_sep_last_dot b s :
  ospath.last_dot_suffix b = Some s → ospath.startswith_sep s = false.
Proof.
  revert s. induction b as [|c r IH]; intros s; [done|]. cbn.
  destruct (ospath.last_dot_suffix r) as [s'|].
  - intros ?; simplify_eq. by apply IH.
  - destruct (ospath.is_dot c) eqn:Hc; [|done]. intros ?; simplify_eq. cbn.
    unfold ospath.is_dot in Hc. apply bool_decide_eq_true_1 in Hc. by rewrite Hc.
Qed.

Lemma startswith_sep_fallback_extension filenames :
  ospath.startswith_sep (fallback_extension filenames) = false.
Proof.
  destruct filenames as [|f0 fl]; [done|]. cbn. unfold ospath.splitext_ext.
  destruct (ospath.last_dot_suffix _) as [s|] eqn:Hs; [|done].
  by apply startswith_sep_last_dot in Hs.
Qed.

(** Every slice name lies in the output directory. *)
Lemma under_slice_name series_id filenames i :
  let recon_series_dir := ospath.join RECONSTRUCTED_DIR series_id in
  ospath.under recon_series_dir
    (slice_name recon_series_dir filenames (fallback_extension filenames) i) = true.
Proof.
  cbv zeta. unfold slice_name. destruct (filenames !! i) as [fi|].
  - apply under_join; [apply recon_series_dir_nonempty|].
    apply startswith_has_sep, has_sep_basename.
  - apply under_join; [apply recon_series_dir_nonempty|].
    apply startswith_sep_app;
      [apply startswith_sep_zfill4 | apply startswith_sep_fallback_extension].
Qed.

Lemma join_inj d b1 b2 :
  d ≠ "" → ospath.startswith_sep b1 = false → ospath.startswith_sep b2 = false →
  ospath.join d b1 = ospath.join d b2 → b1 = b2.
Proof.
  intros Hd H1 H2. rewrite !join_below by done.
  apply (inj (String.app _)).
Qed.

(** With as many recorded file names as slices, the slice names are the
    recorded names' last components, in order. *)
Lemma slice_names_of_filenames recon_series_dir filenames extension N :
  length filenames = N →
  slice_name recon_series_dir filenames extension <$> seq 0 N
  = (λ f, ospath.join recon_series_dir (ospath.basename f)) <$> filenames.
Proof.
  intros Hlen. apply list_eq. intros i. rewrite !list_lookup_fmap.
  destruct (decide (i < N)) as [Hi|Hi].
  - rewrite lookup_seq_0 by done.
    destruct (lookup_lt_is_Some_2 filenames i) as [fi Hfi]; [lia|].
    rewrite Hfi. cbn. unfold slice_name. by rewrite Hfi.
  - rewrite !lookup_ge_None_2; [done | lia | rewrite length_seq; lia].
Qed.

(** *** [zarr_to_dicom] never raises [IndexError] *)

Lemma never_bind {A B} (m : M A) (k : A → M B) :
  never_IndexError m → (∀ a, never_IndexError (k a)) → never_IndexError (bind m k).
Proof.
  intros Hm Hk s e s'. unfold bind. destruct (m s) as [[a|e1] s1] eqn:Hms.
  - apply Hk.
  - intros ?; simplify_eq. by eapply Hm.
Qed.

Lemma never_total {A} (m : M A) :
  (∀ s, ∃ a s', m s = (Ok a, s')) → never_IndexError m.
Proof. intros Hm s e s' H. destruct (Hm s) as (a & s1 & Hs). congruence. Qed.

Lemma never_lift {A} (r : result A) : r ≠ Raise IndexError → never_IndexError (lift r).
Proof. intros Hr s e s'. destruct r; cbn; intros ?; simplify_eq. congruence. Qed.

Lemma never_getitem {A} key (field : option A) : never_IndexError (getitem key field).
Proof. destruct field; intros s e s' H; cbn in H; by simplify_eq. Qed.

Lemma never_bind_ok {A B} (P : A → Prop) (m : M A) (k : A → M B) :
  never_IndexError m → (∀ s a s', m s = (Ok a, s') → P a) →
  (∀ a, P a → never_IndexError (k a)) → never_IndexError (bind m k).
Proof.
  intros Hm HP Hk s e s'. unfold bind. destruct (m s) as [[a|e1] s1] eqn:Hms.
  - apply Hk. by eapply HP.
  - intros ?; simplify_eq. by eapply Hm.
Qed.

Lemma never_for_each {A} (l : list A) (body : A → M unit) :
  (∀ x, x ∈ l → never_IndexError (body x)) → never_IndexError (for_each l body).
Proof.
  induction l as [|x l IH]; intros Hl; cbn [for_each].
  - by apply never_total; eexists _, _.
  - apply never_bind; [apply Hl, list_elem_of_here|]. intros _.
    apply IH. intros y Hy. by apply Hl, list_elem_of_further.
Qed.

Lemma read_elements_error z l e : read_elements z l = Raise e → e ≠ IndexError.
Proof.
  induction l as [|i l IH]; [done|]. cbn [read_elements].
  destruct (read_element z i) as [v|e1] eqn:Hv; cbn.
  - destruct (read_elements z l); cbn; [done | by intros ?; simplify_eq; apply IH].
  - intros ?; simplify_eq. unfold read_element in Hv.
    destruct (z_shape z) as [[D H] W], (z_chunks z) as [[cd ch] cw].
    unfold read_chunk in Hv.
    destruct (z_chunkdata z !! _) as [bs|]; cbn in Hv.
    + destruct (decode_chunk z bs) as [vs|]; cbn in Hv; [|by simplify_eq].
      case_decide; cbn in Hv; [|by simplify_eq].
      destruct (vs !! _); by simplify_eq.
    + destruct (replicate _ _ !! _); by simplify_eq.
Qed.

Lemma zarr_getitem_error z : zarr_getitem z ≠ Raise IndexError.
Proof.
  unfold zarr_getitem. destruct (z_shape z) as [[D H] W].
  destruct (read_elements z _) as [d|e] eqn:Hr; cbn; [done|].
  apply read_elements_error in Hr. congruence.
Qed.

(** The loop asks for the planes below the depth only. *)
Lemma never_write_slices image recon_series_dir filenames extension slices_metadata depth :
  depth <= depth_of (img_array image) →
  never_IndexError (write_slices image recon_series_dir filenames extension
                                 slices_metadata depth).
Proof.
  intros Hd. apply never_for_each. intros i Hi%elem_of_seq.
  apply never_bind.
  - intros s e s'. unfold take_plane, slicing_error.
    rewrite decide_False by lia. case_decide; cbn; by intros ?; simplify_eq.
  - intros _. apply never_total. intros s. eexists _, _. apply write_slice_run.
Qed.

Section OwnIndexing.

(** SimpleITK and [shutil] raise other exceptions than [IndexError]. *)
Hypothesis as_origin_error : ∀ l, as_origin l ≠ Raise IndexError.
Hypothesis as_spacing_error : ∀ l, as_spacing l ≠ Raise IndexError.
Hypothesis as_direction_error : ∀ l, as_direction l ≠ Raise IndexError.
Hypothesis rmtree_failure_error : ∀ p f, (rmtree_failure p f).1 ≠ IndexError.

Lemma never_fresh_directory d : never_IndexError (fresh_directory d).
Proof.
  intros [f so lg] e s'. unfold fresh_directory, exists_, rmtree, makedirs, bind. cbn.
  destruct (f !! d) as [n|] eqn:Hn.
  - rewrite bool_decide_eq_true_2 by done. cbn. rewrite Hn.
    destruct n; cbn; try (by intros ?; simplify_eq);
      (destruct (writable d); cbn;
       [rewrite lookup_without_tree, under_refl; by intros ?; simplify_eq
       |intros ?; simplify_eq; apply rmtree_failure_error]).
  - rewrite bool_decide_eq_false_2 by (by intros [? ?]). cbn. rewrite Hn.
    destruct (writable d); cbn; by intros ?; simplify_eq.
Qed.

Lemma zarr_to_dicom_never_IndexError zarr_path json_path series_id :
  never_IndexError (zarr_to_dicom zarr_path json_path series_id).
Proof.
  unfold zarr_to_dicom.
  apply never_bind; [by apply never_total; eexists _, _|]. intros _.
  apply never_bind.
  { intros s e s'. unfold zarr_open_r_getitem, bind. cbn.
    destruct (fs s !! zarr_path) as [[| z | |]|]; cbn; try by intros ?; simplify_eq.
    pose proof (zarr_getitem_error z). destruct (zarr_getitem z); cbn;
      intros ?; simplify_eq. congruence. }
  intros arr. apply never_bind.
  { intros s e s'. unfold load_metadata, bind. cbn.
    destruct (fs s !! json_path) as [[| | |]|]; cbn; by intros ?; simplify_eq. }
  intros m. apply never_bind; [by apply never_total; eexists _, _|]. intros _.
  apply never_bind; [apply never_getitem|]. intros o.
  apply (never_bind_ok (λ im, img_array im = arr)).
  { apply never_lift. unfold SetOrigin. pose proof (as_origin_error o).
    destruct (as_origin o); cbn; congruence. }
  { intros s im s' H. apply lift_ok_inv in H as [H _]. unfold SetOrigin in H.
    destruct (as_origin o); cbn in H; by simplify_eq. }
  intros im1 H1.
  apply never_bind; [apply never_getitem|]. intros sp.
  apply (never_bind_ok (λ im, img_array im = arr)).
  { apply never_lift. unfold SetSpacing. pose proof (as_spacing_error sp).
    destruct (as_spacing sp); cbn; congruence. }
  { intros s im s' H. apply lift_ok_inv in H as [H _]. unfold SetSpacing in H.
    destruct (as_spacing sp); cbn in H; by simplify_eq. }
  intros im2 H2.
  apply never_bind; [apply never_getitem|]. intros d.
  apply (never_bind_ok (λ im, img_array im = arr)).
  { apply never_lift. unfold SetDirection. pose proof (as_direction_error d).
    destruct (as_direction d); cbn; congruence. }
  { intros s im s' H. apply lift_ok_inv in H as [H _]. unfold SetDirection in H.
    destruct (as_direction d); cbn in H; by simplify_eq. }
  intros im3 H3.
  apply never_bind; [apply never_fresh_directory|]. intros _.
  apply never_bind.
  { apply never_total. intros s. eexists _, _. apply detect_extension_run. }
  intros ext. apply never_bind.
  { apply never_write_slices. by rewrite H3. }
  intros _. apply never_bind; [|intros _]; apply never_total; intros s; by eexists _, _.
Qed.

End OwnIndexing.

(** ** Further properties *)

(** *** Exceptions pass through [bind] *)


Lemma for_each_raise {A} (l1 l2 : list A) (x : A) (body : A → M unit) s s1 e s2 :
  for_each l1 body s = (Ok (), s1) → body x s1 = (Raise e, s2) →
  for_each (l1 ++ x :: l2) body s = (Raise e, s2).
Proof.
  intros H1 Hx. rewrite (for_each_app _ _ _ _ _ H1). cbn [for_each].
  by rewrite (bind_raise _ _ _ _ _ Hx).
Qed.

(** *** [save_metadata] copies the reader's dictionaries *)

Lemma dict_get_app_notin (pre l : dict) k :
  k ∉ pre.*1 → dict_get k (pre ++ l) = dict_get k l.
Proof.
  induction pre as [|[k' v'] pre IH]; intros Hk; [done|].
  cbn in Hk. apply not_elem_of_cons in Hk as [Hne Hk].
  cbn. rewrite decide_False by done. by apply IH.
Qed.

Lemma dict_set_notin (pre : dict) k v :
  k ∉ pre.*1 → dict_set k v pre = pre ++ [(k, v)].
Proof.
  induction pre as [|[k' v'] pre IH]; intros Hk; [done|].
  cbn in Hk. apply not_elem_of_cons in Hk as [Hne Hk].
  cbn. rewrite decide_False by done. by rewrite IH.
Qed.

Lemma slice_tags_loop_run reader i (d suf : dict) :
  reader !! i = Some d →
  ∀ pre s, d = pre ++ suf → NoDup d.*1 →
    fold_m (λ slice_tags key,
              let* v := GetMetaData reader i key in
              ret (dict_set key v slice_tags)) (dict_keys suf) pre s
    = (Ok d, s).
Proof.
  intros Hd. induction suf as [|[k v] suf IH]; intros pre s Heq Hnd.
  - cbn. by rewrite Heq, app_nil_r.
  - assert (k ∉ pre.*1) as Hk.
    { rewrite Heq, fmap_app in Hnd. apply NoDup_app in Hnd as (_ & Hdisj & _).
      intros Hin. apply (Hdisj k Hin). cbn. apply list_elem_of_here. }
    cbn [dict_keys fmap list_fmap fold_m fst].
    assert (GetMetaData reader i k s = (Ok v, s)) as Hget.
    { unfold GetMetaData. rewrite Hd, Heq, dict_get_app_notin by done.
      cbn. by rewrite decide_True. }
    rewrite (bind_ok _ _ _ _ _ (bind_ok _ _ _ _ _ Hget)). cbn [ret].
    rewrite dict_set_notin by done.
    apply IH; [|done]. by rewrite Heq, <- app_assoc.
Qed.

Lemma slices_metadata_loop_run reader n :
  Forall (λ d : dict, NoDup d.*1) reader →
  ∀ k acc s, k + n <= length reader →
    fold_m (λ slices_metadata i,
              let* keys := GetMetaDataKeys reader i in
              let* slice_tags :=
                fold_m (λ slice_tags key,
                          let* v := GetMetaData reader i key in
                          ret (dict_set key v slice_tags))
                       keys [] in
              ret (slices_metadata ++ [slice_tags])) (seq k n) acc s
    = (Ok (acc ++ take n (drop k reader)), s).
Proof.
  intros Hnd. induction n as [|n IH]; intros k acc s Hlen.
  - cbn. by rewrite take_0, app_nil_r.
  - destruct (lookup_lt_is_Some_2 reader k) as [d Hd]; [lia|].
    cbn [seq fold_m].
    assert (GetMetaDataKeys reader k s = (Ok (dict_keys d), s)) as Hkeys
      by (unfold GetMetaDataKeys; by rewrite Hd).
    assert (NoDup d.*1) as Hd_nd.
    { rewrite Forall_forall in Hnd. apply Hnd. by eapply list_elem_of_lookup_2. }
    pose proof (slice_tags_loop_run reader k d d Hd [] s eq_refl Hd_nd) as Htags.
    assert ((let* keys := GetMetaDataKeys reader k in
             let* slice_tags :=
               fold_m (λ slice_tags key,
                         let* v := GetMetaData reader k key in
                         ret (dict_set key v slice_tags))
                      keys [] in
             ret (acc ++ [slice_tags])) s = (Ok (acc ++ [d]), s)) as Hbody.
    { rewrite (bind_ok _ _ _ _ _ Hkeys). by rewrite (bind_ok _ _ _ _ _ Htags). }
    rewrite (bind_ok _ _ _ _ _ Hbody).
    rewrite IH by lia. f_equal. f_equal. rewrite <- app_assoc. f_equal.
    rewrite (drop_S _ _ _ Hd). done.
Qed.

Lemma json_dump_run path m s :
  writable path = true → is_dir (fs s !! path) = false →
  json_dump path m s
  = (Ok (), {| fs := <[path := NJson m]> (fs s);
               stdout := stdout s; writer_log := writer_log s |}).
Proof.
  intros Hw Hd. unfold json_dump, bind. cbn.
  destruct (fs s !! path) as [[| | |]|]; cbn in Hd; try done; by rewrite Hw.
Qed.

Lemma save_metadata_run image reader filenames output_path s :
  depth_of (img_array image) <= length reader →
  Forall (λ d : dict, NoDup d.*1) reader →
  writable output_path = true → is_dir (fs s !! output_path) = false →
  save_metadata image reader filenames output_path s
  = (Ok (), {| fs := <[output_path :=
                         NJson {| m_filenames := Some filenames;
                                  m_origin := Some (img_origin image);
                                  m_spacing := Some (img_spacing image);
                                  m_direction := Some (img_direction image);
                                  m_size := Some (GetSize image);
                                  m_pixel_id := Some (GetPixelID image);
                                  m_pixel_id_type_as_string := Some (GetPixelIDTypeAsString image);
                                  m_slices_metadata :=
                                    Some (take (depth_of (img_array image)) reader) |}]> (fs s);
               stdout := stdout s; writer_log := writer_log s |}).
Proof.
  intros Hlen Hnd Hw Hd. unfold save_metadata.
  change (GetSize image).2 with (depth_of (img_array image)).
  assert (0 + depth_of (img_array image) <= length reader) as Hlen' by lia.
  rewrite (bind_ok _ _ _ _ _
             (slices_metadata_loop_run reader _ Hnd 0 [] s Hlen')).
  rewrite json_dump_run by done. done.
Qed.

(** *** The paths of a series *)

Lemma converted_join x :
  ospath.startswith_sep x = false →
  ospath.join CONVERTED_DIR x = "data/converted/" +:+ x.
Proof. intros Hx. unfold ospath.join. by rewrite Hx. Qed.

Lemma reconstructed_join x :
  ospath.startswith_sep x = false →
  ospath.join RECONSTRUCTED_DIR x = "data/reconstructed/" +:+ x.
Proof. intros Hx. unfold ospath.join. by rewrite Hx. Qed.

Lemma startswith_sep_series_file series_dir ext :
  ospath.startswith_sep ext = false →
  ospath.startswith_sep (ospath.basename series_dir +:+ ext) = false.
Proof.
  intros Hext. apply startswith_sep_app; [|done].
  apply startswith_has_sep, has_sep_basename.
Qed.

Lemma converted_path_ne_dir series_dir ext :
  ospath.startswith_sep ext = false →
  ospath.join CONVERTED_DIR (ospath.basename series_dir +:+ ext) ≠ CONVERTED_DIR.
Proof.
  intros Hext. rewrite converted_join by by apply startswith_sep_series_file.
  discriminate.
Qed.

Lemma converted_path_nonempty series_dir ext :
  ospath.startswith_sep ext = false →
  ospath.join CONVERTED_DIR (ospath.basename series_dir +:+ ext) ≠ "".
Proof.
  intros Hext. rewrite converted_join by by apply startswith_sep_series_file.
  discriminate.
Qed.

Lemma reconstructed_ne_converted series_dir ext :
  ospath.startswith_sep ext = false →
  ospath.join RECONSTRUCTED_DIR (ospath.basename series_dir)
  ≠ ospath.join CONVERTED_DIR (ospath.basename series_dir +:+ ext).
Proof.
  intros Hext.
  rewrite converted_join by by apply startswith_sep_series_file.
  rewrite reconstructed_join by apply startswith_has_sep, has_sep_basename.
  discriminate.
Qed.

(** *** [dicom_to_zarr], forwards *)

Lemma makedirs_run d s :
  no_plain_file (fs s) d → (fs s !! d = None → writable d = true) →
  makedirs d s
  = (Ok (), {| fs := match fs s !! d with
                     | None => <[d := NDir]> (fs s)
                     | Some _ => fs s
                     end;
               stdout := stdout s; writer_log := writer_log s |}).
Proof.
  intros Hnf Hw. unfold makedirs, bind, no_plain_file in *. cbn.
  destruct (fs s !! d) as [[| | |]|]; try done; cbn; try by rewrite state_eta.
  by rewrite Hw.
Qed.

Lemma lookup_with_store_json series_dir image s :
  sidecar_free series_dir s →
  is_dir (with_store series_dir image s
            !! ospath.join CONVERTED_DIR (ospath.basename series_dir +:+ ".json")) = false.
Proof.
  intros Hfree. unfold with_store, sidecar_free in *.
  rewrite lookup_insert_ne by apply converted_paths_ne.
  rewrite lookup_without_tree. destruct (ospath.under _ _); [done|].
  destruct (fs s !! CONVERTED_DIR); [done|].
  rewrite lookup_insert_ne; [done|]. intros Heq. symmetry in Heq. revert Heq.
  by apply converted_path_ne_dir.
Qed.

(** [dicom_to_zarr] up to the sidecar: the store is in place. *)
Lemma dicom_to_zarr_store_run series_dir image dicts s :
  loads_as series_dir image dicts → store_placeable series_dir s →
  let series_id := ospath.basename series_dir in
  let zarr_path := ospath.join CONVERTED_DIR (series_id +:+ ".zarr") in
  let json_path := ospath.join CONVERTED_DIR (series_id +:+ ".json") in
  dicom_to_zarr series_dir s
  = (save_metadata image dicts (GetGDCMSeriesFileNames series_dir) json_path >>
     print (PrintSaved zarr_path json_path) >>
     ret (Some zarr_path, Some json_path))
      {| fs := with_store series_dir image s;
         stdout := stdout s ++ [PrintProcessing series_id; PrintLoadingDicom; PrintConverting];
         writer_log := writer_log s |}.
Proof.
  intros (Hnames & Hexec & _) (Hnfc & Hwc & Hwz & Hnfz). cbv zeta.
  unfold dicom_to_zarr. rewrite bool_decide_eq_false_2 by done.
  rewrite (bind_ok _ _ _ _ _ (print_run _ _)).
  rewrite (bind_ok _ _ _ _ _ (print_run _ _)).
  rewrite Hexec. unfold lift at 1.
  rewrite (bind_ok _ _ _ (image, dicts) _ eq_refl).
  rewrite (bind_ok _ _ _ _ _ (print_run _ _)).
  cbn [fs stdout writer_log].
  set (so := ((stdout s ++ [PrintProcessing (ospath.basename series_dir)])
                ++ [PrintLoadingDicom]) ++ [PrintConverting]).
  set (f1 := match fs s !! CONVERTED_DIR with
             | None => <[CONVERTED_DIR := NDir]> (fs s)
             | Some _ => fs s
             end).
  assert (makedirs CONVERTED_DIR {| fs := fs s; stdout := so; writer_log := writer_log s |}
          = (Ok (), {| fs := f1; stdout := so; writer_log := writer_log s |})) as Hmk
    by (by rewrite makedirs_run).
  rewrite (bind_ok _ _ _ _ _ Hmk).
  assert (no_plain_file f1 (ospath.join CONVERTED_DIR
                              (ospath.basename series_dir +:+ ".zarr"))) as Hnf1.
  { unfold f1, no_plain_file in *.
    destruct (fs s !! CONVERTED_DIR); [done|].
    destruct (decide (CONVERTED_DIR
                      = ospath.join CONVERTED_DIR (ospath.basename series_dir +:+ ".zarr")))
      as [<-|Hne].
    - by rewrite lookup_insert_eq.
    - by rewrite lookup_insert_ne. }
  assert (save_array (ospath.join CONVERTED_DIR (ospath.basename series_dir +:+ ".zarr"))
            (GetArrayFromImage image) {| fs := f1; stdout := so; writer_log := writer_log s |}
          = (Ok (), {| fs := with_store series_dir image s; stdout := so;
                       writer_log := writer_log s |})) as Hsave
    by (by rewrite save_array_run).
  rewrite (bind_ok _ _ _ _ _ Hsave).
  unfold so. by rewrite <- !app_assoc.
Qed.

Lemma dicom_to_zarr_run series_dir image dicts s :
  loads_as series_dir image dicts → store_placeable series_dir s →
  writable (ospath.join CONVERTED_DIR (ospath.basename series_dir +:+ ".json")) = true →
  sidecar_free series_dir s →
  dicom_to_zarr series_dir s
  = (Ok (Some (ospath.join CONVERTED_DIR (ospath.basename series_dir +:+ ".zarr")),
         Some (ospath.join CONVERTED_DIR (ospath.basename series_dir +:+ ".json"))),
     after_dicom_to_zarr series_dir image dicts s).
Proof.
  intros Hload Hplace Hwj Hfree.
  rewrite (dicom_to_zarr_store_run _ image dicts) by done.
  destruct Hload as (_ & _ & _ & _ & Hlen & Hnd & _).
  set (s1 := {| fs := with_store series_dir image s;
                stdout := stdout s ++ [PrintProcessing (ospath.basename series_dir);
                                       PrintLoadingDicom; PrintConverting];
                writer_log := writer_log s |}).
  pose proof (save_metadata_run image dicts (GetGDCMSeriesFileNames series_dir)
                (ospath.join CONVERTED_DIR (ospath.basename series_dir +:+ ".json"))
                s1 Hlen Hnd Hwj (lookup_with_store_json _ _ _ Hfree)) as Hmeta.
  rewrite (bind_ok _ _ _ _ _ Hmeta).
  unfold bind. cbn. unfold after_dicom_to_zarr, sidecar_of. cbn.
  by rewrite <- !app_assoc.
Qed.

(** *** [process_series], forwards *)

Lemma reconstructible_after_dicom_to_zarr series_dir image dicts s :
  (∀ c bs, blosc_decode c (blosc_encode c bs) = bs) →
  loads_as series_dir image dicts → geometry_accepted image →
  writable (ospath.join RECONSTRUCTED_DIR (ospath.basename series_dir)) = true →
  no_plain_file (fs s) (ospath.join RECONSTRUCTED_DIR (ospath.basename series_dir)) →
  reconstructible
    (ospath.join CONVERTED_DIR (ospath.basename series_dir +:+ ".zarr"))
    (ospath.join CONVERTED_DIR (ospath.basename series_dir +:+ ".json"))
    (ospath.basename series_dir) (img_array image) (sidecar_of series_dir image dicts)
    (after_dicom_to_zarr series_dir image dicts s).
Proof.
  intros Hlossless (_ & _ & Hwf & Hne & _ & _ & _) (Ho & Hsp & Hd) Hw Hnf.
  unfold reconstructible, after_dicom_to_zarr. cbn [fs].
  split.
  { exists (stored_array (img_array image)). split.
    - rewrite lookup_insert_ne by (intros Heq; symmetry in Heq; revert Heq;
                                   apply converted_paths_ne).
      unfold with_store. apply lookup_insert_eq.
    - by apply zarr_getitem_stored. }
  split; [apply lookup_insert_eq|].
  split; [by eexists _, _|]. split; [by eexists _, _|]. split; [by eexists _, _|].
  split; [done|].
  split; [|intros _; by destruct Hne as (_ & ? & ?)].
  unfold no_plain_file in *.
  rewrite lookup_insert_ne
    by (intros Heq; symmetry in Heq; revert Heq; by apply reconstructed_ne_converted).
  unfold with_store.
  rewrite lookup_insert_ne
    by (intros Heq; symmetry in Heq; revert Heq; by apply reconstructed_ne_converted).
  rewrite lookup_without_tree. destruct (ospath.under _ _); [done|].
  destruct (fs s !! CONVERTED_DIR); [done|].
  destruct (decide (CONVERTED_DIR
                    = ospath.join RECONSTRUCTED_DIR (ospath.basename series_dir))) as [<-|Hne'].
  - by rewrite lookup_insert_eq.
  - by rewrite lookup_insert_ne.
Qed.

Lemma process_series_run series_dir image dicts s :
  (∀ c bs, blosc_decode c (blosc_encode c bs) = bs) →
  loads_as series_dir image dicts → geometry_accepted image →
  store_placeable series_dir s →
  writable (ospath.join CONVERTED_DIR (ospath.basename series_dir +:+ ".json")) = true →
  sidecar_free series_dir s →
  writable (ospath.join RECONSTRUCTED_DIR (ospath.basename series_dir)) = true →
  no_plain_file (fs s) (ospath.join RECONSTRUCTED_DIR (ospath.basename series_dir)) →
  process_series series_dir s
  = (Ok (), after_reconstruction (img_array image) (sidecar_of series_dir image dicts)
              (ospath.basename series_dir) (after_dicom_to_zarr series_dir image dicts s)).
Proof.
  intros Hlossless Hload Hgeo Hplace Hwj Hfree Hwr Hnfr. unfold process_series.
  rewrite (bind_ok _ _ _ _ _ (dicom_to_zarr_run _ _ _ _ Hload Hplace Hwj Hfree)).
  unfold truthy. rewrite !bool_decide_eq_true_2 by by apply converted_path_nonempty.
  cbn [andb]. apply zarr_to_dicom_run.
  by apply reconstructible_after_dicom_to_zarr.
Qed.

(** Attaching tags changes nothing but the metadata dictionary. *)
Lemma foldl_attach_fields (d : dict) :
  ∀ img, sl_dtype (foldl attach img d) = sl_dtype img
         ∧ sl_size (foldl attach img d) = sl_size img
         ∧ sl_origin (foldl attach img d) = sl_origin img
         ∧ sl_spacing (foldl attach img d) = sl_spacing img
         ∧ sl_direction (foldl attach img d) = sl_direction img.
Proof.
  induction d as [|kv d IH]; intros img; [done|].
  cbn [foldl]. destruct (IH (attach img kv)) as (-> & -> & -> & -> & ->).
  unfold attach, SetMetaData. by destruct (SetMetaData_error _ _).
Qed.

(** The calls of a reconstruction, one by one. *)
Lemma reconstruction_calls arr m series_id s :
  let recon_series_dir := ospath.join RECONSTRUCTED_DIR series_id in
  let filenames := default [] (m_filenames m) in
  let slices_metadata := default [] (m_slices_metadata m) in
  ∃ cs,
    writer_log (after_reconstruction arr m series_id s) = writer_log s ++ cs
    ∧ length cs = depth_of arr
    ∧ cs = loop_calls (reconstructed arr m) recon_series_dir filenames
             (fallback_extension filenames) slices_metadata
             (at_loop_start recon_series_dir s) (seq 0 (depth_of arr))
    ∧ ∀ i c, cs !! i = Some c →
             i < depth_of arr
             ∧ wc_path c = slice_name recon_series_dir filenames
                             (fallback_extension filenames) i
             ∧ wc_image c = tagged_slice (reconstructed arr m) slices_metadata i.
Proof.
  cbv zeta. eexists. split; [|split; [|split; [reflexivity|]]].
  - unfold after_reconstruction. cbn [fs stdout writer_log]. by rewrite loop_log.
  - by rewrite length_loop_calls, length_seq.
  - intros i c Hc.
    destruct (lookup_loop_calls _ _ _ _ _ _ _ _ _ Hc) as (i' & Hi' & Hp & Him).
    apply lookup_seq in Hi' as [-> Hi']. by split_and!.
Qed.

(** *** Exceptions of [zarr_to_dicom] *)




Lemma quiet_print c : quiet (print c).
Proof. intros s r s' H. cbn in H. by simplify_eq. Qed.

Lemma quiet_lift {A} (r : result A) : quiet (lift r).
Proof. intros s r' s' H. destruct r; cbn in H; by simplify_eq. Qed.

Lemma quiet_getitem {A} key (field : option A) : quiet (getitem key field).
Proof. intros s r s' H. destruct field; cbn in H; by simplify_eq. Qed.

Lemma quiet_zarr_open_r_getitem path : quiet (zarr_open_r_getitem path).
Proof.
  intros s r s'. unfold zarr_open_r_getitem, bind. cbn.
  destruct (fs s !! path) as [[| z | |]|]; cbn; try by intros ?; simplify_eq.
  destruct (zarr_getitem z); cbn; by intros ?; simplify_eq.
Qed.

Lemma quiet_load_metadata path : quiet (load_metadata path).
Proof.
  intros s r s'. unfold load_metadata, bind. cbn.
  destruct (fs s !! path) as [[| | |]|]; cbn; by intros ?; simplify_eq.
Qed.



(** *** [main] *)

Lemma main_run b :
  is_dir (fs (b_state b) !! RAW_DIR) = true →
  fst <$> filter (λ f, f.2 = true) (scandir RAW_DIR) ≠ [] →
  main b
  = ((for_each (fst <$> filter (λ f, f.2 = true) (scandir RAW_DIR))
               process_series (b_state b)).1,
     {| b_state := (for_each (fst <$> filter (λ f, f.2 = true) (scandir RAW_DIR))
                             process_series (b_state b)).2;
        b_stdout := b_stdout b |}).
Proof.
  intros Hdir Hne. unfold main.
  destruct (fs (b_state b) !! RAW_DIR) as [[| | |]|]; cbn in Hdir; try done;
    rewrite bool_decide_eq_false_2 by done; by destruct (for_each _ _ _).
Qed.

(** *** Zero-padded numbers are pairwise distinct *)

Lemma strip_zeros_padding k d :
  strip_zeros (string_of_list_ascii (replicate k "0"%char) +:+ d) = strip_zeros d.
Proof.
  induction k as [|k IH]; [done|].
  cbn [replicate string_of_list_ascii]. rewrite app_String. cbn. exact IH.
Qed.

Lemma pretty_N_go_head x :
  (0 < x)%N → ∀ s, ∃ c r, pretty_N_go x s = String c r ∧ c ≠ "0"%char.
Proof.
  induction (N.lt_wf_0 x) as [x _ IH]. intros Hx s.
  rewrite pretty_N_go_step by done.
  destruct (N.eq_0_gt_0_cases (x `div` 10)) as [Hq|Hq].
  - rewrite Hq, pretty_N_go_0. eexists _, _. split; [done|].
    assert (x < 10)%N as Hlt by (apply N.div_small_iff in Hq; lia).
    rewrite N.mod_small by done.
    assert (x = 1 ∨ x = 2 ∨ x = 3 ∨ x = 4 ∨ x = 5 ∨ x = 6 ∨ x = 7 ∨ x = 8 ∨ x = 9)%N
      as Hcases by lia.
    destruct Hcases as [->|[->|[->|[->|[->|[->|[->|[->| ->]]]]]]]]; done.
  - apply IH; [by apply N.div_lt | done].
Qed.

Lemma pretty_nat_head (i : nat) :
  i ≠ 0 → ∃ c r, pretty i = String c r ∧ c ≠ "0"%char.
Proof.
  intros Hi. unfold pretty, pretty_nat, pretty, pretty_N.
  rewrite decide_False by lia. apply pretty_N_go_head. lia.
Qed.

Lemma strip_zeros_pretty (i : nat) :
  strip_zeros (pretty i) = if decide (i = 0) then "" else pretty i.
Proof.
  destruct (decide (i = 0)) as [->|Hi]; [done|].
  destruct (pretty_nat_head i Hi) as (c & r & -> & Hc).
  cbn. by rewrite bool_decide_eq_false_2.
Qed.

Lemma pretty_nat_nonempty (i : nat) : i ≠ 0 → pretty i ≠ "".
Proof. intros Hi. by destruct (pretty_nat_head i Hi) as (c & r & -> & _). Qed.

Lemma zfill4_inj i j : zfill4 i = zfill4 j → i = j.
Proof.
  intros H. apply (f_equal strip_zeros) in H. unfold zfill4 in H.
  rewrite !strip_zeros_padding, !strip_zeros_pretty in H.
  destruct (decide (i = 0)) as [->|Hi], (decide (j = 0)) as [->|Hj]; try done.
  - symmetry in H. by apply pretty_nat_nonempty in H.
  - by apply pretty_nat_nonempty in H.
  - by apply (inj pretty).
Qed.

Lemma string_app_inv_tail (a b e : string) : a +:+ e = b +:+ e → a = b.
Proof.
  revert b. induction a as [|c a IH]; intros b H.
  - apply (f_equal String.length) in H. rewrite !string_length_app in H.
    destruct b; [done | cbn in H; lia].
  - destruct b as [|c' b].
    + apply (f_equal String.length) in H. rewrite !string_length_app in H. cbn in H. lia.
    + rewrite !app_String in H. injection H as -> H. f_equal. by apply IH.
Qed.

(** Without recorded names the slice names are pairwise distinct. *)
Lemma fallback_names_NoDup series_id extension N :
  ospath.startswith_sep extension = false →
  NoDup (slice_name (ospath.join RECONSTRUCTED_DIR series_id) [] extension <$> seq 0 N).
Proof.
  intros Hext. apply NoDup_fmap_2_strong; [|apply NoDup_seq].
  intros i j _ _. unfold slice_name. cbn. intros H.
  apply join_inj in H.
  - by apply string_app_inv_tail, zfill4_inj in H.
  - apply recon_series_dir_nonempty.
  - apply startswith_sep_app; [apply startswith_sep_zfill4 | done].
  - apply startswith_sep_app; [apply startswith_sep_zfill4 | done].
Qed.

(** *** Converting the same series again *)

Lemma converted_dir_not_under series_dir ext :
  ospath.startswith_sep ext = false →
  ospath.under (ospath.join CONVERTED_DIR (ospath.basename series_dir +:+ ext))
               CONVERTED_DIR = false.
Proof.
  intros Hext. unfold ospath.under.
  rewrite bool_decide_eq_false_2
    by (intros Heq; symmetry in Heq; revert Heq; by apply converted_path_ne_dir).
  rewrite converted_join by by apply startswith_sep_series_file.
  unfold ospath.dir_prefix. destruct (ospath.endswith_sep _); [done|].
  by rewrite string_app_assoc.
Qed.

Lemma lookup_after_dicom_to_zarr_dir series_dir image dicts s :
  no_plain_file (fs s) CONVERTED_DIR →
  ∃ n, fs (after_dicom_to_zarr series_dir image dicts s) !! CONVERTED_DIR = Some n
       ∧ is_dir (Some n) = true.
Proof.
  intros Hnf. unfold after_dicom_to_zarr, with_store. cbn [fs].
  rewrite lookup_insert_ne by by apply converted_path_ne_dir.
  rewrite lookup_insert_ne by by apply converted_path_ne_dir.
  rewrite lookup_without_tree, converted_dir_not_under by done.
  unfold no_plain_file in Hnf.
  destruct (fs s !! CONVERTED_DIR) as [n|] eqn:Hn.
  - exists n. split; [done|]. by destruct n.
  - exists NDir. by rewrite lookup_insert_eq.
Qed.

(** *** Where the file system can change *)

Lemma touches_only_quiet {A} P (m : M A) : quiet m → touches_only P m.
Proof. intros Hm s r s' k H _. destruct (Hm _ _ _ H) as [-> _]. done. Qed.

Lemma touches_only_bind {A B} P (m : M A) (k : A → M B) :
  touches_only P m → (∀ a, touches_only P (k a)) → touches_only P (bind m k).
Proof.
  intros Hm Hk s r s' key. unfold bind. destruct (m s) as [[a|e] s1] eqn:Hms.
  - intros H Hkey. rewrite (Hk a _ _ _ _ H Hkey). by eapply Hm.
  - intros H Hkey. simplify_eq. by eapply Hm.
Qed.

Lemma quiet_bind {A B} (m : M A) (k : A → M B) :
  quiet m → (∀ a, quiet (k a)) → quiet (bind m k).
Proof.
  intros Hm Hk s r s'. unfold bind. destruct (m s) as [[a|e] s1] eqn:Hms.
  - intros H. destruct (Hk a _ _ _ H) as [-> ->]. by eapply Hm.
  - intros H. simplify_eq. by eapply Hm.
Qed.

Lemma quiet_ret {A} (a : A) : quiet (ret a).
Proof. intros s r s' H. cbn in H. by simplify_eq. Qed.

Lemma quiet_raise {A} e : quiet (raise (A := A) e).
Proof. intros s r s' H. cbn in H. by simplify_eq. Qed.

Lemma quiet_fold_m {A B} (body : B → A → M B) (l : list A) :
  (∀ acc x, quiet (body acc x)) → ∀ acc, quiet (fold_m body l acc).
Proof.
  intros Hbody. induction l as [|x l IH]; intros acc; cbn [fold_m].
  - apply quiet_ret.
  - apply quiet_bind; [apply Hbody | apply IH].
Qed.

Lemma quiet_exists_ p : quiet (exists_ p).
Proof. intros s r s' H. unfold exists_, bind in H. cbn in H. by simplify_eq. Qed.

Lemma quiet_slices_metadata_loop reader l acc :
  quiet (fold_m (λ slices_metadata i,
                   let* keys := GetMetaDataKeys reader i in
                   let* slice_tags :=
                     fold_m (λ slice_tags key,
                               let* v := GetMetaData reader i key in
                               ret (dict_set key v slice_tags))
                            keys [] in
                   ret (slices_metadata ++ [slice_tags])) l acc).
Proof.
  apply quiet_fold_m. intros sm i. apply quiet_bind.
  { unfold GetMetaDataKeys. destruct (reader !! i); [apply quiet_ret | apply quiet_raise]. }
  intros keys. apply quiet_bind; [|intros tags; apply quiet_ret].
  apply quiet_fold_m. intros tags key. apply quiet_bind; [|intros v; apply quiet_ret].
  unfold GetMetaData. destruct (reader !! i) as [d|]; [|apply quiet_raise].
  destruct (dict_get key d); [apply quiet_ret | apply quiet_raise].
Qed.

Lemma touches_only_set_at {A} (P : string → Prop) (m : M A) path :
  P path →
  (∀ s r s', m s = (r, s') → fs s' = fs s ∨ ∃ n, fs s' = <[path := n]> (fs s)) →
  touches_only P m.
Proof.
  intros Hp Hm s r s' k H Hk. destruct (Hm _ _ _ H) as [->|[n ->]]; [done|].
  rewrite lookup_insert_ne; [done|]. by intros ->.
Qed.

Lemma touches_only_makedirs P d : P d → touches_only P (makedirs d).
Proof.
  intros Hp. apply (touches_only_set_at P _ d Hp). intros s r s'.
  unfold makedirs, bind. cbn.
  destruct (fs s !! d) as [[| | |]|]; cbn; try (intros ?; simplify_eq; by left).
  destruct (writable d); cbn; intros ?; simplify_eq; [right; by eexists | by left].
Qed.

Lemma touches_only_json_dump P path m : P path → touches_only P (json_dump path m).
Proof.
  intros Hp. apply (touches_only_set_at P _ path Hp). intros s r s'.
  unfold json_dump, bind. cbn.
  destruct (fs s !! path) as [[| | |]|]; cbn; try (intros ?; simplify_eq; by left);
    destruct (writable path); cbn; intros ?; simplify_eq; (by left) || (right; by eexists).
Qed.

Lemma lookup_partly_removed_outside p survives f k :
  ospath.under p k = false → partly_removed p survives f !! k = f !! k.
Proof.
  intros Hu. unfold partly_removed. destruct (f !! k) as [x|] eqn:Hk.
  - apply map_lookup_filter_Some_2; [done|]. by left.
  - apply map_lookup_filter_None_2. by left.
Qed.

Lemma touches_only_rmtree (P : string → Prop) d :
  (∀ k, ospath.under d k = true → P k) → touches_only P (rmtree d).
Proof.
  intros Hp s r s' k. unfold rmtree, bind. cbn.
  destruct (fs s !! d) as [[| | |]|]; cbn; try (by intros ?; simplify_eq);
    destruct (writable d); cbn; intros ? Hk; simplify_eq; cbn;
    (destruct (ospath.under d k) eqn:Hu; [by destruct (Hk (Hp k Hu))|]);
    by rewrite ?lookup_without_tree, ?lookup_partly_removed_outside, ?Hu.
Qed.

Lemma touches_only_zarr_open_w (P : string → Prop) path shp chk t e b :
  (∀ k, ospath.under path k = true → P k) →
  touches_only P (zarr_open_w path shp chk t e b).
Proof.
  intros Hp s r s' k. unfold zarr_open_w, bind. cbn.
  destruct (writable path); cbn; intros ? Hk; simplify_eq; [|done]. cbn.
  rewrite lookup_insert_ne by (intros ->; apply Hk, Hp, under_refl).
  rewrite lookup_without_tree.
  destruct (ospath.under path k) eqn:Hu; [by destruct (Hk (Hp k Hu)) | done].
Qed.

Lemma touches_only_zarr_setitem P path arr : P path → touches_only P (zarr_setitem path arr).
Proof.
  intros Hp. apply (touches_only_set_at P _ path Hp). intros s r s'.
  unfold zarr_setitem, bind. cbn.
  destruct (fs s !! path) as [[| z | |]|]; cbn; try (intros ?; simplify_eq; by left).
  case_decide; cbn; intros ?; simplify_eq; [right; by eexists | by left].
Qed.

Lemma touches_only_for_each {A} P (l : list A) (body : A → M unit) :
  (∀ x, touches_only P (body x)) → touches_only P (for_each l body).
Proof.
  intros Hbody. induction l as [|x l IH]; cbn [for_each].
  - apply touches_only_quiet, quiet_ret.
  - apply touches_only_bind; [apply Hbody | intros _; apply IH].
Qed.

Lemma zfill4_nonempty i : zfill4 i ≠ "".
Proof.
  intros H. apply (f_equal String.length) in H. unfold zfill4 in H.
  rewrite string_length_app in H. cbn in H.
  assert (pretty i ≠ "") as Hp.
  { destruct (decide (i = 0)) as [->|Hi]; [done | by apply pretty_nat_nonempty]. }
  destruct (pretty i); [done | cbn in H; lia].
Qed.

Lemma startswith_sep_fallback_name i extension :
  ospath.startswith_sep (zfill4 i +:+ extension) = false.
Proof.
  pose proof (startswith_sep_zfill4 i) as Hs. pose proof (zfill4_nonempty i) as Hne.
  destruct (zfill4 i) as [|c r]; [done|]. by rewrite app_String.
Qed.

Lemma under_any_slice_name d filenames extension i :
  d ≠ "" → ospath.under d (slice_name d filenames extension i) = true.
Proof.
  intros Hd. unfold slice_name. destruct (filenames !! i) as [fi|].
  - apply under_join; [done|]. apply startswith_has_sep, has_sep_basename.
  - apply under_join; [done|]. apply startswith_sep_fallback_name.
Qed.

(** Whatever the writer leaves for a slice lies in the output directory. *)
Lemma under_slice_files d filenames extension i q :
  d ≠ "" → q ∈ written_paths (slice_name d filenames extension i) →
  ospath.under d q = true.
Proof.
  intros Hd. unfold slice_name. destruct (filenames !! i) as [fi|].
  - apply under_written_paths; [done|]. apply startswith_has_sep, has_sep_basename.
  - apply under_written_paths; [done|]. apply startswith_sep_fallback_name.
Qed.

Lemma touches_only_write_slice image d filenames extension slices_metadata i :
  d ≠ "" →
  touches_only (λ k, ospath.under d k = true)
    (write_slice image d filenames extension slices_metadata i).
Proof.
  intros Hd s r s' k. rewrite write_slice_run. intros ? Hk. simplify_eq.
  rewrite after_slice_fs. destruct (writer_outcome _ _ _); [done|].
  rewrite lookup_write_files. rewrite decide_False; [done|].
  intros Hin. apply Hk. by eapply under_slice_files.
Qed.

Lemma touches_only_zarr_to_dicom zarr_path json_path series_id :
  touches_only (λ k, ospath.under (ospath.join RECONSTRUCTED_DIR series_id) k = true)
    (zarr_to_dicom zarr_path json_path series_id).
Proof.
  unfold zarr_to_dicom.
  apply touches_only_bind; [apply touches_only_quiet, quiet_print|]. intros _.
  apply touches_only_bind; [apply touches_only_quiet, quiet_zarr_open_r_getitem|]. intros arr.
  apply touches_only_bind; [apply touches_only_quiet, quiet_load_metadata|]. intros m.
  apply touches_only_bind; [apply touches_only_quiet, quiet_print|]. intros _.
  apply touches_only_bind; [apply touches_only_quiet, quiet_getitem|]. intros o.
  apply touches_only_bind; [apply touches_only_quiet, quiet_lift|]. intros im1.
  apply touches_only_bind; [apply touches_only_quiet, quiet_getitem|]. intros sp.
  apply touches_only_bind; [apply touches_only_quiet, quiet_lift|]. intros im2.
  apply touches_only_bind; [apply touches_only_quiet, quiet_getitem|]. intros d.
  apply touches_only_bind; [apply touches_only_quiet, quiet_lift|]. intros im3.
  apply touches_only_bind.
  { unfold fresh_directory.
    apply touches_only_bind; [apply touches_only_quiet, quiet_exists_|]. intros ex.
    apply touches_only_bind.
    - destruct ex; [by apply touches_only_rmtree | apply touches_only_quiet, quiet_ret].
    - intros _. apply touches_only_makedirs, under_refl. }
  intros _. apply touches_only_bind.
  { apply touches_only_quiet. intros s0 r0 s0' H0.
    rewrite detect_extension_run in H0. by simplify_eq. }
  intros ext. apply touches_only_bind.
  { unfold write_slices. apply touches_only_for_each. intros i.
    apply touches_only_bind.
    - apply touches_only_quiet. intros s0 r0 s0'. unfold take_plane.
      destruct (slicing_error im3 i); cbn; by intros ?; simplify_eq.
    - intros _. apply touches_only_write_slice, recon_series_dir_nonempty. }
  intros _. apply touches_only_bind; [|intros _]; apply touches_only_quiet, quiet_print.
Qed.

Lemma touches_only_dicom_to_zarr series_dir :
  touches_only
    (λ k, k = CONVERTED_DIR
          ∨ k = ospath.join CONVERTED_DIR (ospath.basename series_dir +:+ ".json")
          ∨ ospath.under (ospath.join CONVERTED_DIR
                            (ospath.basename series_dir +:+ ".zarr")) k = true)
    (dicom_to_zarr series_dir).
Proof.
  unfold dicom_to_zarr.
  apply touches_only_bind; [apply touches_only_quiet, quiet_print|]. intros _.
  apply touches_only_bind; [apply touches_only_quiet, quiet_print|]. intros _.
  case_bool_decide.
  { apply touches_only_bind; [apply touches_only_quiet, quiet_print|]. intros _.
    apply touches_only_quiet, quiet_ret. }
  apply touches_only_bind; [apply touches_only_quiet, quiet_lift|]. intros [image reader].
  apply touches_only_bind; [apply touches_only_quiet, quiet_print|]. intros _.
  apply touches_only_bind; [apply touches_only_makedirs; by left|]. intros _.
  apply touches_only_bind.
  { unfold save_array.
    apply touches_only_bind; [apply touches_only_quiet, quiet_exists_|]. intros ex.
    apply touches_only_bind.
    - destruct ex; [|apply touches_only_quiet, quiet_ret].
      apply touches_only_rmtree. intros k0 Hk0. by right; right.
    - intros _. apply touches_only_bind.
      + apply touches_only_zarr_open_w. intros k0 Hk0. by right; right.
      + intros _. apply touches_only_zarr_setitem. right; right. apply under_refl. }
  intros _. apply touches_only_bind.
  { unfold save_metadata. apply touches_only_bind.
    - apply touches_only_quiet, quiet_slices_metadata_loop.
    - intros sm. apply touches_only_json_dump. by right; left. }
  intros _. apply touches_only_bind; [apply touches_only_quiet, quiet_print|]. intros _.
  apply touches_only_quiet, quiet_ret.
Qed.

(** *** Reconstructing the same store again *)

Lemma loop_fs_congr image d filenames extension slices_metadata l :
  ∀ s s', fs s = fs s' →
          fs (foldl (after_slice image d filenames extension slices_metadata) s l)
          = fs (foldl (after_slice image d filenames extension slices_metadata) s' l).
Proof.
  induction l as [|i l IH]; intros s s' Hfs; cbn [foldl]; [done|].
  apply IH. by rewrite !after_slice_fs, Hfs.
Qed.

Lemma loop_calls_congr image d filenames extension slices_metadata l :
  ∀ s s', fs s = fs s' →
          loop_calls image d filenames extension slices_metadata s l
          = loop_calls image d filenames extension slices_metadata s' l.
Proof.
  induction l as [|i l IH]; intros s s' Hfs; cbn [loop_calls]; [done|].
  rewrite Hfs. f_equal. apply IH. by rewrite !after_slice_fs, Hfs.
Qed.

Lemma loop_fs_outside image d filenames extension slices_metadata l s k :
  d ≠ "" → ospath.under d k = false →
  fs (foldl (after_slice image d filenames extension slices_metadata) s l) !! k = fs s !! k.
Proof.
  intros Hd Hk. apply loop_fs_untouched. intros i _ Hin.
  pose proof (under_slice_files d filenames extension i k Hd Hin) as Hu. congruence.
Qed.

Lemma without_tree_loop image d filenames extension slices_metadata l s :
  d ≠ "" →
  without_tree d (fs (foldl (after_slice image d filenames extension slices_metadata) s l))
  = without_tree d (fs s).
Proof.
  intros Hd. apply map_eq. intros k. rewrite !lookup_without_tree.
  destruct (ospath.under d k) eqn:Hu; [done|]. by apply loop_fs_outside.
Qed.

Lemma without_tree_absent d f :
  f !! d = None → listdir f d = ∅ → without_tree d f = f.
Proof.
  intros Hd Hl. apply map_eq. intros k. rewrite lookup_without_tree.
  destruct (ospath.under d k) eqn:Hu; [|done].
  destruct (decide (k = d)) as [->|Hne]; [done|].
  apply (f_equal (λ m, m !! k)) in Hl.
  rewrite lookup_listdir, lookup_empty in Hl. by rewrite decide_True in Hl.
Qed.

Lemma at_loop_start_fs_again image d filenames extension slices_metadata l s :
  d ≠ "" →
  (fs s !! d = None → listdir (fs s) d = ∅) →
  fs (at_loop_start d
        (foldl (after_slice image d filenames extension slices_metadata)
               (at_loop_start d s) l))
  = fs (at_loop_start d s).
Proof.
  intros Hd Hwf. unfold at_loop_start at 1. cbn [fs].
  rewrite bool_decide_eq_true_2.
  2:{ apply loop_fs_mono. unfold at_loop_start. cbn. by rewrite lookup_insert_eq. }
  rewrite without_tree_loop by done.
  unfold at_loop_start. cbn [fs]. rewrite without_tree_insert.
  destruct (fs s !! d) as [n|] eqn:Hsd.
  - rewrite bool_decide_eq_true_2 by done. by rewrite without_tree_idemp.
  - rewrite bool_decide_eq_false_2 by (by intros [? ?]).
    by rewrite without_tree_absent by auto.
Qed.

(** *** One series, and the whole batch *)

Lemma touches_only_weaken {A} (P Q : string → Prop) (m : M A) :
  (∀ k, P k → Q k) → touches_only P m → touches_only Q m.
Proof.
  intros HPQ Hm s r s' k H Hk. apply (Hm _ _ _ _ H). intros HP. by apply Hk, HPQ.
Qed.

Lemma touches_only_process_series series_dir :
  touches_only
    (λ k, k = CONVERTED_DIR
          ∨ k = ospath.join CONVERTED_DIR (ospath.basename series_dir +:+ ".json")
          ∨ ospath.under (ospath.join CONVERTED_DIR
                            (ospath.basename series_dir +:+ ".zarr")) k = true
          ∨ ospath.under (ospath.join RECONSTRUCTED_DIR
                            (ospath.basename series_dir)) k = true)
    (process_series series_dir).
Proof.
  unfold process_series. apply touches_only_bind.
  - eapply touches_only_weaken; [|apply touches_only_dicom_to_zarr].
    cbn. intros k [?|[?|?]]; auto.
  - intros [zo jo]. destruct (truthy zo && truthy jo); [|apply touches_only_quiet, quiet_ret].
    destruct zo as [zp|], jo as [jp|]; try apply touches_only_quiet, quiet_ret.
    eapply touches_only_weaken; [|apply touches_only_zarr_to_dicom]. cbn. auto.
Qed.

Lemma prefix_trans (a b c : string) :
  String.prefix a b = true → String.prefix b c = true → String.prefix a c = true.
Proof.
  revert b c. induction a as [|x a IH]; intros [|y b] [|z c]; cbn; try done.
  destruct (Ascii.ascii_dec x y) as [->|]; [|done].
  destruct (Ascii.ascii_dec y z) as [->|]; [|done].
  destruct (Ascii.ascii_dec z z); [|done]. apply IH.
Qed.

Lemma prefix_dir_prefix (a b : string) : String.prefix a (ospath.dir_prefix (a +:+ b)) = true.
Proof.
  unfold ospath.dir_prefix. destruct (ospath.endswith_sep _); [apply prefix_app|].
  rewrite string_app_assoc. apply prefix_app.
Qed.

Lemma under_converted_tree series_dir ext k :
  ospath.startswith_sep ext = false →
  ospath.under (ospath.join CONVERTED_DIR (ospath.basename series_dir +:+ ext)) k = true →
  ospath.under CONVERTED_DIR k = true.
Proof.
  intros Hext Hk. unfold ospath.under in Hk. apply orb_true_iff in Hk as [Hk|Hk].
  - apply bool_decide_eq_true_1 in Hk as ->.
    apply under_join; [done | by apply startswith_sep_series_file].
  - rewrite converted_join in Hk by by apply startswith_sep_series_file.
    unfold ospath.under. apply orb_true_iff. right.
    change (ospath.dir_prefix CONVERTED_DIR) with "data/converted/".
    eapply prefix_trans; [apply prefix_dir_prefix | exact Hk].
Qed.

Lemma under_reconstructed_tree series_dir k :
  ospath.under (ospath.join RECONSTRUCTED_DIR (ospath.basename series_dir)) k = true →
  ospath.under RECONSTRUCTED_DIR k = true.
Proof.
  intros Hk. unfold ospath.under in Hk. apply orb_true_iff in Hk as [Hk|Hk].
  - apply bool_decide_eq_true_1 in Hk as ->.
    apply under_join; [done | apply startswith_has_sep, has_sep_basename].
  - rewrite reconstructed_join in Hk by apply startswith_has_sep, has_sep_basename.
    unfold ospath.under. apply orb_true_iff. right.
    change (ospath.dir_prefix RECONSTRUCTED_DIR) with "data/reconstructed/".
    eapply prefix_trans; [apply prefix_dir_prefix | exact Hk].
Qed.

(** *** Recorded names that collide *)

Lemma size_list_to_set_lt (l : list string) i j x :
  i < j → l !! i = Some x → l !! j = Some x →
  size (list_to_set (C := gset string) l) < length l.
Proof.
  revert i j. induction l as [|y l IH]; intros i j Hij Hi Hj; [done|].
  destruct j as [|j]; [lia|]. cbn in Hj. cbn [list_to_set length].
  destruct i as [|i]; cbn in Hi.
  - simplify_eq.
    assert ({[x]} ∪ list_to_set (C := gset string) l = list_to_set l) as ->.
    { apply set_eq. intros z. rewrite elem_of_union, elem_of_singleton.
      split; [|by right]. intros [->|Hz]; [|done].
      apply elem_of_list_to_set. by eapply list_elem_of_lookup_2. }
    pose proof (size_list_to_set_le l). lia.
  - assert (size (list_to_set (C := gset string) l) < length l) as Hlt
      by (apply (IH i j); [lia | done | done]).
    rewrite size_union_alt, size_singleton.
    assert (list_to_set (C := gset string) l ∖ {[y]} ⊆ list_to_set l) as Hsub.
    { intros z Hz. by apply elem_of_difference in Hz as [Hz _]. }
    apply subseteq_size in Hsub. lia.
Qed.

(** *** A plain file where a directory is expected *)

Lemma rmtree_plain_file {B} d (k : M B) s :
  is_Some (fs s !! d) → is_dir (fs s !! d) = false →
  (let* ex := exists_ d in (if ex : bool then rmtree d else ret ()) >> k) s
  = (Raise (NotADirectoryError d), s).
Proof.
  intros [n Hn] Hdir. unfold exists_, rmtree, bind, get_fs, ret. cbn.
  rewrite Hn in Hdir |- *. rewrite bool_decide_eq_true_2 by done.
  destruct n; try done; cbn; by rewrite Hn.
Qed.

(** *** The slice that reaches the writer *)

Lemma tagged_slice_is_plane image slices_metadata i :
  is_plane (img_array image) i (tagged_slice image slices_metadata i).
Proof.
  unfold is_plane, tagged_slice.
  destruct (foldl_attach_pixels (default [] (slices_metadata !! i)) (extract_slice image i))
    as [-> ->].
  destruct (foldl_attach_fields (default [] (slices_metadata !! i)) (extract_slice image i))
    as (-> & -> & _).
  done.
Qed.

Lemma tagged_slice_meta image slices_metadata i :
  sl_meta (tagged_slice image slices_metadata i)
  = foldl set_entry ∅ (accepted (default [] (slices_metadata !! i))).
Proof. unfold tagged_slice. by rewrite foldl_attach_meta. Qed.

Lemma tagged_slice_geometry image slices_metadata i :
  (sl_origin (tagged_slice image slices_metadata i),
   sl_spacing (tagged_slice image slices_metadata i),
   sl_direction (tagged_slice image slices_metadata i))
  = plane_geometry (img_origin image) (img_spacing image) (img_direction image) i.
Proof.
  unfold tagged_slice.
  destruct (foldl_attach_fields (default [] (slices_metadata !! i)) (extract_slice image i))
    as (_ & _ & -> & -> & ->).
  cbn. by destruct (plane_geometry _ _ _ _) as [[? ?] ?].
Qed.

(** ** The claims *)

(** C1 (round-trip losslessness).  For every well-formed, non-empty array
    [V] of shape (D, H, W), whatever its element type and whichever byte
    order [sys.byteorder] the writer records, saving [V] to a store
    (lines 79-110 of [dicom_to_zarr]) and then loading the store
    (line 123 of [zarr_to_dicom]) succeeds and returns an array equal to [V]
    in shape, element type and every element.  The compressor is assumed
    lossless; the target must be writable and not occupied by a plain
    file. *)
Theorem read_after_write_is_identity zarr_path (V : ndarray) s :
  (∀ c bs, blosc_decode c (blosc_encode c bs) = bs) →
  wf_array V → nonempty V →
  writable zarr_path = true → no_plain_file (fs s) zarr_path →
  ∃ s', save_array zarr_path V s = (Ok (), s')
        ∧ zarr_open_r_getitem zarr_path s' = (Ok V, s').
Proof.
  intros Hlossless Hwf Hne Hw Hnf.
  eexists. split; [by apply save_array_run|].
  unfold zarr_open_r_getitem, bind. cbn.
  rewrite lookup_insert_eq, zarr_getitem_stored by done. done.
Qed.


(** C3, as the code has it.  Whenever [dicom_to_zarr] returns its two
    paths, the sidecar it wrote lists the discovered file names unchanged
    and holds exactly one tag dictionary per slice of the loaded volume:
    [len(slices_metadata) == depth].  The number of file names is never
    compared with the depth: [len(filenames)] equals the other two exactly
    when the reader returned one slice per discovered file. *)
Theorem sidecar_lists_follow_the_load series_dir s zarr_path json_path s' :
  dicom_to_zarr series_dir s = (Ok (Some zarr_path, Some json_path), s') →
  ∃ image dicts m filenames slices_metadata,
    reader_Execute (GetGDCMSeriesFileNames series_dir) = Ok (image, dicts)
    ∧ fs s' !! json_path = Some (NJson m)
    ∧ m_filenames m = Some filenames
    ∧ m_slices_metadata m = Some slices_metadata
    ∧ filenames = GetGDCMSeriesFileNames series_dir
    ∧ length slices_metadata = (GetSize image).2
    ∧ (length filenames = length slices_metadata
       ↔ depth_of (GetArrayFromImage image) = length (GetGDCMSeriesFileNames series_dir)).
Proof.
  intros H.
  destruct (decide (GetGDCMSeriesFileNames series_dir = [])) as [Hnil|Hnames].
  { rewrite dicom_to_zarr_empty in H by done. discriminate. }
  destruct (dicom_to_zarr_ok_inv _ _ _ _ _ H Hnames)
    as (image & dicts & sm & Hexec & Hz & Hj & Hlen & _ & Hjson).
  simplify_eq. eexists image, dicts, _, _, sm.
  split_and!; [done | exact Hjson | done | done | done | done |].
  unfold GetArrayFromImage. rewrite Hlen. split; intros Heq; by rewrite Heq.
Qed.

(** C4, as the code has it.  When [zarr_to_dicom] reaches its loop, it
    calls the writer once per slice, in order; call [i] carries plane [i]
    of the loaded array and is aimed at the output directory joined with
    the last component of recorded file name [i], whenever the record has a
    file name [i]; that file's last component is again this component.
    With N recorded names for N slices the N calls therefore carry the
    originals' last components in the original order.  The output
    directory holds exactly N entries, one under each of them and each
    holding its slice, when in addition no call raised, the last components
    are pairwise distinct (the code writes by last component alone) and the
    writer leaves a single file per call.  With no recorded name at all,
    slice [i] goes to the zero-padded number [i] followed by ".dcm". *)
Theorem slices_are_named_after_the_recorded_files
    zarr_path json_path series_id arr m s :
  reconstructible zarr_path json_path series_id arr m s →
  let recon_series_dir := ospath.join RECONSTRUCTED_DIR series_id in
  let filenames := default [] (m_filenames m) in
  ∃ s' cs,
    zarr_to_dicom zarr_path json_path series_id s = (Ok (), s')
    ∧ writer_log s' = writer_log s ++ cs
    ∧ length cs = depth_of arr
    ∧ (∀ i c, cs !! i = Some c → is_plane arr i (wc_image c))
    ∧ (∀ i fi c, filenames !! i = Some fi → cs !! i = Some c →
         wc_path c = ospath.join recon_series_dir (ospath.basename fi)
         ∧ ospath.basename (wc_path c) = ospath.basename fi)
    ∧ (length filenames = depth_of arr →
       (ospath.basename ∘ wc_path) <$> cs = ospath.basename <$> filenames)
    ∧ (length filenames = depth_of arr →
       NoDup (ospath.basename <$> filenames) →
       Forall (λ c, wc_error c = None) cs →
       (∀ f, f ∈ filenames →
             companion_extensions (ospath.join recon_series_dir (ospath.basename f)) = []) →
       (fs s !! recon_series_dir = None → listdir (fs s) recon_series_dir = ∅) →
       size (listdir (fs s') recon_series_dir) = depth_of arr
       ∧ dom (listdir (fs s') recon_series_dir)
         = list_to_set ((λ f, ospath.join recon_series_dir (ospath.basename f))
                          <$> filenames)
       ∧ ∀ i fi c, filenames !! i = Some fi → cs !! i = Some c →
                   fs s' !! ospath.join recon_series_dir (ospath.basename fi)
                   = Some (NDicom (wc_image c)))
    ∧ (filenames = [] →
       ∀ i c, cs !! i = Some c →
              wc_path c = ospath.join recon_series_dir (zfill4 i +:+ ".dcm")).
Proof.
  intros Hrec. cbv zeta.
  set (recon := ospath.join RECONSTRUCTED_DIR series_id).
  set (fl := default [] (m_filenames m)).
  set (sm := default [] (m_slices_metadata m)).
  set (s0 := at_loop_start recon s).
  set (cs := loop_calls (reconstructed arr m) recon fl (fallback_extension fl) sm
               s0 (seq 0 (depth_of arr))).
  assert (∀ i c, cs !! i = Some c →
                 i < depth_of arr
                 ∧ wc_path c = slice_name recon fl (fallback_extension fl) i
                 ∧ wc_image c = tagged_slice (reconstructed arr m) sm i) as Hcall.
  { intros i c Hc.
    destruct (lookup_loop_calls _ _ _ _ _ _ _ _ _ Hc) as (i' & Hi' & Hp & Him).
    apply lookup_seq in Hi' as [-> Hi']. by split. }
  eexists _, cs. split; [by apply zarr_to_dicom_run|].
  unfold after_reconstruction. cbn [fs stdout writer_log]. fold recon fl sm s0.
  split; [by rewrite loop_log|].
  split; [by unfold cs; rewrite length_loop_calls, length_seq|].
  split; [|split; [|split; [|split]]].
  - intros i c Hc. destruct (Hcall i c Hc) as (_ & _ & ->).
    apply (tagged_slice_is_plane (reconstructed arr m)).
  - intros i fi c Hfi Hc. destruct (Hcall i c Hc) as (_ & -> & _).
    unfold slice_name. rewrite Hfi. split; [done|].
    apply basename_join, has_sep_basename.
  - intros Hlen. rewrite list_fmap_compose.
    assert (wc_path <$> cs = slice_name recon fl (fallback_extension fl)
                               <$> seq 0 (depth_of arr)) as ->.
    { pose proof (after_slices_log (reconstructed arr m) recon fl (fallback_extension fl)
                    sm (seq 0 (depth_of arr)) s0) as [Hp _].
      cbv zeta in Hp. rewrite loop_log, fmap_app in Hp. by apply app_inv_head in Hp. }
    rewrite slice_names_of_filenames by done.
    rewrite <- list_fmap_compose. apply list_fmap_ext. intros i f _. cbn.
    apply basename_join, has_sep_basename.
  - intros Hlen Hnd Hall Hsingle Hwf.
    destruct (listdir_at_loop_start recon s Hwf) as [Hempty Hdir].
    fold s0 in Hempty, Hdir.
    assert (∀ i, i ∈ seq 0 (depth_of arr) →
                 ospath.under recon (slice_name recon fl (fallback_extension fl) i) = true)
      as Hunder by (intros i _; apply under_slice_name).
    assert (∀ i, i ∈ seq 0 (depth_of arr) →
                 companion_extensions (slice_name recon fl (fallback_extension fl) i) = [])
      as Hone.
    { intros i Hi. apply elem_of_seq in Hi.
      destruct (lookup_lt_is_Some_2 fl i) as [fi Hfi]; [lia|].
      unfold slice_name. rewrite Hfi. apply Hsingle. by eapply list_elem_of_lookup_2. }
    assert (NoDup (slice_name recon fl (fallback_extension fl) <$> seq 0 (depth_of arr)))
      as Hnames.
    { rewrite slice_names_of_filenames by done.
      change (NoDup ((ospath.join recon ∘ ospath.basename) <$> fl)).
      rewrite list_fmap_compose. apply NoDup_fmap_2_strong; [|done].
      intros b1 b2 Hb1 Hb2. apply join_inj; [apply recon_series_dir_nonempty|..].
      - apply list_elem_of_fmap in Hb1 as (f1 & -> & _).
        apply startswith_has_sep, has_sep_basename.
      - apply list_elem_of_fmap in Hb2 as (f2 & -> & _).
        apply startswith_has_sep, has_sep_basename. }
    split; [|split].
    + rewrite loop_listdir_size; [apply length_seq | done | by rewrite Hdir | done..].
    + rewrite loop_listdir_dom; [|done | by rewrite Hdir | | done].
      * rewrite slice_files_single by done. by rewrite slice_names_of_filenames.
      * intros i q Hi Hq. unfold written_paths in Hq. rewrite Hone in Hq by done.
        apply list_elem_of_singleton in Hq as ->. by apply Hunder.
    + intros i fi c Hfi Hc. destruct (Hcall i c Hc) as (Hi & Hp & ->).
      assert (slice_name recon fl (fallback_extension fl) i
              = ospath.join recon (ospath.basename fi)) as Hname
        by (unfold slice_name; by rewrite Hfi).
      rewrite <- Hname.
      eapply loop_fs_written; [by apply lookup_seq_0 | exact Hc | | ].
      * by eapply Forall_lookup_1 in Hall.
      * intros j' i' Hlt Hj'. apply lookup_seq in Hj' as [-> Hj']. cbn.
        unfold written_paths. rewrite Hone by (apply elem_of_seq; lia).
        intros Heq%list_elem_of_singleton.
        assert (i = j'); [|lia].
        eapply (NoDup_lookup _ i j' _ Hnames).
        -- by rewrite list_lookup_fmap, lookup_seq_0.
        -- rewrite list_lookup_fmap, lookup_seq_0 by done. cbn. by rewrite Heq.
  - intros Hnil i c Hc. destruct (Hcall i c Hc) as (_ & -> & _).
    unfold slice_name. by rewrite Hnil.
Qed.


(** C6 (per-key tag-attach tolerance).  For a slice [i] that has a tag
    mapping, the keys are attached one by one and restoring them never
    raises, whichever keys [SetMetaData] refuses: the slice ends up with
    exactly the accepted entries, as if the refused ones had not been in the
    mapping (in a dictionary: an accepted key has its value, a refused key
    is absent); the pixels are untouched, and the turn of the loop goes on
    to call the writer with that slice. *)
Theorem tag_failures_are_swallowed
    image recon_series_dir filenames extension slices_metadata i tags s :
  slices_metadata !! i = Some tags →
  ∃ slice_img s' outcome,
    restore_tags slices_metadata i (extract_slice image i) s = (Ok slice_img, s)
    ∧ sl_meta slice_img = foldl set_entry ∅ (accepted tags)
    ∧ sl_pixels slice_img = sl_pixels (extract_slice image i)
    ∧ (NoDup tags.*1 →
       ∀ k v, (k, v) ∈ tags →
              sl_meta slice_img !! k
              = match SetMetaData_error k v with Some _ => None | None => Some v end)
    ∧ write_slice image recon_series_dir filenames extension slices_metadata i s
      = (Ok (), s')
    ∧ writer_log s'
      = writer_log s ++ [{| wc_path := slice_name recon_series_dir filenames extension i;
                            wc_image := slice_img; wc_error := outcome |}].
Proof.
  intros Htags.
  exists (tagged_slice image slices_metadata i). eexists _, _.
  split; [|split; [|split; [|split; [|split]]]].
  - rewrite restore_tags_run. unfold tagged_slice. by rewrite Htags.
  - unfold tagged_slice. rewrite Htags. cbn. by rewrite foldl_attach_meta.
  - unfold tagged_slice. rewrite Htags. cbn. apply foldl_attach_pixels.
  - intros Hnd k v Hin. unfold tagged_slice. rewrite Htags. cbn.
    by apply tags_key_by_key.
  - apply write_slice_run.
  - apply after_slice_log.
Qed.

(** C7, as the code has it.  Store: writing an array to a path where a
    store was written before (of the same or of another array) leaves the
    file system exactly as writing it to the untouched path does; in
    particular a second write of the same array changes nothing, the path
    holds the one new store, and nothing else lies below it.
    Reconstruction: when the output directory already exists, whatever a
    prior run of whatever depth left in it, the run ends with the directory
    in place and every entry in it written by this run: it is a file of
    some call [i < N] of this run and holds plane [i] of the array, so no
    stale file is left.  The number of entries is not N in general: it is
    at most N when the writer leaves a single file per call, and exactly N
    when in addition no call raised and the N names are pairwise
    distinct. *)
Theorem overwriting_leaves_no_trace
    zarr_path json_path series_id (arr_before arr : ndarray) m s :
  let recon_series_dir := ospath.join RECONSTRUCTED_DIR series_id in
  let filenames := default [] (m_filenames m) in
  let name := slice_name recon_series_dir filenames (fallback_extension filenames) in
  (writable zarr_path = true → no_plain_file (fs s) zarr_path →
   ∃ s1 s2 s2',
     save_array zarr_path arr_before s = (Ok (), s1)
     ∧ save_array zarr_path arr s1 = (Ok (), s2)
     ∧ save_array zarr_path arr s = (Ok (), s2')
     ∧ fs s2 = fs s2'
     ∧ (arr_before = arr → fs s2 = fs s1)
     ∧ fs s2 !! zarr_path = Some (NZarr (stored_array arr))
     ∧ listdir (fs s2) zarr_path = ∅)
  ∧ (reconstructible zarr_path json_path series_id arr m s →
     is_Some (fs s !! recon_series_dir) →
     ∃ s' cs,
       zarr_to_dicom zarr_path json_path series_id s = (Ok (), s')
       ∧ writer_log s' = writer_log s ++ cs
       ∧ length cs = depth_of arr
       ∧ fs s' !! recon_series_dir = Some NDir
       ∧ (∀ k n, listdir (fs s') recon_series_dir !! k = Some n →
             ∃ i c, cs !! i = Some c
                    ∧ wc_path c = name i
                    ∧ k ∈ written_paths (name i)
                    ∧ n = NDicom (wc_image c)
                    ∧ is_plane arr i (wc_image c))
       ∧ ((∀ i, i < depth_of arr → companion_extensions (name i) = []) →
          size (listdir (fs s') recon_series_dir) <= depth_of arr
          ∧ (Forall (λ c, wc_error c = None) cs →
             NoDup (name <$> seq 0 (depth_of arr)) →
             size (listdir (fs s') recon_series_dir) = depth_of arr))).
Proof.
  cbv zeta. split.
  - intros Hw Hnf.
    assert (∀ a s0, no_plain_file
              (<[zarr_path := NZarr (stored_array a)]> (without_tree zarr_path (fs s0)))
              zarr_path) as Hnf'.
    { intros a s0. unfold no_plain_file. by rewrite lookup_insert_eq. }
    eexists _, _, _.
    split; [by apply save_array_run|].
    split; [apply save_array_run; [done | apply Hnf']|].
    split; [by apply save_array_run|]. cbn [fs].
    assert (∀ a, <[zarr_path := NZarr (stored_array arr)]>
                   (without_tree zarr_path
                      (<[zarr_path := NZarr (stored_array a)]> (without_tree zarr_path (fs s))))
                 = <[zarr_path := NZarr (stored_array arr)]> (without_tree zarr_path (fs s)))
      as Heq by (intros a; by rewrite without_tree_insert, without_tree_idemp).
    split; [apply Heq|]. split; [intros ->; apply Heq|].
    split; [apply lookup_insert_eq|].
    apply map_eq. intros k. rewrite lookup_listdir, lookup_empty.
    case_decide as Hk; [|done]. destruct Hk as [Hu Hne].
    rewrite lookup_insert_ne by done. rewrite lookup_without_tree.
    rewrite lookup_insert_ne by done. rewrite lookup_without_tree. by rewrite Hu.
  - intros Hrec Hex.
    set (recon := ospath.join RECONSTRUCTED_DIR series_id).
    set (fl := default [] (m_filenames m)).
    set (sm := default [] (m_slices_metadata m)).
    set (s0 := at_loop_start recon s).
    set (cs := loop_calls (reconstructed arr m) recon fl (fallback_extension fl) sm
                 s0 (seq 0 (depth_of arr))).
    assert (length cs = depth_of arr) as Hlen
      by (unfold cs; by rewrite length_loop_calls, length_seq).
    destruct (listdir_at_loop_start recon s) as [Hempty Hdir].
    { intros Hnone. fold recon in Hex. rewrite Hnone in Hex. by destruct Hex. }
    fold s0 in Hempty, Hdir.
    eexists _, cs. split; [by apply zarr_to_dicom_run|].
    unfold after_reconstruction. cbn [fs stdout writer_log]. fold recon fl sm s0.
    split; [by rewrite loop_log|]. split; [done|].
    split; [by rewrite loop_fs_dirs; rewrite Hdir|].
    split.
    + intros k n Hk.
      destruct (loop_no_stale _ _ _ _ _ _ _ _ _ Hempty Hk) as (i & Hi & Hin & ->).
      apply elem_of_seq in Hi.
      destruct (lookup_lt_is_Some_2 cs i) as [c Hc]; [lia|].
      destruct (lookup_loop_calls _ _ _ _ _ _ _ _ _ Hc) as (i' & Hi' & Hp & Him).
      rewrite lookup_seq_0 in Hi' by lia. injection Hi' as <-.
      exists i, c. split; [done|]. split; [done|]. split; [done|].
      rewrite Him. split; [done|]. apply (tagged_slice_is_plane (reconstructed arr m)).
    + intros Hone.
      assert (∀ i, i ∈ seq 0 (depth_of arr) →
                   companion_extensions (slice_name recon fl (fallback_extension fl) i) = [])
        as Hone' by (intros i Hi%elem_of_seq; apply Hone; lia).
      split.
      * pose proof (loop_listdir_size_le (reconstructed arr m) recon fl (fallback_extension fl)
                      sm (seq 0 (depth_of arr)) s0 Hempty Hone') as Hle.
        by rewrite length_seq in Hle.
      * intros Hall Hnd.
        rewrite loop_listdir_size; [apply length_seq | done | by rewrite Hdir | | done..].
        intros i _. apply under_slice_name.
Qed.

(** C8 (zero-file discovery).  When discovery yields no member file for a
    series directory, [dicom_to_zarr] returns [(None, None)] after printing
    its message, and [process_series] returns normally: the file system is
    as before (no store, no sidecar), nothing of [zarr_to_dicom] has run (no
    writer call, no line of its output). *)
Theorem series_without_files_is_skipped series_dir s :
  GetGDCMSeriesFileNames series_dir = [] →
  let skipped :=
    {| fs := fs s;
       stdout := stdout s ++ [PrintProcessing (ospath.basename series_dir);
                              PrintLoadingDicom; PrintNoDicomFiles series_dir];
       writer_log := writer_log s |} in
  dicom_to_zarr series_dir s = (Ok (None, None), skipped)
  ∧ process_series series_dir s = (Ok (), skipped).
Proof.
  intros Hnames. cbv zeta. split; [by apply dicom_to_zarr_empty|].
  unfold process_series.
  rewrite (bind_ok _ _ _ _ _ (dicom_to_zarr_empty _ _ Hnames)). done.
Qed.

(** C9, as the code has it.  The store write does fail when the target path
    is not writable.  It makes no check of the shape: on a writable path
    that no plain file occupies, an array of depth 0 (with H, W > 0) is
    written without error, and what is left is a store of shape (0, H, W),
    chunk shape (1, H, W) and no chunk. *)
Theorem store_write_fails_only_on_the_path zarr_path (arr : ndarray) s :
  (writable zarr_path = false → ∃ e s', save_array zarr_path arr s = (Raise e, s'))
  ∧ (writable zarr_path = true → no_plain_file (fs s) zarr_path →
     depth_of arr = 0 → 0 < height_of arr → 0 < width_of arr →
     ∃ s' z,
       save_array zarr_path arr s = (Ok (), s')
       ∧ fs s' !! zarr_path = Some (NZarr z)
       ∧ z_shape z = (0, height_of arr, width_of arr)
       ∧ z_chunks z = (1, height_of arr, width_of arr)
       ∧ z_chunkdata z = ∅).
Proof.
  split.
  - intros Hw. destruct s as [f so lg].
    unfold save_array, exists_, bind at 1 2. cbn.
    destruct (f !! zarr_path) as [n|] eqn:Hn.
    + rewrite bool_decide_eq_true_2 by done.
      unfold rmtree, bind at 1 2. cbn. rewrite Hn.
      destruct n; rewrite ?Hw; cbn; by eexists _, _.
    + rewrite bool_decide_eq_false_2 by (by intros [? ?]).
      unfold bind, zarr_open_w. cbn. rewrite Hw. cbn. by eexists _, _.
  - intros Hw Hnf Hd Hh Hwd. eexists _, (stored_array arr).
    split; [by apply save_array_run|]. cbn [fs].
    split; [apply lookup_insert_eq|].
    unfold stored_array, store_planes, chunk_grid, created_array, with_chunkdata,
      depth_of, height_of, width_of in *.
    destruct (shape arr) as [[d h] w]. cbn in *. subst d.
    rewrite (decide_True (P := 0 < h ∧ 0 < w)) by (split; lia). cbn. by split_and!.
Qed.

(** C10, as the code has it.  The two sidecar lists are never indexed out
    of range: as long as SimpleITK and [shutil.rmtree] raise no
    [IndexError] of their own, [zarr_to_dicom] never raises [IndexError],
    whatever it is given.  It does not write all N slices for every array
    and record, though: it needs a record with an origin, a spacing and a
    direction that SimpleITK accepts, an output directory it may replace
    and planes that hold pixels.  Then, for an array of depth N and a
    record with [m] file names and [t] tag mappings, it returns normally
    after calling the writer for all N slices in order, call [i] carrying
    plane [i] of the array; a slice [i] with [m <= i] goes to the
    zero-padded number [i] followed by the extension of the first recorded
    name (".dcm" when there is none), and a slice [i] with [t <= i] is
    written with an empty metadata dictionary. *)
Theorem short_sidecar_lists_fall_back zarr_path json_path series_id arr m s :
  let recon_series_dir := ospath.join RECONSTRUCTED_DIR series_id in
  let filenames := default [] (m_filenames m) in
  let slices_metadata := default [] (m_slices_metadata m) in
  let extension :=
    match filenames with
    | [] => ".dcm"
    | f0 :: _ => (ospath.splitext f0).2
    end in
  ((∀ l, as_origin l ≠ Raise IndexError) →
   (∀ l, as_spacing l ≠ Raise IndexError) →
   (∀ l, as_direction l ≠ Raise IndexError) →
   (∀ p f, (rmtree_failure p f).1 ≠ IndexError) →
   ∀ zp jp sid s0 e s1, zarr_to_dicom zp jp sid s0 = (Raise e, s1) → e ≠ IndexError)
  ∧ (reconstructible zarr_path json_path series_id arr m s →
     ∃ s' cs,
       zarr_to_dicom zarr_path json_path series_id s = (Ok (), s')
       ∧ writer_log s' = writer_log s ++ cs
       ∧ length cs = depth_of arr
       ∧ ∀ i c, cs !! i = Some c →
                is_plane arr i (wc_image c)
                ∧ (length filenames <= i →
                   wc_path c = ospath.join recon_series_dir (zfill4 i +:+ extension))
                ∧ (length slices_metadata <= i → sl_meta (wc_image c) = ∅)).
Proof.
  cbv zeta. split.
  { intros Ho Hsp Hd Hrm zp jp sid. by apply zarr_to_dicom_never_IndexError. }
  intros Hrec.
  set (recon := ospath.join RECONSTRUCTED_DIR series_id).
  set (fl := default [] (m_filenames m)).
  set (sm := default [] (m_slices_metadata m)).
  set (s0 := at_loop_start recon s).
  set (cs := loop_calls (reconstructed arr m) recon fl (fallback_extension fl) sm
               s0 (seq 0 (depth_of arr))).
  eexists _, cs. split; [by apply zarr_to_dicom_run|].
  unfold after_reconstruction. cbn [fs stdout writer_log]. fold recon fl sm s0.
  split; [by rewrite loop_log|].
  split; [by unfold cs; rewrite length_loop_calls, length_seq|].
  intros i c Hc.
  destruct (lookup_loop_calls _ _ _ _ _ _ _ _ _ Hc) as (i' & Hi' & Hp & Him).
  apply lookup_seq in Hi' as [-> Hi']. cbn in Hp, Him. rewrite Hp, Him.
  split; [apply (tagged_slice_is_plane (reconstructed arr m))|]. split.
  - intros Hm. unfold slice_name. by rewrite lookup_ge_None_2.
  - intros Ht. rewrite tagged_slice_meta. by rewrite lookup_ge_None_2.
Qed.

(** ** Further theorems *)

(** X1 (sidecar round trip).  When the reader holds a dictionary with
    distinct keys for every slice and the sidecar path can be written,
    [save_metadata] succeeds, and [load_metadata] on the same path returns a
    record with the file names as passed, the geometry, size and pixel type
    of the image, and, slice by slice, the reader's dictionaries unchanged
    (same keys, same values, same order). *)
Theorem saved_sidecar_loads_back image reader filenames output_path s :
  depth_of (img_array image) <= length reader →
  Forall (λ d : dict, NoDup d.*1) reader →
  writable output_path = true →
  is_dir (fs s !! output_path) = false →
  ∃ s' m slices_metadata,
    save_metadata image reader filenames output_path s = (Ok (), s')
    ∧ load_metadata output_path s' = (Ok m, s')
    ∧ m_filenames m = Some filenames
    ∧ m_origin m = Some (img_origin image)
    ∧ m_spacing m = Some (img_spacing image)
    ∧ m_direction m = Some (img_direction image)
    ∧ m_size m = Some (GetSize image)
    ∧ m_pixel_id m = Some (GetPixelID image)
    ∧ m_slices_metadata m = Some slices_metadata
    ∧ length slices_metadata = (GetSize image).2
    ∧ ∀ i, i < (GetSize image).2 → slices_metadata !! i = reader !! i.
Proof.
  intros Hlen Hnd Hw Hd. eexists _, _, _.
  split; [by apply save_metadata_run|].
  split; [unfold load_metadata, bind; cbn; by rewrite lookup_insert_eq|].
  cbn. split_and!; try done.
  - rewrite length_take. lia.
  - intros i Hi. by apply lookup_take_lt.
Qed.

(** X2 (the pipeline writes what it loaded).  For a series that loads, with
    a lossless compressor, targets that can be written and a geometry that
    SimpleITK takes back as it handed it out, [process_series] returns
    normally after one writer call per slice, in order; call [i] carries
    plane [i] of the loaded array with the array's element type and plane
    size, the geometry of plane [i] of a volume with the origin, spacing
    and direction of the loaded image, exactly the entries of the reader's
    dictionary [i] that [SetMetaData] accepts, and it is aimed at the
    reconstructed directory of the series joined with the last component of
    discovered file [i]. *)
Theorem process_series_writes_the_loaded_slices series_dir image dicts s :
  (∀ c bs, blosc_decode c (blosc_encode c bs) = bs) →
  loads_as series_dir image dicts →
  geometry_accepted image →
  store_placeable series_dir s →
  writable (ospath.join CONVERTED_DIR (ospath.basename series_dir +:+ ".json")) = true →
  sidecar_free series_dir s →
  writable (ospath.join RECONSTRUCTED_DIR (ospath.basename series_dir)) = true →
  no_plain_file (fs s) (ospath.join RECONSTRUCTED_DIR (ospath.basename series_dir)) →
  let arr := GetArrayFromImage image in
  ∃ s' cs,
    process_series series_dir s = (Ok (), s')
    ∧ writer_log s' = writer_log s ++ cs
    ∧ length cs = depth_of arr
    ∧ ∀ i c, cs !! i = Some c →
             is_plane arr i (wc_image c)
             ∧ (sl_origin (wc_image c), sl_spacing (wc_image c), sl_direction (wc_image c))
               = plane_geometry (img_origin image) (img_spacing image)
                                (img_direction image) i
             ∧ (∀ tags, dicts !! i = Some tags →
                        sl_meta (wc_image c) = foldl set_entry ∅ (accepted tags))
             ∧ (∀ f, GetGDCMSeriesFileNames series_dir !! i = Some f →
                     wc_path c = ospath.join
                                   (ospath.join RECONSTRUCTED_DIR (ospath.basename series_dir))
                                   (ospath.basename f)).
Proof.
  intros Hlossless Hload Hgeo Hplace Hwj Hfree Hwr Hnfr. cbv zeta.
  destruct (reconstruction_calls (img_array image) (sidecar_of series_dir image dicts)
              (ospath.basename series_dir) (after_dicom_to_zarr series_dir image dicts s))
    as (cs & Hlog & Hlen & _ & Hcalls).
  eexists _, cs. split; [by apply process_series_run|].
  split; [exact Hlog|]. split; [exact Hlen|].
  intros i c Hc. destruct (Hcalls i c Hc) as (Hi & Hp & Him).
  rewrite Hp, Him. destruct Hgeo as (Ho & Hsp & Hd).
  split; [apply (tagged_slice_is_plane (reconstructed _ _))|]. split; [|split].
  - rewrite tagged_slice_geometry. unfold reconstructed, sidecar_of. cbn.
    by rewrite Ho, Hsp, Hd.
  - intros tags Htags. rewrite tagged_slice_meta. cbn.
    rewrite lookup_take_lt, Htags by done. done.
  - intros f Hf. unfold slice_name. cbn. by rewrite Hf.
Qed.

(** X3 (element type from the array, geometry from the record).  In every
    reconstruction that reaches its loop, slice [i] as handed to the writer
    has the element type and the plane size of the loaded array, and the
    geometry of plane [i] of a volume with the origin, spacing and
    direction that SimpleITK keeps of the sidecar's, whatever the sidecar's
    [pixel_id], [pixel_id_type_as_string] and [size] say: these three keys
    are never read. *)
Theorem slices_take_type_from_array_and_geometry_from_record
    zarr_path json_path series_id arr m s origin spacing direction vo vsp vd :
  reconstructible zarr_path json_path series_id arr m s →
  m_origin m = Some origin → as_origin origin = Ok vo →
  m_spacing m = Some spacing → as_spacing spacing = Ok vsp →
  m_direction m = Some direction → as_direction direction = Ok vd →
  ∃ s' cs,
    zarr_to_dicom zarr_path json_path series_id s = (Ok (), s')
    ∧ writer_log s' = writer_log s ++ cs
    ∧ length cs = depth_of arr
    ∧ ∀ i c, cs !! i = Some c →
             sl_dtype (wc_image c) = arr_dtype arr
             ∧ sl_size (wc_image c) = (width_of arr, height_of arr)
             ∧ (sl_origin (wc_image c), sl_spacing (wc_image c), sl_direction (wc_image c))
               = plane_geometry vo vsp vd i.
Proof.
  intros Hrec Ho Hvo Hsp Hvsp Hd Hvd.
  destruct (reconstruction_calls arr m series_id s) as (cs & Hlog & Hlen & _ & Hcalls).
  eexists _, cs. split; [by apply zarr_to_dicom_run|].
  split; [exact Hlog|]. split; [exact Hlen|].
  intros i c Hc. destruct (Hcalls i c Hc) as (_ & _ & Him).
  rewrite Him.
  destruct (tagged_slice_is_plane (reconstructed arr m) (default [] (m_slices_metadata m)) i)
    as (_ & _ & Hdt & Hsz).
  split; [exact Hdt|]. split; [exact Hsz|].
  rewrite tagged_slice_geometry. unfold reconstructed, kept. cbn.
  by rewrite Ho, Hvo, Hsp, Hvsp, Hd, Hvd.
Qed.


(** X5 (required sidecar keys).  With a store and a sidecar that load, a
    sidecar that lacks [origin], [spacing] or [direction] makes
    [zarr_to_dicom] raise [KeyError] for the first of them that is missing
    (the keys before it being present with values SimpleITK accepts); only
    the two progress lines have been printed, and the file system, an
    earlier reconstruction included, is untouched. *)
Theorem missing_geometry_key_raises_KeyError zarr_path json_path series_id z arr m s :
  fs s !! zarr_path = Some (NZarr z) → zarr_getitem z = Ok arr →
  fs s !! json_path = Some (NJson m) →
  let s' := {| fs := fs s; stdout := stdout s ++ [PrintLoadingBack; PrintReconstructing];
               writer_log := writer_log s |} in
  (m_origin m = None →
   zarr_to_dicom zarr_path json_path series_id s = (Raise (KeyError "origin"), s'))
  ∧ (∀ o vo, m_origin m = Some o → as_origin o = Ok vo → m_spacing m = None →
             zarr_to_dicom zarr_path json_path series_id s = (Raise (KeyError "spacing"), s'))
  ∧ (∀ o vo sp vsp, m_origin m = Some o → as_origin o = Ok vo →
                    m_spacing m = Some sp → as_spacing sp = Ok vsp →
                    m_direction m = None →
                    zarr_to_dicom zarr_path json_path series_id s
                    = (Raise (KeyError "direction"), s')).
Proof.
  intros Hz Hget Hj. cbv zeta.
  assert (∀ so, zarr_open_r_getitem zarr_path
                  {| fs := fs s; stdout := so; writer_log := writer_log s |}
                = (Ok arr, {| fs := fs s; stdout := so; writer_log := writer_log s |})) as Hopen.
  { intros so. unfold zarr_open_r_getitem, bind. cbn. by rewrite Hz, Hget. }
  assert (∀ so, load_metadata json_path
                  {| fs := fs s; stdout := so; writer_log := writer_log s |}
                = (Ok m, {| fs := fs s; stdout := so; writer_log := writer_log s |})) as Hload.
  { intros so. unfold load_metadata, bind. cbn. by rewrite Hj. }
  split; [|split].
  - intros Ho. unfold zarr_to_dicom.
    rewrite (bind_ok _ _ _ _ _ (print_run _ _)), (bind_ok _ _ _ _ _ (Hopen _)),
      (bind_ok _ _ _ _ _ (Hload _)), (bind_ok _ _ _ _ _ (print_run _ _)).
    rewrite Ho. cbn. by rewrite <- app_assoc.
  - intros o vo Ho Hvo Hsp. unfold zarr_to_dicom.
    rewrite (bind_ok _ _ _ _ _ (print_run _ _)), (bind_ok _ _ _ _ _ (Hopen _)),
      (bind_ok _ _ _ _ _ (Hload _)), (bind_ok _ _ _ _ _ (print_run _ _)).
    rewrite Ho, Hsp.
    rewrite (bind_ok _ _ _ _ _ (getitem_some _ _ _)).
    rewrite (bind_ok _ _ _ _ _ (SetOrigin_run _ _ _ _ Hvo)). cbn. by rewrite <- app_assoc.
  - intros o vo sp vsp Ho Hvo Hsp Hvsp Hd. unfold zarr_to_dicom.
    rewrite (bind_ok _ _ _ _ _ (print_run _ _)), (bind_ok _ _ _ _ _ (Hopen _)),
      (bind_ok _ _ _ _ _ (Hload _)), (bind_ok _ _ _ _ _ (print_run _ _)).
    rewrite Ho, Hsp, Hd.
    rewrite (bind_ok _ _ _ _ _ (getitem_some _ _ _)).
    rewrite (bind_ok _ _ _ _ _ (SetOrigin_run _ _ _ _ Hvo)).
    rewrite (bind_ok _ _ _ _ _ (getitem_some _ _ _)).
    rewrite (bind_ok _ _ _ _ _ (SetSpacing_run _ _ _ _ Hvsp)). cbn. by rewrite <- app_assoc.
Qed.

(** X6 (a series that cannot be read).  When discovery finds files but the
    reader raises, [dicom_to_zarr] raises the same exception before touching
    the file system (not even the converted directory is created), and
    [process_series] has no handler: it raises the same exception and
    [zarr_to_dicom] does not run. *)
Theorem unreadable_series_raises_through_process_series series_dir s e :
  GetGDCMSeriesFileNames series_dir ≠ [] →
  reader_Execute (GetGDCMSeriesFileNames series_dir) = Raise e →
  let s' := {| fs := fs s;
               stdout := stdout s ++ [PrintProcessing (ospath.basename series_dir);
                                      PrintLoadingDicom];
               writer_log := writer_log s |} in
  dicom_to_zarr series_dir s = (Raise e, s')
  ∧ process_series series_dir s = (Raise e, s').
Proof.
  intros Hnames Hexec. cbv zeta.
  assert (dicom_to_zarr series_dir s
          = (Raise e, {| fs := fs s;
                         stdout := stdout s ++ [PrintProcessing (ospath.basename series_dir);
                                                PrintLoadingDicom];
                         writer_log := writer_log s |})) as Hd2z.
  { unfold dicom_to_zarr. rewrite bool_decide_eq_false_2 by done.
    rewrite Hexec. unfold bind. cbn. by rewrite <- app_assoc. }
  split; [done|]. unfold process_series. by rewrite (bind_raise _ _ _ _ _ Hd2z).
Qed.

(** X7 (the conversion is not atomic).  The sidecar is written after the
    store.  When the series loads and the store can be placed but the sidecar
    path is not writable, [dicom_to_zarr] raises [PermissionError] for the
    sidecar path and leaves the new store behind without a sidecar of this
    run; [process_series] raises the same exception. *)
Theorem sidecar_failure_leaves_the_store series_dir image dicts s :
  loads_as series_dir image dicts → store_placeable series_dir s →
  sidecar_free series_dir s →
  let zarr_path := ospath.join CONVERTED_DIR (ospath.basename series_dir +:+ ".zarr") in
  let json_path := ospath.join CONVERTED_DIR (ospath.basename series_dir +:+ ".json") in
  writable json_path = false →
  ∃ s',
    dicom_to_zarr series_dir s = (Raise (PermissionError json_path), s')
    ∧ process_series series_dir s = (Raise (PermissionError json_path), s')
    ∧ fs s' !! zarr_path = Some (NZarr (stored_array (GetArrayFromImage image)))
    ∧ is_dir (fs s' !! json_path) = false
    ∧ (∀ m, fs s' !! json_path = Some (NJson m) → fs s !! json_path = Some (NJson m))
    ∧ writer_log s' = writer_log s.
Proof.
  intros Hload Hplace Hfree. cbv zeta. intros Hwj.
  set (s1 := {| fs := with_store series_dir image s;
                stdout := stdout s ++ [PrintProcessing (ospath.basename series_dir);
                                       PrintLoadingDicom; PrintConverting];
                writer_log := writer_log s |}).
  assert (dicom_to_zarr series_dir s
          = (Raise (PermissionError
                      (ospath.join CONVERTED_DIR (ospath.basename series_dir +:+ ".json"))),
             s1)) as Hd2z.
  { rewrite (dicom_to_zarr_store_run _ image dicts) by done. fold s1.
    destruct Hload as (_ & _ & _ & _ & Hlen & Hnd & _).
    assert (save_metadata image dicts (GetGDCMSeriesFileNames series_dir)
              (ospath.join CONVERTED_DIR (ospath.basename series_dir +:+ ".json")) s1
            = (Raise (PermissionError
                        (ospath.join CONVERTED_DIR (ospath.basename series_dir +:+ ".json"))),
               s1)) as Hmeta.
    { unfold save_metadata. change (GetSize image).2 with (depth_of (img_array image)).
      assert (0 + depth_of (img_array image) <= length dicts) as Hlen' by lia.
      rewrite (bind_ok _ _ _ _ _ (slices_metadata_loop_run dicts _ Hnd 0 [] s1 Hlen')).
      pose proof (lookup_with_store_json _ image _ Hfree) as Hdir.
      unfold json_dump, bind. cbn [get_fs]. fold s1 in Hdir. change (fs s1) with
        (with_store series_dir image s).
      destruct (with_store series_dir image s !! _) as [[| | |]|]; cbn in Hdir; try done;
        by rewrite Hwj. }
    by rewrite (bind_raise _ _ _ _ _ Hmeta). }
  exists s1. split; [done|].
  split; [unfold process_series; by rewrite (bind_raise _ _ _ _ _ Hd2z)|].
  cbn [fs writer_log s1]. split; [unfold with_store; apply lookup_insert_eq|].
  split; [by apply lookup_with_store_json|]. split; [|done].
  intros m. unfold with_store.
  rewrite lookup_insert_ne by apply converted_paths_ne.
  rewrite lookup_without_tree. destruct (ospath.under _ _); [done|].
  destruct (fs s !! CONVERTED_DIR); [done|].
  rewrite lookup_insert_ne; [done|]. intros Heq. symmetry in Heq. revert Heq.
  by apply converted_path_ne_dir.
Qed.

(** X8 (no per-series handler in the batch).  [main] runs the directory
    entries of the raw directory through [process_series] in [scandir] order
    and catches nothing: when the series before [d] complete and
    [process_series d] raises, [main] raises the same exception in the state
    reached at that point, and the series after [d] are not processed. *)
Theorem main_stops_at_the_first_series_that_raises b l1 d l2 s1 e s2 :
  is_dir (fs (b_state b) !! RAW_DIR) = true →
  fst <$> filter (λ f, f.2 = true) (scandir RAW_DIR) = l1 ++ d :: l2 →
  for_each l1 process_series (b_state b) = (Ok (), s1) →
  process_series d s1 = (Raise e, s2) →
  main b = (Raise e, {| b_state := s2; b_stdout := b_stdout b |}).
Proof.
  intros Hdir Hdirs Hl1 Hd.
  rewrite main_run; [|done | rewrite Hdirs; by destruct l1].
  rewrite Hdirs. by rewrite (for_each_raise _ _ _ _ _ _ _ _ Hl1 Hd).
Qed.

(** X9 (a directory without DICOM files does not stop the batch).  When the
    series before [d] complete and discovery finds no file in [d], [main]
    prints the three lines of the skipped series and goes on with the series
    after [d] from there; nothing is written for [d]. *)
Theorem main_goes_on_after_a_series_without_files b l1 d l2 s1 :
  is_dir (fs (b_state b) !! RAW_DIR) = true →
  fst <$> filter (λ f, f.2 = true) (scandir RAW_DIR) = l1 ++ d :: l2 →
  for_each l1 process_series (b_state b) = (Ok (), s1) →
  GetGDCMSeriesFileNames d = [] →
  let skipped :=
    {| fs := fs s1;
       stdout := stdout s1 ++ [PrintProcessing (ospath.basename d); PrintLoadingDicom;
                               PrintNoDicomFiles d];
       writer_log := writer_log s1 |} in
  main b = ((for_each l2 process_series skipped).1,
            {| b_state := (for_each l2 process_series skipped).2;
               b_stdout := b_stdout b |}).
Proof.
  intros Hdir Hdirs Hl1 Hd. cbv zeta.
  rewrite main_run; [|done | rewrite Hdirs; by destruct l1].
  rewrite Hdirs, (for_each_app _ _ _ _ _ Hl1). cbn [for_each].
  assert (process_series d s1
          = (Ok (), {| fs := fs s1;
                       stdout := stdout s1 ++ [PrintProcessing (ospath.basename d);
                                               PrintLoadingDicom; PrintNoDicomFiles d];
                       writer_log := writer_log s1 |})) as Hskip.
  { unfold process_series.
    by rewrite (bind_ok _ _ _ _ _ (dicom_to_zarr_empty _ _ Hd)). }
  by rewrite (bind_ok _ _ _ _ _ Hskip).
Qed.

(** X10 (nothing to do).  Without a raw directory, or with a raw directory
    whose entries are all plain files, [main] prints its message and returns
    normally without processing anything: the state of the file system, the
    console of the series and the writer log are as before.  A raw path that
    is a plain file makes it raise [NotADirectoryError]. *)
Theorem main_without_series_does_nothing b :
  (fs (b_state b) !! RAW_DIR = None →
   main b = (Ok (), {| b_state := b_state b;
                       b_stdout := b_stdout b ++ [PrintRawDirMissing RAW_DIR] |}))
  ∧ (is_dir (fs (b_state b) !! RAW_DIR) = true →
     Forall (λ f, f.2 = false) (scandir RAW_DIR) →
     main b = (Ok (), {| b_state := b_state b;
                         b_stdout := b_stdout b ++ [PrintNoSeriesFolders RAW_DIR] |}))
  ∧ (is_Some (fs (b_state b) !! RAW_DIR) →
     is_dir (fs (b_state b) !! RAW_DIR) = false →
     main b = (Raise (NotADirectoryError RAW_DIR), b)).
Proof.
  unfold main. split; [|split].
  - by intros ->.
  - intros Hdir Hfiles.
    assert (filter (λ f : string * bool, f.2 = true) (scandir RAW_DIR) = []) as ->.
    { induction Hfiles as [|f l Hf Hl IH]; [done|].
      rewrite filter_cons_False; [done|]. by rewrite Hf. }
    destruct (fs (b_state b) !! RAW_DIR) as [[| | |]|]; by cbn in Hdir.
  - intros [n Hn] Hdir. rewrite Hn in *. by destruct n.
Qed.

(** X11 (reconstruction without recorded names).  A sidecar whose
    [filenames] key is absent, or holds the empty list, is accepted: slice
    [i] goes to the zero-padded number [i] followed by ".dcm" in the output
    directory.  These N names are pairwise distinct, so no slice replaces
    another, and when no writer call raised and the writer leaves a single
    file per call the output directory holds exactly N entries (whatever it
    held before, if it existed). *)
Theorem reconstruction_without_recorded_names zarr_path json_path series_id arr m s :
  reconstructible zarr_path json_path series_id arr m s →
  m_filenames m = None ∨ m_filenames m = Some [] →
  let recon_series_dir := ospath.join RECONSTRUCTED_DIR series_id in
  ∃ s' cs,
    zarr_to_dicom zarr_path json_path series_id s = (Ok (), s')
    ∧ writer_log s' = writer_log s ++ cs
    ∧ length cs = depth_of arr
    ∧ (∀ i c, cs !! i = Some c →
              wc_path c = ospath.join recon_series_dir (zfill4 i +:+ ".dcm")
              ∧ is_plane arr i (wc_image c))
    ∧ NoDup (wc_path <$> cs)
    ∧ (Forall (λ c, wc_error c = None) cs →
       (∀ i, i < depth_of arr →
             companion_extensions (ospath.join recon_series_dir (zfill4 i +:+ ".dcm")) = []) →
       (fs s !! recon_series_dir = None → listdir (fs s) recon_series_dir = ∅) →
       size (listdir (fs s') recon_series_dir) = depth_of arr).
Proof.
  intros Hrec Hfl. cbv zeta.
  assert (default [] (m_filenames m) = []) as Hnil by (by destruct Hfl as [-> | ->]).
  destruct (reconstruction_calls arr m series_id s) as (cs & Hlog & Hlen & Hcs & Hcalls).
  cbv zeta in Hcs, Hcalls. rewrite Hnil in Hcs, Hcalls. cbn [fallback_extension] in Hcs, Hcalls.
  assert (wc_path <$> cs
          = slice_name (ospath.join RECONSTRUCTED_DIR series_id) [] ".dcm"
              <$> seq 0 (depth_of arr)) as Hpaths.
  { pose proof (after_slices_log (reconstructed arr m)
                  (ospath.join RECONSTRUCTED_DIR series_id) [] ".dcm"
                  (default [] (m_slices_metadata m)) (seq 0 (depth_of arr))
                  (at_loop_start (ospath.join RECONSTRUCTED_DIR series_id) s)) as [Hp _].
    cbv zeta in Hp. rewrite loop_log, fmap_app, <- Hcs in Hp. by apply app_inv_head in Hp. }
  eexists _, cs. split; [by apply zarr_to_dicom_run|].
  split; [exact Hlog|]. split; [exact Hlen|]. split; [|split].
  - intros i c Hc. destruct (Hcalls i c Hc) as (_ & -> & ->).
    split; [done|]. apply (tagged_slice_is_plane (reconstructed arr m)).
  - rewrite Hpaths. by apply fallback_names_NoDup.
  - intros Hall Hone Hwf.
    destruct (listdir_at_loop_start (ospath.join RECONSTRUCTED_DIR series_id) s Hwf)
      as [Hempty Hdir].
    unfold after_reconstruction. cbn [fs]. rewrite Hnil. cbn [fallback_extension].
    rewrite loop_listdir_size; [apply length_seq | done | by rewrite Hdir | | | | ].
    + intros i _.
      apply (under_slice_name series_id [] i).
    + intros i Hi%elem_of_seq. apply Hone. lia.
    + by rewrite <- Hcs.
    + by apply fallback_names_NoDup.
Qed.

(** X12 (converting twice).  For a series that loads and targets that can
    be written, a second [dicom_to_zarr] on the same series succeeds like the
    first, returns the same two paths and leaves the file system exactly as
    the first run left it: one store, one sidecar, nothing merged or
    duplicated. *)
Theorem dicom_to_zarr_twice_is_once series_dir image dicts s :
  loads_as series_dir image dicts → store_placeable series_dir s →
  writable (ospath.join CONVERTED_DIR (ospath.basename series_dir +:+ ".json")) = true →
  sidecar_free series_dir s →
  ∃ paths s1 s2,
    dicom_to_zarr series_dir s = (Ok paths, s1)
    ∧ dicom_to_zarr series_dir s1 = (Ok paths, s2)
    ∧ fs s2 = fs s1
    ∧ writer_log s2 = writer_log s.
Proof.
  intros Hload Hplace Hwj Hfree. eexists _, _, _.
  split; [by apply dicom_to_zarr_run|].
  destruct Hplace as (Hnfc & Hwc & Hwz & Hnfz).
  destruct (lookup_after_dicom_to_zarr_dir series_dir image dicts s Hnfc) as (n & Hn & Hdir).
  assert (fs (after_dicom_to_zarr series_dir image dicts s)
            !! ospath.join CONVERTED_DIR (ospath.basename series_dir +:+ ".zarr")
          = Some (NZarr (stored_array (GetArrayFromImage image)))) as Hz.
  { unfold after_dicom_to_zarr, with_store. cbn [fs].
    rewrite lookup_insert_ne
      by (intros Heq; symmetry in Heq; revert Heq; apply converted_paths_ne).
    apply lookup_insert_eq. }
  split.
  { apply dicom_to_zarr_run; [done | | done |].
    - unfold store_placeable, no_plain_file. rewrite Hn, Hz.
      split_and!; [by destruct n | done | done | done].
    - unfold sidecar_free, after_dicom_to_zarr. cbn [fs]. by rewrite lookup_insert_eq. }
  split; [|done].
  unfold after_dicom_to_zarr at 1. cbn [fs]. unfold with_store at 1. rewrite Hn.
  unfold after_dicom_to_zarr, with_store. cbn [fs].
  apply map_eq. intros k.
  destruct (decide (k = ospath.join CONVERTED_DIR (ospath.basename series_dir +:+ ".json")))
    as [->|Hkj]; [by rewrite !lookup_insert_eq|].
  rewrite !(lookup_insert_ne _ (ospath.join CONVERTED_DIR
                                  (ospath.basename series_dir +:+ ".json"))) by done.
  destruct (decide (k = ospath.join CONVERTED_DIR (ospath.basename series_dir +:+ ".zarr")))
    as [->|Hkz]; [by rewrite !lookup_insert_eq|].
  rewrite !(lookup_insert_ne _ (ospath.join CONVERTED_DIR
                                  (ospath.basename series_dir +:+ ".zarr"))) by done.
  rewrite !lookup_without_tree. destruct (ospath.under _ k) eqn:Hu; [done|].
  rewrite (lookup_insert_ne _ (ospath.join CONVERTED_DIR
                                 (ospath.basename series_dir +:+ ".json"))) by done.
  rewrite (lookup_insert_ne _ (ospath.join CONVERTED_DIR
                                 (ospath.basename series_dir +:+ ".zarr"))) by done.
  by rewrite lookup_without_tree, Hu.
Qed.

(** X13 (a reconstruction stays in its directory).  For a series name that
    is a plain directory name, whatever the store, the sidecar and the writer
    do, and whether [zarr_to_dicom] returns or raises: every path that is
    neither at or below the output directory [data/reconstructed/<series_id>]
    nor above it (the directories [os.makedirs] may have to create) holds
    after the call what it held before.  The store, the sidecar, the raw
    series and the reconstructions of other series are never modified. *)
Theorem reconstruction_stays_in_its_directory zarr_path json_path series_id s r s' k :
  let recon_series_dir := ospath.join RECONSTRUCTED_DIR series_id in
  plain_name series_id = true →
  zarr_to_dicom zarr_path json_path series_id s = (r, s') →
  ospath.under recon_series_dir k = false →
  ospath.under k recon_series_dir = false →
  fs s' !! k = fs s !! k.
Proof.
  intros d _ H Hk _. apply (touches_only_zarr_to_dicom _ _ _ _ _ _ _ H).
  fold d. by rewrite Hk.
Qed.

(** X14 (a conversion stays in the converted tree).  Whether [dicom_to_zarr]
    returns or raises, it changes the file system at most at the converted
    directory and above it, at the store path and below it, and at the
    sidecar path of the series; every other path, the raw series and the
    stores and sidecars of other series among them, holds what it held
    before. *)
Theorem conversion_stays_in_the_converted_tree series_dir s r s' k :
  dicom_to_zarr series_dir s = (r, s') →
  ospath.under k CONVERTED_DIR = false →
  k ≠ ospath.join CONVERTED_DIR (ospath.basename series_dir +:+ ".json") →
  ospath.under (ospath.join CONVERTED_DIR (ospath.basename series_dir +:+ ".zarr")) k = false →
  fs s' !! k = fs s !! k.
Proof.
  intros H Hkc Hkj Hkz. apply (touches_only_dicom_to_zarr _ _ _ _ _ H).
  intros [->|[?|Hu]]; [by rewrite under_refl in Hkc | done | congruence].
Qed.

(** X15 (reconstructing twice).  When the store and the sidecar lie outside
    the output directory, a second [zarr_to_dicom] on the same store and
    sidecar, run on what the first one left, returns as well, makes the same
    writer calls with the same outcomes (call [i] carrying plane [i] of the
    array in both runs) and leaves the file system exactly as the first run
    left it. *)
Theorem reconstructing_twice_is_once zarr_path json_path series_id arr m s :
  let recon_series_dir := ospath.join RECONSTRUCTED_DIR series_id in
  reconstructible zarr_path json_path series_id arr m s →
  ospath.under recon_series_dir zarr_path = false →
  ospath.under recon_series_dir json_path = false →
  (fs s !! recon_series_dir = None → listdir (fs s) recon_series_dir = ∅) →
  ∃ s1 s2 cs,
    zarr_to_dicom zarr_path json_path series_id s = (Ok (), s1)
    ∧ zarr_to_dicom zarr_path json_path series_id s1 = (Ok (), s2)
    ∧ fs s2 = fs s1
    ∧ length cs = depth_of arr
    ∧ writer_log s1 = writer_log s ++ cs
    ∧ writer_log s2 = writer_log s1 ++ cs
    ∧ ∀ i c, cs !! i = Some c → is_plane arr i (wc_image c).
Proof.
  intros d Hrec Hzp Hjp Hwf.
  pose proof (recon_series_dir_nonempty series_id) as Hd. fold d in Hd.
  set (s1 := after_reconstruction arr m series_id s).
  assert (∀ k, ospath.under d k = false → fs s1 !! k = fs s !! k) as Hout.
  { intros k Hk. unfold s1, after_reconstruction. cbn [fs]. fold d.
    rewrite loop_fs_outside by done. unfold at_loop_start. cbn [fs].
    rewrite lookup_insert_ne by (intros <-; by rewrite under_refl in Hk).
    destruct (bool_decide _); [|done]. by rewrite lookup_without_tree, Hk. }
  assert (fs s1 !! d = Some NDir) as Hdir.
  { unfold s1, after_reconstruction. cbn [fs]. fold d.
    rewrite loop_fs_dirs; unfold at_loop_start; cbn [fs]; by rewrite lookup_insert_eq. }
  assert (reconstructible zarr_path json_path series_id arr m s1) as Hrec1.
  { destruct Hrec as ((z & Hz & Hget) & Hj & Ho & Hsp & Hdr & Hw & Hnf & Hpix).
    split; [exists z; by rewrite Hout|]. split; [by rewrite Hout|].
    do 4 (split; [done|]). split; [|done]. unfold no_plain_file. fold d. by rewrite Hdir. }
  assert (fs (at_loop_start d s1) = fs (at_loop_start d s)) as Hstart.
  { unfold s1, after_reconstruction. fold d.
    etrans; [|by apply (at_loop_start_fs_again (reconstructed arr m) d
                          (default [] (m_filenames m))
                          (fallback_extension (default [] (m_filenames m)))
                          (default [] (m_slices_metadata m))
                          (seq 0 (depth_of arr)) s)].
    unfold at_loop_start. by cbn [fs]. }
  destruct (reconstruction_calls arr m series_id s) as (cs & Hlog & Hlen & Hcs & Hcalls).
  destruct (reconstruction_calls arr m series_id s1) as (cs' & Hlog' & _ & Hcs' & _).
  exists s1, (after_reconstruction arr m series_id s1), cs.
  split; [by apply zarr_to_dicom_run|]. split; [by apply zarr_to_dicom_run|].
  split.
  { unfold after_reconstruction at 1. cbn [fs]. fold d.
    rewrite (loop_fs_congr _ _ _ _ _ _ _ _ Hstart). done. }
  split; [done|]. split; [done|]. split.
  { rewrite Hlog'. f_equal. subst cs cs'. by apply loop_calls_congr. }
  intros i c Hc. destruct (Hcalls i c Hc) as (_ & _ & ->).
  apply (tagged_slice_is_plane (reconstructed arr m)).
Qed.

(** X16 (one series at a time).  For a series directory with a plain name,
    whether [process_series] returns or raises, it changes the file system
    at most at the converted directory and above it, at the store and the
    sidecar of its own series, and in the output directory of its own series
    and above it: the raw series and the stores, sidecars and
    reconstructions of every other series are as before. *)
Theorem process_series_stays_with_its_series series_dir s r s' k :
  let series_id := ospath.basename series_dir in
  let recon_series_dir := ospath.join RECONSTRUCTED_DIR series_id in
  plain_name series_id = true →
  process_series series_dir s = (r, s') →
  ospath.under k CONVERTED_DIR = false →
  k ≠ ospath.join CONVERTED_DIR (series_id +:+ ".json") →
  ospath.under (ospath.join CONVERTED_DIR (series_id +:+ ".zarr")) k = false →
  ospath.under recon_series_dir k = false →
  ospath.under k recon_series_dir = false →
  fs s' !! k = fs s !! k.
Proof.
  intros sid d _ H Hkc Hkj Hkz Hkr _. apply (touches_only_process_series _ _ _ _ _ H).
  fold sid d. intros [->|[?|[?|?]]]; [by rewrite under_refl in Hkc | congruence..].
Qed.

(** X17 (the batch leaves the input alone).  When the directory listing
    yields plain names, as [os.scandir] does, then whatever the raw
    directory holds and whatever the libraries do, and whether [main]
    returns or raises, every path that is neither inside nor above the trees
    [data/converted] and [data/reconstructed] holds after the run what it
    held before: the raw series are never modified, moved or deleted. *)
Theorem main_stays_in_its_two_trees b r b' k :
  Forall (λ f, plain_name (ospath.basename f.1) = true) (scandir RAW_DIR) →
  main b = (r, b') →
  ospath.under CONVERTED_DIR k = false → ospath.under k CONVERTED_DIR = false →
  ospath.under RECONSTRUCTED_DIR k = false → ospath.under k RECONSTRUCTED_DIR = false →
  fs (b_state b') !! k = fs (b_state b) !! k.
Proof.
  intros _ H Hkc _ Hkr _. unfold main in H.
  assert (∀ l s r0 s0, for_each l process_series s = (r0, s0) →
                       fs s0 !! k = fs s !! k) as Hloop.
  { intros l s r0 s0 Hl.
    apply (touches_only_for_each
             (λ k, ospath.under CONVERTED_DIR k = true
                   ∨ ospath.under RECONSTRUCTED_DIR k = true)
             l process_series) with (r := r0); [|done|].
    - intros d. eapply touches_only_weaken; [|apply touches_only_process_series].
      cbn. intros k0 [->|[->|[Hu|Hu]]].
      + left. apply under_refl.
      + left. apply under_join; [done | by apply startswith_sep_series_file].
      + left. apply (under_converted_tree d ".zarr"); [reflexivity | exact Hu].
      + right. apply (under_reconstructed_tree d). exact Hu.
    - intros [?|?]; congruence. }
  destruct (fs (b_state b) !! RAW_DIR) as [[| | |]|]; try (by simplify_eq);
    (case_bool_decide; [by simplify_eq|]);
    destruct (for_each _ _ _) as [r0 s0] eqn:Hl; simplify_eq; cbn; by eapply Hloop.
Qed.

(** X18 (recorded names that collide).  Slices are written under the last
    component of their recorded name only.  When the recorded names of two
    slices [i < j] end in the same component, both writer calls are aimed
    at one file, so with a writer that leaves a single file per call the
    output directory ends up with fewer entries than the volume has
    slices; and when no later call goes to that file and the call of [j]
    did not raise, the file holds plane [j] of the array: slice [i] is lost
    without a message. *)
Theorem colliding_names_lose_a_slice
    zarr_path json_path series_id arr m s filenames i j fi fj :
  let recon_series_dir := ospath.join RECONSTRUCTED_DIR series_id in
  let name := slice_name recon_series_dir filenames (fallback_extension filenames) in
  reconstructible zarr_path json_path series_id arr m s →
  (fs s !! recon_series_dir = None → listdir (fs s) recon_series_dir = ∅) →
  m_filenames m = Some filenames →
  i < j → j < depth_of arr →
  filenames !! i = Some fi → filenames !! j = Some fj →
  ospath.basename fi = ospath.basename fj →
  ∃ s' cs ci cj,
    zarr_to_dicom zarr_path json_path series_id s = (Ok (), s')
    ∧ writer_log s' = writer_log s ++ cs
    ∧ length cs = depth_of arr
    ∧ cs !! i = Some ci ∧ cs !! j = Some cj
    ∧ wc_path ci = ospath.join recon_series_dir (ospath.basename fj)
    ∧ wc_path cj = ospath.join recon_series_dir (ospath.basename fj)
    ∧ is_plane arr i (wc_image ci) ∧ is_plane arr j (wc_image cj)
    ∧ ((∀ i', i' < depth_of arr → companion_extensions (name i') = []) →
       size (listdir (fs s') recon_series_dir) < depth_of arr)
    ∧ (wc_error cj = None →
       (∀ j', j < j' → j' < depth_of arr → name j ∉ written_paths (name j')) →
       fs s' !! wc_path cj = Some (NDicom (wc_image cj))).
Proof.
  intros recon name Hrec Hwf Hfl Hij Hj Hfi Hfj Hbase.
  set (sm := default [] (m_slices_metadata m)).
  set (s0 := at_loop_start recon s).
  set (cs := loop_calls (reconstructed arr m) recon filenames
               (fallback_extension filenames) sm s0 (seq 0 (depth_of arr))).
  destruct (listdir_at_loop_start recon s Hwf) as [Hempty Hdir].
  fold s0 in Hempty, Hdir.
  assert (length cs = depth_of arr) as Hlen
    by (unfold cs; by rewrite length_loop_calls, length_seq).
  destruct (lookup_lt_is_Some_2 cs i) as [ci Hci]; [lia|].
  destruct (lookup_lt_is_Some_2 cs j) as [cj Hcj]; [lia|].
  destruct (lookup_loop_calls _ _ _ _ _ _ _ _ _ Hci) as (i' & Hi' & Hpi & Himi).
  destruct (lookup_loop_calls _ _ _ _ _ _ _ _ _ Hcj) as (j' & Hj' & Hpj & Himj).
  rewrite lookup_seq_0 in Hi' by lia. rewrite lookup_seq_0 in Hj' by lia.
  injection Hi' as <-. injection Hj' as <-.
  assert (name i = ospath.join recon (ospath.basename fj)) as Hni
    by (unfold name, slice_name; by rewrite Hfi, Hbase).
  assert (name j = ospath.join recon (ospath.basename fj)) as Hnj
    by (unfold name, slice_name; by rewrite Hfj).
  exists (after_reconstruction arr m series_id s), cs, ci, cj.
  split; [by apply zarr_to_dicom_run|].
  unfold after_reconstruction. cbn [fs stdout writer_log].
  rewrite Hfl. cbn [default]. fold recon sm s0.
  split; [by rewrite loop_log|]. split; [done|]. split; [done|]. split; [done|].
  split; [by rewrite Hpi|]. split; [by rewrite Hpj|].
  split; [rewrite Himi; apply (tagged_slice_is_plane (reconstructed arr m))|].
  split; [rewrite Himj; apply (tagged_slice_is_plane (reconstructed arr m))|].
  split.
  - intros Hone. rewrite <- size_dom.
    pose proof (subseteq_size _ _
                  (loop_listdir_dom_subseteq (reconstructed arr m) recon filenames
                     (fallback_extension filenames) sm (seq 0 (depth_of arr)) s0 Hempty))
      as Hle.
    rewrite slice_files_single in Hle by (intros i' Hi'%elem_of_seq; apply Hone; lia).
    pose proof (size_list_to_set_lt (name <$> seq 0 (depth_of arr)) i j (name j)) as Hlt.
    rewrite length_fmap, length_seq in Hlt.
    eapply Nat.le_lt_trans; [exact Hle|]. apply Hlt; [done | |].
    + rewrite list_lookup_fmap, lookup_seq_0 by lia. cbn. f_equal.
      fold name. by rewrite Hni, Hnj.
    + by rewrite list_lookup_fmap, lookup_seq_0 by lia.
  - intros Herr Hlast. rewrite Hpj. rewrite Himj.
    eapply (loop_fs_written (reconstructed arr m) recon filenames
              (fallback_extension filenames) sm (seq 0 (depth_of arr)) s0 j j cj);
      [by apply lookup_seq_0 | done | done |].
    intros j2 i2 Hlt Hi2. apply lookup_seq in Hi2 as [-> Hi2]. cbn.
    by apply Hlast.
Qed.

(** X19 (a plain file in the way).  The script removes what it finds at the
    store path and at the output directory with [shutil.rmtree], which
    refuses a plain file.  So a plain file at the store path makes
    [dicom_to_zarr] raise [NotADirectoryError] once the series is loaded,
    and a plain file at the output directory makes [zarr_to_dicom] raise it
    once store and sidecar are read and SimpleITK has accepted origin,
    spacing and direction: in both cases the file is left as it is, nothing
    else is written and no writer call is made. *)
Theorem plain_file_in_the_way_is_not_replaced :
  (∀ series_dir image dicts s,
     let zarr_path := ospath.join CONVERTED_DIR (ospath.basename series_dir +:+ ".zarr") in
     GetGDCMSeriesFileNames series_dir ≠ [] →
     reader_Execute (GetGDCMSeriesFileNames series_dir) = Ok (image, dicts) →
     is_dir (fs s !! CONVERTED_DIR) = true →
     is_Some (fs s !! zarr_path) → is_dir (fs s !! zarr_path) = false →
     dicom_to_zarr series_dir s
     = (Raise (NotADirectoryError zarr_path),
        {| fs := fs s;
           stdout := stdout s ++ [PrintProcessing (ospath.basename series_dir);
                                  PrintLoadingDicom; PrintConverting];
           writer_log := writer_log s |}))
  ∧ (∀ zarr_path json_path series_id z arr m o vo sp vsp d vd s,
       let recon_series_dir := ospath.join RECONSTRUCTED_DIR series_id in
       fs s !! zarr_path = Some (NZarr z) → zarr_getitem z = Ok arr →
       fs s !! json_path = Some (NJson m) →
       m_origin m = Some o → as_origin o = Ok vo →
       m_spacing m = Some sp → as_spacing sp = Ok vsp →
       m_direction m = Some d → as_direction d = Ok vd →
       is_Some (fs s !! recon_series_dir) → is_dir (fs s !! recon_series_dir) = false →
       zarr_to_dicom zarr_path json_path series_id s
       = (Raise (NotADirectoryError recon_series_dir),
          {| fs := fs s;
             stdout := stdout s ++ [PrintLoadingBack; PrintReconstructing];
             writer_log := writer_log s |})).
Proof.
  split.
  - intros series_dir image dicts s zarr_path Hnames Hexec Hconv Hsome Hfile.
    unfold dicom_to_zarr. rewrite bool_decide_eq_false_2 by done.
    rewrite (bind_ok _ _ _ _ _ (print_run _ _)).
    rewrite (bind_ok _ _ _ _ _ (print_run _ _)).
    rewrite Hexec. unfold lift at 1.
    rewrite (bind_ok _ _ _ (image, dicts) _ eq_refl).
    rewrite (bind_ok _ _ _ _ _ (print_run _ _)).
    cbn [fs stdout writer_log].
    set (s1 := {| fs := fs s;
                  stdout := ((stdout s ++ [PrintProcessing (ospath.basename series_dir)])
                               ++ [PrintLoadingDicom]) ++ [PrintConverting];
                  writer_log := writer_log s |}).
    assert (makedirs CONVERTED_DIR s1 = (Ok (), s1)) as Hmk.
    { unfold makedirs, bind, get_fs, ret. cbn.
      by destruct (fs s !! CONVERTED_DIR) as [[| | |]|]. }
    rewrite (bind_ok _ _ _ _ _ Hmk).
    fold zarr_path. unfold save_array.
    erewrite bind_raise; [|by apply rmtree_plain_file].
    unfold s1. by rewrite <- !app_assoc.
  - intros zarr_path json_path series_id z arr m o vo sp vsp d vd s recon
      Hz Hget Hj Ho Hvo Hsp Hvsp Hd Hvd Hsome Hfile.
    assert (∀ so, zarr_open_r_getitem zarr_path
                    {| fs := fs s; stdout := so; writer_log := writer_log s |}
                  = (Ok arr, {| fs := fs s; stdout := so; writer_log := writer_log s |}))
      as Hopen.
    { intros so. unfold zarr_open_r_getitem, bind. cbn. by rewrite Hz, Hget. }
    assert (∀ so, load_metadata json_path
                    {| fs := fs s; stdout := so; writer_log := writer_log s |}
                  = (Ok m, {| fs := fs s; stdout := so; writer_log := writer_log s |}))
      as Hload.
    { intros so. unfold load_metadata, bind. cbn. by rewrite Hj. }
    unfold zarr_to_dicom.
    rewrite (bind_ok _ _ _ _ _ (print_run _ _)), (bind_ok _ _ _ _ _ (Hopen _)),
      (bind_ok _ _ _ _ _ (Hload _)), (bind_ok _ _ _ _ _ (print_run _ _)).
    rewrite Ho, Hsp, Hd.
    rewrite (bind_ok _ _ _ _ _ (getitem_some _ _ _)).
    rewrite (bind_ok _ _ _ _ _ (SetOrigin_run _ _ _ _ Hvo)).
    rewrite (bind_ok _ _ _ _ _ (getitem_some _ _ _)).
    rewrite (bind_ok _ _ _ _ _ (SetSpacing_run _ _ _ _ Hvsp)).
    rewrite (bind_ok _ _ _ _ _ (getitem_some _ _ _)).
    rewrite (bind_ok _ _ _ _ _ (SetDirection_run _ _ _ _ Hvd)).
    fold recon. unfold fresh_directory.
    erewrite bind_raise; [|by apply rmtree_plain_file].
    cbn. by rewrite <- !app_assoc.
Qed.

End Script.

(** ** Worked examples *)

Lemma demo_reconstructible filenames slices_metadata :
  reconstructible Demo.all_writable Demo.decompress Demo.as_origin Demo.as_spacing Demo.as_direction
    "data/converted/S1.zarr" "data/converted/S1.json" "S1"
    Demo.volume (Demo.sidecar filenames slices_metadata)
    (Demo.converted (Demo.sidecar filenames slices_metadata)).
Proof.
  unfold reconstructible. split.
  { exists Demo.store. split; vm_compute; reflexivity. }
  split; [vm_compute; reflexivity|].
  split; [eexists _, _; split; [reflexivity | vm_compute; reflexivity]|].
  split; [eexists _, _; split; [reflexivity | vm_compute; reflexivity]|].
  split; [eexists _, _; split; [reflexivity | vm_compute; reflexivity]|].
  split; [reflexivity|]. split; [vm_compute; exact I|].
  intros _. cbn. lia.
Defined.

Lemma demo_volume_wf : wf_array Demo.volume.
Proof.
  split; [reflexivity|].
  cbn. repeat (constructor; [vm_compute; split; [discriminate | reflexivity]|]). constructor.
Defined.

Lemma demo_volume_nonempty : nonempty Demo.volume.
Proof. unfold nonempty. cbn. lia. Defined.

Lemma read_after_write_is_identity_witness :
  (∃ s', save_array little Demo.all_writable Demo.compress Demo.rmtree_stops_at_once
           "data/converted/S1.zarr" Demo.volume Demo.initial = (Ok (), s')
         ∧ zarr_open_r_getitem Demo.decompress "data/converted/S1.zarr" s'
           = (Ok Demo.volume, s'))
  ∧ (∃ s', save_array big Demo.all_writable Demo.compress Demo.rmtree_stops_at_once
             "data/converted/S1.zarr" Demo.volume Demo.initial = (Ok (), s')
           ∧ zarr_open_r_getitem Demo.decompress "data/converted/S1.zarr" s'
             = (Ok Demo.volume, s')).
Proof.
  split; apply read_after_write_is_identity;
    [ intros c bs; reflexivity | exact demo_volume_wf | exact demo_volume_nonempty
    | reflexivity | vm_compute; exact I
    | intros c bs; reflexivity | exact demo_volume_wf | exact demo_volume_nonempty
    | reflexivity | vm_compute; exact I ].
Defined.


(** C3 as stated fails for a reader that does not return one slice per
    discovered file: two file names are discovered, one slice is read, and
    the sidecar that is written lists two file names and one tag
    dictionary. *)
Lemma two_names_one_slice_in_the_sidecar :
  ∃ s' m filenames slices_metadata,
    dicom_to_zarr little Demo.series_files Demo.read_first_slice Demo.all_writable Demo.compress Demo.rmtree_stops_at_once
      "data/raw/S1" Demo.initial
    = (Ok (Some "data/converted/S1.zarr", Some "data/converted/S1.json"), s')
    ∧ fs s' !! "data/converted/S1.json" = Some (NJson m)
    ∧ m_filenames m = Some filenames
    ∧ m_slices_metadata m = Some slices_metadata
    ∧ length filenames = 2
    ∧ length slices_metadata = 1
    ∧ length filenames ≠ length slices_metadata.
Proof.
  eexists _, _, _, _.
  split; [vm_compute; reflexivity|].
  split; [vm_compute; reflexivity|].
  split; [reflexivity|]. split; [reflexivity|].
  split; [reflexivity|]. split; [reflexivity|]. cbn. lia.
Qed.

Lemma sidecar_lists_follow_the_load_witness :
  ∃ image dicts m filenames slices_metadata,
    Demo.read_series (Demo.series_files "data/raw/S1") = Ok (image, dicts)
    ∧ fs (dicom_to_zarr little Demo.series_files Demo.read_series Demo.all_writable Demo.compress Demo.rmtree_stops_at_once
            "data/raw/S1" Demo.initial).2
         !! "data/converted/S1.json" = Some (NJson m)
    ∧ m_filenames m = Some filenames
    ∧ m_slices_metadata m = Some slices_metadata
    ∧ filenames = Demo.series_files "data/raw/S1"
    ∧ length slices_metadata = (GetSize image).2
    ∧ (length filenames = length slices_metadata
       ↔ depth_of (GetArrayFromImage image) = length (Demo.series_files "data/raw/S1")).
Proof.
  apply (sidecar_lists_follow_the_load little Demo.series_files Demo.read_series Demo.all_writable Demo.compress Demo.rmtree_stops_at_once
           "data/raw/S1" Demo.initial
           "data/converted/S1.zarr" "data/converted/S1.json").
  vm_compute. reflexivity.
Defined.

Lemma series_without_files_is_skipped_witness :
  process_series little Demo.series_files Demo.read_series Demo.all_writable Demo.compress Demo.decompress Demo.refuse_uid Demo.writer_ok Demo.rmtree_stops_at_once Demo.as_origin Demo.as_spacing Demo.as_direction Demo.plane_geometry Demo.no_companion
    "data/raw/S0" Demo.initial
  = (Ok (), {| fs := ∅;
               stdout := [PrintProcessing "S0"; PrintLoadingDicom;
                          PrintNoDicomFiles "data/raw/S0"];
               writer_log := [] |}).
Proof.
  exact (proj2 (series_without_files_is_skipped little Demo.series_files Demo.read_series Demo.all_writable Demo.compress Demo.decompress Demo.refuse_uid Demo.writer_ok Demo.rmtree_stops_at_once Demo.as_origin Demo.as_spacing Demo.as_direction Demo.plane_geometry Demo.no_companion
                  "data/raw/S0" Demo.initial eq_refl)).
Defined.


Lemma tag_failures_are_swallowed_witness :
  ∃ slice_img,
    restore_tags Demo.refuse_uid Demo.tags 0
      (extract_slice Demo.plane_geometry Demo.image 0) Demo.initial
    = (Ok slice_img, Demo.initial)
    ∧ sl_meta slice_img !! "0008|0060" = Some "CT"
    ∧ sl_meta slice_img !! "0008|0018" = None.
Proof.
  destruct (tag_failures_are_swallowed Demo.refuse_uid Demo.writer_ok Demo.plane_geometry Demo.no_companion Demo.image
              "data/reconstructed/S1" ["data/raw/S1/a.dcm"; "data/raw/S1/b.dcm"] ".dcm"
              Demo.tags 0 [("0008|0060", "CT"); ("0008|0018", "1.2.3.1")] Demo.initial
              eq_refl)
    as (slice_img & s' & outcome & Hrun & _ & _ & Hkeys & _).
  exists slice_img. split; [exact Hrun|].
  assert (NoDup [("0008|0060", "CT"); ("0008|0018", "1.2.3.1")].*1) as Hnd.
  { apply (bool_decide_unpack _). vm_compute. exact I. }
  split.
  - apply (Hkeys Hnd "0008|0060" "CT"). apply list_elem_of_here.
  - apply (Hkeys Hnd "0008|0018" "1.2.3.1"). apply list_elem_of_further, list_elem_of_here.
Defined.

(** C4 as stated fails when two recorded names end in the same component:
    two names are recorded for a volume of depth two, no writer call
    raises, and the output directory ends up with one file. *)
Lemma same_last_component_leaves_one_file :
  ∃ s',
    zarr_to_dicom Demo.all_writable Demo.decompress Demo.refuse_uid Demo.writer_ok Demo.rmtree_stops_at_once Demo.as_origin Demo.as_spacing Demo.as_direction Demo.plane_geometry Demo.no_companion
      "data/converted/S1.zarr" "data/converted/S1.json" "S1"
      (Demo.converted (Demo.sidecar ["x/s.dcm"; "y/s.dcm"] Demo.tags))
    = (Ok (), s')
    ∧ length ["x/s.dcm"; "y/s.dcm"] = depth_of Demo.volume
    ∧ wc_error <$> writer_log s' = [None; None]
    ∧ size (listdir (fs s') "data/reconstructed/S1") = 1
    ∧ size (listdir (fs s') "data/reconstructed/S1") ≠ depth_of Demo.volume.
Proof.
  eexists. split; [vm_compute; reflexivity|].
  split; [reflexivity|]. split; [vm_compute; reflexivity|].
  split; [vm_compute; reflexivity|]. vm_compute. lia.
Qed.

Lemma slices_are_named_after_the_recorded_files_witness :
  ∃ s' cs,
    zarr_to_dicom Demo.all_writable Demo.decompress Demo.refuse_uid Demo.writer_ok Demo.rmtree_stops_at_once Demo.as_origin Demo.as_spacing Demo.as_direction Demo.plane_geometry Demo.no_companion
      "data/converted/S1.zarr" "data/converted/S1.json" "S1"
      (Demo.converted (Demo.sidecar ["data/raw/S1/a.dcm"; "data/raw/S1/b.dcm"] Demo.tags))
    = (Ok (), s')
    ∧ writer_log s' = cs
    ∧ length cs = 2
    ∧ (ospath.basename ∘ wc_path) <$> cs = ["a.dcm"; "b.dcm"]
    ∧ (∀ c, cs !! 1 = Some c → sl_pixels (wc_image c) = [5; 6; 7; -8]%Z)
    ∧ size (listdir (fs s') "data/reconstructed/S1") = 2.
Proof.
  destruct (slices_are_named_after_the_recorded_files Demo.all_writable Demo.decompress Demo.refuse_uid Demo.writer_ok Demo.rmtree_stops_at_once Demo.as_origin Demo.as_spacing Demo.as_direction Demo.plane_geometry Demo.no_companion
              "data/converted/S1.zarr" "data/converted/S1.json" "S1" Demo.volume
              (Demo.sidecar ["data/raw/S1/a.dcm"; "data/raw/S1/b.dcm"] Demo.tags)
              (Demo.converted (Demo.sidecar ["data/raw/S1/a.dcm"; "data/raw/S1/b.dcm"] Demo.tags))
              (demo_reconstructible _ _))
    as (s' & cs & Hrun & Hlog & Hlen & Hplane & _ & Hnames & Hdir & _).
  exists s', cs. split; [exact Hrun|]. split; [exact Hlog|]. split; [exact Hlen|].
  split; [exact (Hnames eq_refl)|]. split.
  - intros c Hc. destruct (Hplane 1 c Hc) as (_ & Hpx & _). exact Hpx.
  - apply Hdir.
    + reflexivity.
    + apply (bool_decide_unpack _). vm_compute. exact I.
    + vm_compute in Hrun. injection Hrun as <-. vm_compute in Hlog. subst cs.
      repeat constructor.
    + intros f Hf. reflexivity.
    + intros H. vm_compute in H. discriminate.
Defined.

(** C10 as stated fails for a store whose planes hold no pixels: with a
    record without file names and tag mappings and an array of depth two,
    [zarr_to_dicom] raises a [RuntimeError] when it takes the first plane,
    and no slice is written. *)
Lemma planes_without_pixels_are_not_written :
  ∃ arr msg s',
    zarr_getitem Demo.decompress Demo.flat_store = Ok arr
    ∧ depth_of arr = 2
    ∧ zarr_to_dicom Demo.all_writable Demo.decompress Demo.refuse_uid Demo.writer_ok Demo.rmtree_stops_at_once Demo.as_origin Demo.as_spacing Demo.as_direction Demo.plane_geometry Demo.no_companion
        "data/converted/S1.zarr" "data/converted/S1.json" "S1"
        (Demo.flat_converted (Demo.sidecar [] []))
      = (Raise (RuntimeError msg), s')
    ∧ writer_log s' = []
    ∧ listdir (fs s') "data/reconstructed/S1" = ∅.
Proof.
  eexists _, _, _. split; [vm_compute; reflexivity|]. split; [reflexivity|].
  split; [vm_compute; reflexivity|]. split; [reflexivity|]. vm_compute. reflexivity.
Qed.

Lemma short_sidecar_lists_fall_back_witness :
  ∃ s' cs,
    zarr_to_dicom Demo.all_writable Demo.decompress Demo.refuse_uid Demo.writer_ok Demo.rmtree_stops_at_once Demo.as_origin Demo.as_spacing Demo.as_direction Demo.plane_geometry Demo.no_companion
      "data/converted/S1.zarr" "data/converted/S1.json" "S1"
      (Demo.converted (Demo.sidecar ["data/raw/S1/a.img"] []))
    = (Ok (), s')
    ∧ writer_log s' = cs
    ∧ length cs = 2
    ∧ ∀ c, cs !! 1 = Some c →
           wc_path c = "data/reconstructed/S1/0001.img"
           ∧ sl_pixels (wc_image c) = [5; 6; 7; -8]%Z
           ∧ sl_meta (wc_image c) = ∅.
Proof.
  destruct (proj2 (short_sidecar_lists_fall_back Demo.all_writable Demo.decompress Demo.refuse_uid Demo.writer_ok Demo.rmtree_stops_at_once Demo.as_origin Demo.as_spacing Demo.as_direction Demo.plane_geometry Demo.no_companion
                     "data/converted/S1.zarr" "data/converted/S1.json" "S1" Demo.volume
                     (Demo.sidecar ["data/raw/S1/a.img"] [])
                     (Demo.converted (Demo.sidecar ["data/raw/S1/a.img"] [])))
              (demo_reconstructible _ _))
    as (s' & cs & Hrun & Hlog & Hlen & Hcalls).
  exists s', cs. split; [exact Hrun|]. split; [exact Hlog|]. split; [exact Hlen|].
  intros c Hc. destruct (Hcalls 1 c Hc) as ((_ & Hpx & _) & Hname & Hmeta).
  split; [apply Hname; cbn; lia|]. split; [exact Hpx | apply Hmeta; cbn; lia].
Defined.

(** C7 as stated fails in its second half: after two reconstructions of a
    volume of depth two the output directory holds one file when the writer
    fails for a slice, and four files when the writer puts a header next to
    every image file. *)
Lemma reconstructing_twice_need_not_leave_N_files :
  (∃ s1 s2,
     zarr_to_dicom Demo.all_writable Demo.decompress Demo.refuse_uid Demo.writer_fails_on_a Demo.rmtree_stops_at_once Demo.as_origin Demo.as_spacing Demo.as_direction Demo.plane_geometry Demo.no_companion
       "data/converted/S1.zarr" "data/converted/S1.json" "S1"
       (Demo.converted (Demo.sidecar ["data/raw/S1/a.dcm"; "data/raw/S1/b.dcm"] Demo.tags))
     = (Ok (), s1)
     ∧ zarr_to_dicom Demo.all_writable Demo.decompress Demo.refuse_uid Demo.writer_fails_on_a Demo.rmtree_stops_at_once Demo.as_origin Demo.as_spacing Demo.as_direction Demo.plane_geometry Demo.no_companion
         "data/converted/S1.zarr" "data/converted/S1.json" "S1" s1
       = (Ok (), s2)
     ∧ size (listdir (fs s2) "data/reconstructed/S1") = 1)
  ∧ (∃ s1 s2,
       zarr_to_dicom Demo.all_writable Demo.decompress Demo.refuse_uid Demo.writer_ok Demo.rmtree_stops_at_once Demo.as_origin Demo.as_spacing Demo.as_direction Demo.plane_geometry Demo.header_companion
         "data/converted/S1.zarr" "data/converted/S1.json" "S1"
         (Demo.converted (Demo.sidecar ["data/raw/S1/a.img"; "data/raw/S1/b.img"] Demo.tags))
       = (Ok (), s1)
       ∧ zarr_to_dicom Demo.all_writable Demo.decompress Demo.refuse_uid Demo.writer_ok Demo.rmtree_stops_at_once Demo.as_origin Demo.as_spacing Demo.as_direction Demo.plane_geometry Demo.header_companion
           "data/converted/S1.zarr" "data/converted/S1.json" "S1" s1
         = (Ok (), s2)
       ∧ wc_error <$> writer_log s2 = [None; None; None; None]
       ∧ size (listdir (fs s2) "data/reconstructed/S1") = 4)
  ∧ depth_of Demo.volume = 2.
Proof.
  split; [|split; [|reflexivity]].
  - eexists _, _. split; [vm_compute; reflexivity|].
    split; [vm_compute; reflexivity|]. vm_compute. reflexivity.
  - eexists _, _. split; [vm_compute; reflexivity|].
    split; [vm_compute; reflexivity|]. split; vm_compute; reflexivity.
Qed.

Lemma overwriting_leaves_no_trace_witness :
  (∃ s1 s2,
     save_array little Demo.all_writable Demo.compress Demo.rmtree_stops_at_once "data/converted/S1.zarr"
       Demo.empty_volume Demo.initial = (Ok (), s1)
     ∧ save_array little Demo.all_writable Demo.compress Demo.rmtree_stops_at_once "data/converted/S1.zarr"
         Demo.volume s1 = (Ok (), s2)
     ∧ fs s2 !! "data/converted/S1.zarr"
       = Some (NZarr (stored_array little Demo.compress Demo.volume))
     ∧ listdir (fs s2) "data/converted/S1.zarr" = ∅)
  ∧ (∃ s',
       zarr_to_dicom Demo.all_writable Demo.decompress Demo.refuse_uid Demo.writer_ok Demo.rmtree_stops_at_once Demo.as_origin Demo.as_spacing Demo.as_direction Demo.plane_geometry Demo.no_companion
         "data/converted/S1.zarr" "data/converted/S1.json" "S1"
         (Demo.converted (Demo.sidecar [] Demo.tags))
       = (Ok (), s')
       ∧ fs s' !! "data/reconstructed/S1" = Some NDir
       ∧ fs s' !! "data/reconstructed/S1/0002.dcm" = None
       ∧ size (listdir (fs s') "data/reconstructed/S1") = 2).
Proof.
  destruct (overwriting_leaves_no_trace little Demo.all_writable Demo.compress
              Demo.decompress Demo.refuse_uid Demo.writer_ok Demo.rmtree_stops_at_once Demo.as_origin Demo.as_spacing Demo.as_direction Demo.plane_geometry Demo.no_companion
              "data/converted/S1.zarr" "data/converted/S1.json" "S1"
              Demo.empty_volume Demo.volume (Demo.sidecar [] Demo.tags) Demo.initial)
    as [Hstore _].
  destruct (overwriting_leaves_no_trace little Demo.all_writable Demo.compress
              Demo.decompress Demo.refuse_uid Demo.writer_ok Demo.rmtree_stops_at_once Demo.as_origin Demo.as_spacing Demo.as_direction Demo.plane_geometry Demo.no_companion
              "data/converted/S1.zarr" "data/converted/S1.json" "S1"
              Demo.empty_volume Demo.volume (Demo.sidecar [] Demo.tags)
              (Demo.converted (Demo.sidecar [] Demo.tags)))
    as [_ Hrecon].
  split.
  - destruct Hstore as (s1 & s2 & s2' & H1 & H2 & _ & _ & _ & H3 & H4);
      [reflexivity | vm_compute; exact I |].
    exists s1, s2. split; [exact H1|]. split; [exact H2|]. split; [exact H3 | exact H4].
  - destruct Hrecon as (s' & cs & H1 & Hlog & _ & H2 & _ & H3);
      [exact (demo_reconstructible _ _) | vm_compute; eexists; reflexivity |].
    exists s'. split; [exact H1|]. split; [exact H2|]. split.
    + vm_compute in H1. injection H1 as <-. vm_compute. reflexivity.
    + apply H3.
      * intros i Hi. reflexivity.
      * vm_compute in H1. injection H1 as <-. vm_compute in Hlog. subst cs.
        repeat constructor.
      * apply (bool_decide_unpack _). vm_compute. exact I.
Defined.

(** C9 as stated fails: the volume [Demo.empty_volume] has depth 0, and its
    store write on a writable path does not fail. *)
Lemma zero_depth_store_write_does_not_fail :
  degenerate Demo.empty_volume
  ∧ ¬ ∃ e s', save_array little Demo.all_writable Demo.compress Demo.rmtree_stops_at_once
                "data/converted/E.zarr" Demo.empty_volume Demo.initial = (Raise e, s').
Proof.
  split; [by left|]. intros (e & s' & H). vm_compute in H. discriminate.
Qed.

Lemma store_write_fails_only_on_the_path_witness :
  (∃ e s', save_array little Demo.read_only Demo.compress Demo.rmtree_stops_at_once
             "data/converted/S1.zarr" Demo.volume Demo.initial = (Raise e, s'))
  ∧ (∃ s' z,
       save_array little Demo.all_writable Demo.compress Demo.rmtree_stops_at_once
         "data/converted/E.zarr" Demo.empty_volume Demo.initial = (Ok (), s')
       ∧ fs s' !! "data/converted/E.zarr" = Some (NZarr z)
       ∧ z_shape z = (0, 2, 2)
       ∧ z_chunks z = (1, 2, 2)
       ∧ z_chunkdata z = ∅).
Proof.
  split.
  - exact (proj1 (store_write_fails_only_on_the_path little Demo.read_only Demo.compress Demo.rmtree_stops_at_once
                    "data/converted/S1.zarr" Demo.volume Demo.initial) eq_refl).
  - apply (proj2 (store_write_fails_only_on_the_path little Demo.all_writable Demo.compress Demo.rmtree_stops_at_once
                    "data/converted/E.zarr" Demo.empty_volume Demo.initial));
      [reflexivity | vm_compute; exact I | reflexivity | cbn; lia | cbn; lia].
Defined.

(** ** Worked examples for the further theorems *)

Lemma demo_tags_NoDup : Forall (λ d : dict, NoDup d.*1) Demo.tags.
Proof.
  constructor; [apply (bool_decide_unpack _); vm_compute; exact I|].
  constructor; [apply (bool_decide_unpack _); vm_compute; exact I|].
  constructor.
Defined.

Lemma demo_loads_as :
  loads_as Demo.series_files Demo.read_series "data/raw/S1" Demo.image Demo.tags.
Proof.
  unfold loads_as.
  split; [vm_compute; discriminate|]. split; [reflexivity|].
  split; [exact demo_volume_wf|]. split; [exact demo_volume_nonempty|].
  split; [cbn; lia|]. split; [exact demo_tags_NoDup|].
  split; [reflexivity|]. split; reflexivity.
Defined.

Lemma demo_geometry_accepted :
  geometry_accepted Demo.as_origin Demo.as_spacing Demo.as_direction Demo.image.
Proof. split; [|split]; vm_compute; reflexivity. Defined.

Lemma demo_store_placeable :
  store_placeable Demo.all_writable "data/raw/S1" Demo.initial.
Proof.
  unfold store_placeable.
  split; [vm_compute; exact I|]. split; [intros _; reflexivity|].
  split; [reflexivity | vm_compute; exact I].
Defined.

Lemma demo_bare_reconstructible :
  reconstructible Demo.all_writable Demo.decompress Demo.as_origin Demo.as_spacing Demo.as_direction
    "data/converted/S1.zarr" "data/converted/S1.json" "S1"
    Demo.volume DemoBatch.bare_sidecar (Demo.converted DemoBatch.bare_sidecar).
Proof.
  unfold reconstructible. split.
  { exists Demo.store. split; vm_compute; reflexivity. }
  split; [vm_compute; reflexivity|].
  split; [eexists _, _; split; [reflexivity | vm_compute; reflexivity]|].
  split; [eexists _, _; split; [reflexivity | vm_compute; reflexivity]|].
  split; [eexists _, _; split; [reflexivity | vm_compute; reflexivity]|].
  split; [reflexivity|]. split; [vm_compute; exact I|].
  intros _. cbn. lia.
Defined.

Lemma saved_sidecar_loads_back_witness :
  ∃ s' m,
    save_metadata Demo.all_writable Demo.image Demo.tags
      ["data/raw/S1/a.dcm"; "data/raw/S1/b.dcm"] "data/converted/S1.json" Demo.initial
    = (Ok (), s')
    ∧ load_metadata "data/converted/S1.json" s' = (Ok m, s')
    ∧ m_filenames m = Some ["data/raw/S1/a.dcm"; "data/raw/S1/b.dcm"]
    ∧ m_size m = Some (2, 2, 2)
    ∧ ∃ slices_metadata,
        m_slices_metadata m = Some slices_metadata ∧ length slices_metadata = 2.
Proof.
  destruct (saved_sidecar_loads_back Demo.all_writable Demo.image Demo.tags
              ["data/raw/S1/a.dcm"; "data/raw/S1/b.dcm"] "data/converted/S1.json"
              Demo.initial)
    as (s' & m & sm & Hsave & Hload & Hf & _ & _ & _ & Hsize & _ & Hsm & Hlen & _).
  - cbn. lia.
  - exact demo_tags_NoDup.
  - reflexivity.
  - vm_compute. reflexivity.
  - exists s', m. split; [exact Hsave|]. split; [exact Hload|]. split; [exact Hf|].
    split; [exact Hsize|]. exists sm. split; [exact Hsm | exact Hlen].
Defined.

Lemma process_series_writes_the_loaded_slices_witness :
  ∃ s' cs,
    process_series little Demo.series_files Demo.read_series Demo.all_writable Demo.compress Demo.decompress Demo.refuse_uid Demo.writer_ok Demo.rmtree_stops_at_once Demo.as_origin Demo.as_spacing Demo.as_direction Demo.plane_geometry Demo.no_companion
      "data/raw/S1" Demo.initial
    = (Ok (), s')
    ∧ writer_log s' = cs
    ∧ length cs = 2
    ∧ ∀ c, cs !! 1 = Some c →
           sl_pixels (wc_image c) = [5; 6; 7; -8]%Z
           ∧ sl_dtype (wc_image c) = int16
           ∧ sl_size (wc_image c) = (2, 2)
           ∧ sl_spacing (wc_image c) = [float_one; float_one]
           ∧ wc_path c = "data/reconstructed/S1/b.dcm".
Proof.
  destruct (process_series_writes_the_loaded_slices little Demo.series_files Demo.read_series Demo.all_writable Demo.compress Demo.decompress Demo.refuse_uid Demo.writer_ok Demo.rmtree_stops_at_once Demo.as_origin Demo.as_spacing Demo.as_direction Demo.plane_geometry Demo.no_companion
              "data/raw/S1" Demo.image Demo.tags Demo.initial)
    as (s' & cs & Hrun & Hlog & Hlen & Hcalls).
  - intros c bs. reflexivity.
  - exact demo_loads_as.
  - exact demo_geometry_accepted.
  - exact demo_store_placeable.
  - reflexivity.
  - vm_compute. reflexivity.
  - reflexivity.
  - vm_compute. exact I.
  - exists s', cs. split; [exact Hrun|]. split; [exact Hlog|]. split; [exact Hlen|].
    intros c Hc. destruct (Hcalls 1 c Hc) as ((_ & Hpx & Hdt & Hsz) & Hgeo & _ & Hname).
    split; [exact Hpx|]. split; [exact Hdt|]. split; [exact Hsz|]. split.
    + injection Hgeo as _ Hsp _. exact Hsp.
    + exact (Hname "data/raw/S1/b.dcm" eq_refl).
Defined.

Lemma slices_take_type_from_array_and_geometry_from_record_witness :
  ∃ s' cs,
    zarr_to_dicom Demo.all_writable Demo.decompress Demo.refuse_uid Demo.writer_ok Demo.rmtree_stops_at_once Demo.as_origin Demo.as_spacing Demo.as_direction Demo.plane_geometry Demo.no_companion
      "data/converted/S1.zarr" "data/converted/S1.json" "S1"
      (Demo.converted (Demo.sidecar [] Demo.tags))
    = (Ok (), s')
    ∧ writer_log s' = cs
    ∧ length cs = 2
    ∧ ∀ i c, cs !! i = Some c →
             sl_dtype (wc_image c) = int16
             ∧ sl_size (wc_image c) = (2, 2)
             ∧ sl_origin (wc_image c) = [float_zero; float_zero]
             ∧ sl_spacing (wc_image c) = [float_one; float_one]
             ∧ sl_direction (wc_image c) = [float_one; float_zero; float_zero; float_one].
Proof.
  destruct (slices_take_type_from_array_and_geometry_from_record
              Demo.all_writable Demo.decompress Demo.refuse_uid Demo.writer_ok Demo.rmtree_stops_at_once Demo.as_origin Demo.as_spacing Demo.as_direction Demo.plane_geometry Demo.no_companion
              "data/converted/S1.zarr" "data/converted/S1.json" "S1" Demo.volume
              (Demo.sidecar [] Demo.tags) (Demo.converted (Demo.sidecar [] Demo.tags))
              (img_origin Demo.image) (img_spacing Demo.image) (img_direction Demo.image)
              (img_origin Demo.image) (img_spacing Demo.image) (img_direction Demo.image))
    as (s' & cs & Hrun & Hlog & Hlen & Hcalls).
  - exact (demo_reconstructible _ _).
  - reflexivity.
  - vm_compute. reflexivity.
  - reflexivity.
  - vm_compute. reflexivity.
  - reflexivity.
  - vm_compute. reflexivity.
  - exists s', cs. split; [exact Hrun|]. split; [exact Hlog|]. split; [exact Hlen|].
    intros i c Hc. destruct (Hcalls i c Hc) as (Ht & Hsz & Hgeo).
    split; [exact Ht|]. split; [exact Hsz|].
    injection Hgeo as Ho Hsp Hd. split; [exact Ho|]. split; [exact Hsp | exact Hd].
Defined.


Lemma missing_geometry_key_raises_KeyError_witness :
  zarr_to_dicom Demo.all_writable Demo.decompress Demo.refuse_uid Demo.writer_ok Demo.rmtree_stops_at_once Demo.as_origin Demo.as_spacing Demo.as_direction Demo.plane_geometry Demo.no_companion
    "data/converted/S1.zarr" "data/converted/S1.json" "S1"
    (Demo.converted DemoBatch.sidecar_without_spacing)
  = (Raise (KeyError "spacing"),
     {| fs := fs (Demo.converted DemoBatch.sidecar_without_spacing);
        stdout := [PrintLoadingBack; PrintReconstructing];
        writer_log := [] |}).
Proof.
  destruct (missing_geometry_key_raises_KeyError Demo.all_writable Demo.decompress Demo.refuse_uid Demo.writer_ok Demo.rmtree_stops_at_once Demo.as_origin Demo.as_spacing Demo.as_direction Demo.plane_geometry Demo.no_companion
              "data/converted/S1.zarr" "data/converted/S1.json" "S1"
              Demo.store Demo.volume DemoBatch.sidecar_without_spacing
              (Demo.converted DemoBatch.sidecar_without_spacing))
    as (_ & Hspacing & _).
  - vm_compute. reflexivity.
  - vm_compute. reflexivity.
  - vm_compute. reflexivity.
  - apply (Hspacing (img_origin Demo.image) (img_origin Demo.image)).
    + reflexivity.
    + vm_compute. reflexivity.
    + reflexivity.
Defined.

Lemma unreadable_series_raises_through_process_series_witness :
  process_series little DemoBatch.series_files Demo.read_series Demo.all_writable Demo.compress Demo.decompress Demo.refuse_uid Demo.writer_ok Demo.rmtree_stops_at_once Demo.as_origin Demo.as_spacing Demo.as_direction Demo.plane_geometry Demo.no_companion
    "data/raw/BAD" Demo.initial
  = (Raise (RuntimeError "cannot read the series"),
     {| fs := ∅; stdout := [PrintProcessing "BAD"; PrintLoadingDicom]; writer_log := [] |}).
Proof.
  apply (unreadable_series_raises_through_process_series
           little DemoBatch.series_files Demo.read_series Demo.all_writable Demo.compress Demo.decompress Demo.refuse_uid Demo.writer_ok Demo.rmtree_stops_at_once Demo.as_origin Demo.as_spacing Demo.as_direction Demo.plane_geometry Demo.no_companion
           "data/raw/BAD" Demo.initial
           (RuntimeError "cannot read the series")).
  - vm_compute. discriminate.
  - reflexivity.
Defined.

Lemma sidecar_failure_leaves_the_store_witness :
  ∃ s',
    dicom_to_zarr little Demo.series_files Demo.read_series DemoBatch.sidecar_read_only Demo.compress Demo.rmtree_stops_at_once
      "data/raw/S1" Demo.initial
    = (Raise (PermissionError "data/converted/S1.json"), s')
    ∧ fs s' !! "data/converted/S1.zarr"
      = Some (NZarr (stored_array little Demo.compress Demo.volume))
    ∧ fs s' !! "data/converted/S1.json" = None.
Proof.
  destruct (sidecar_failure_leaves_the_store
              little Demo.series_files Demo.read_series DemoBatch.sidecar_read_only Demo.compress Demo.decompress Demo.refuse_uid Demo.writer_ok Demo.rmtree_stops_at_once Demo.as_origin Demo.as_spacing Demo.as_direction Demo.plane_geometry Demo.no_companion
              "data/raw/S1" Demo.image Demo.tags Demo.initial)
    as (s' & Hrun & _ & Hstore & _ & _ & _).
  - exact demo_loads_as.
  - unfold store_placeable.
    split; [vm_compute; exact I|]. split; [intros _; reflexivity|].
    split; [reflexivity | vm_compute; exact I].
  - vm_compute. reflexivity.
  - reflexivity.
  - exists s'. split; [exact Hrun|]. split; [exact Hstore|].
    vm_compute in Hrun. injection Hrun as <-. vm_compute. reflexivity.
Defined.

Lemma main_stops_at_the_first_series_that_raises_witness :
  let r := main little DemoBatch.series_files Demo.read_series Demo.all_writable Demo.compress Demo.decompress Demo.refuse_uid Demo.writer_ok Demo.rmtree_stops_at_once Demo.as_origin Demo.as_spacing Demo.as_direction Demo.plane_geometry Demo.no_companion
             DemoBatch.entries DemoBatch.start in
  r.1 = Raise (RuntimeError "cannot read the series")
  ∧ fs (b_state r.2) !! "data/converted/S1.zarr" = None.
Proof.
  cbv zeta.
  rewrite (main_stops_at_the_first_series_that_raises
             little DemoBatch.series_files Demo.read_series Demo.all_writable Demo.compress Demo.decompress Demo.refuse_uid Demo.writer_ok Demo.rmtree_stops_at_once Demo.as_origin Demo.as_spacing Demo.as_direction Demo.plane_geometry Demo.no_companion
             DemoBatch.entries DemoBatch.start
             ["data/raw/S0"] "data/raw/BAD" ["data/raw/S1"]
             {| fs := {[ "data/raw" := NDir ]};
                stdout := [PrintProcessing "S0"; PrintLoadingDicom;
                           PrintNoDicomFiles "data/raw/S0"];
                writer_log := [] |}
             (RuntimeError "cannot read the series")
             {| fs := {[ "data/raw" := NDir ]};
                stdout := [PrintProcessing "S0"; PrintLoadingDicom;
                           PrintNoDicomFiles "data/raw/S0";
                           PrintProcessing "BAD"; PrintLoadingDicom];
                writer_log := [] |}).
  - split; [reflexivity | vm_compute; reflexivity].
  - reflexivity.
  - vm_compute. reflexivity.
  - vm_compute. reflexivity.
  - vm_compute. reflexivity.
Defined.

Lemma main_goes_on_after_a_series_without_files_witness :
  let r := main little Demo.series_files Demo.read_series Demo.all_writable Demo.compress Demo.decompress Demo.refuse_uid Demo.writer_ok Demo.rmtree_stops_at_once Demo.as_origin Demo.as_spacing Demo.as_direction Demo.plane_geometry Demo.no_companion
             DemoBatch.two_dirs DemoBatch.start in
  r.1 = Ok ()
  ∧ wc_path <$> writer_log (b_state r.2)
    = ["data/reconstructed/S1/a.dcm"; "data/reconstructed/S1/b.dcm"].
Proof.
  cbv zeta.
  rewrite (main_goes_on_after_a_series_without_files
             little Demo.series_files Demo.read_series Demo.all_writable Demo.compress Demo.decompress Demo.refuse_uid Demo.writer_ok Demo.rmtree_stops_at_once Demo.as_origin Demo.as_spacing Demo.as_direction Demo.plane_geometry Demo.no_companion
             DemoBatch.two_dirs DemoBatch.start
             [] "data/raw/S0" ["data/raw/S1"] DemoBatch.with_raw_dir).
  - vm_compute. split; reflexivity.
  - reflexivity.
  - vm_compute. reflexivity.
  - reflexivity.
  - reflexivity.
Defined.

Lemma main_without_series_does_nothing_witness :
  main little Demo.series_files Demo.read_series Demo.all_writable Demo.compress Demo.decompress Demo.refuse_uid Demo.writer_ok Demo.rmtree_stops_at_once Demo.as_origin Demo.as_spacing Demo.as_direction Demo.plane_geometry Demo.no_companion
    DemoBatch.entries DemoBatch.start_without_raw_dir
  = (Ok (), {| b_state := Demo.initial; b_stdout := [PrintRawDirMissing "data/raw"] |})
  ∧ main little Demo.series_files Demo.read_series Demo.all_writable Demo.compress Demo.decompress Demo.refuse_uid Demo.writer_ok Demo.rmtree_stops_at_once Demo.as_origin Demo.as_spacing Demo.as_direction Demo.plane_geometry Demo.no_companion
      DemoBatch.only_files DemoBatch.start
    = (Ok (), {| b_state := DemoBatch.with_raw_dir;
                 b_stdout := [PrintNoSeriesFolders "data/raw"] |}).
Proof.
  split.
  - apply (main_without_series_does_nothing little Demo.series_files Demo.read_series Demo.all_writable Demo.compress Demo.decompress Demo.refuse_uid Demo.writer_ok Demo.rmtree_stops_at_once Demo.as_origin Demo.as_spacing Demo.as_direction Demo.plane_geometry Demo.no_companion
             DemoBatch.entries DemoBatch.start_without_raw_dir).
    vm_compute. reflexivity.
  - apply (main_without_series_does_nothing little Demo.series_files Demo.read_series Demo.all_writable Demo.compress Demo.decompress Demo.refuse_uid Demo.writer_ok Demo.rmtree_stops_at_once Demo.as_origin Demo.as_spacing Demo.as_direction Demo.plane_geometry Demo.no_companion
             DemoBatch.only_files DemoBatch.start).
    + vm_compute. reflexivity.
    + constructor; [reflexivity | constructor].
Defined.

Lemma reconstruction_without_recorded_names_witness :
  ∃ s' cs,
    zarr_to_dicom Demo.all_writable Demo.decompress Demo.refuse_uid Demo.writer_ok Demo.rmtree_stops_at_once Demo.as_origin Demo.as_spacing Demo.as_direction Demo.plane_geometry Demo.no_companion
      "data/converted/S1.zarr" "data/converted/S1.json" "S1"
      (Demo.converted DemoBatch.bare_sidecar)
    = (Ok (), s')
    ∧ writer_log s' = cs
    ∧ length cs = 2
    ∧ (∀ c, cs !! 1 = Some c →
            wc_path c = "data/reconstructed/S1/0001.dcm"
            ∧ sl_pixels (wc_image c) = [5; 6; 7; -8]%Z)
    ∧ size (listdir (fs s') "data/reconstructed/S1") = 2.
Proof.
  destruct (reconstruction_without_recorded_names Demo.all_writable Demo.decompress Demo.refuse_uid Demo.writer_ok Demo.rmtree_stops_at_once Demo.as_origin Demo.as_spacing Demo.as_direction Demo.plane_geometry Demo.no_companion
              "data/converted/S1.zarr" "data/converted/S1.json" "S1" Demo.volume
              DemoBatch.bare_sidecar (Demo.converted DemoBatch.bare_sidecar)
              demo_bare_reconstructible (or_introl eq_refl))
    as (s' & cs & Hrun & Hlog & Hlen & Hnames & _ & Hsize).
  exists s', cs. split; [exact Hrun|]. split; [exact Hlog|]. split; [exact Hlen|].
  split.
  - intros c Hc. destruct (Hnames 1 c Hc) as (Hp & _ & Hpx & _).
    split; [|exact Hpx]. rewrite Hp. vm_compute. reflexivity.
  - apply Hsize.
    + vm_compute in Hrun. injection Hrun as <-. vm_compute in Hlog. subst cs.
      repeat constructor.
    + intros i Hi. reflexivity.
    + intros H. vm_compute in H. discriminate.
Defined.

Lemma dicom_to_zarr_twice_is_once_witness :
  ∃ s1 s2,
    dicom_to_zarr little Demo.series_files Demo.read_series Demo.all_writable Demo.compress Demo.rmtree_stops_at_once "data/raw/S1" Demo.initial
    = (Ok (Some "data/converted/S1.zarr", Some "data/converted/S1.json"), s1)
    ∧ dicom_to_zarr little Demo.series_files Demo.read_series Demo.all_writable Demo.compress Demo.rmtree_stops_at_once "data/raw/S1" s1
      = (Ok (Some "data/converted/S1.zarr", Some "data/converted/S1.json"), s2)
    ∧ fs s2 = fs s1.
Proof.
  destruct (dicom_to_zarr_twice_is_once little Demo.series_files Demo.read_series Demo.all_writable Demo.compress Demo.rmtree_stops_at_once
              "data/raw/S1" Demo.image Demo.tags Demo.initial)
    as (paths & s1 & s2 & H1 & H2 & Hfs & _).
  - exact demo_loads_as.
  - exact demo_store_placeable.
  - reflexivity.
  - vm_compute. reflexivity.
  - assert (paths = (Some "data/converted/S1.zarr", Some "data/converted/S1.json")) as ->.
    { vm_compute in H1. injection H1 as <- _. reflexivity. }
    exists s1, s2. split; [exact H1|]. split; [exact H2 | exact Hfs].
Defined.

Lemma reconstruction_stays_in_its_directory_witness :
  let r := zarr_to_dicom Demo.all_writable Demo.decompress Demo.refuse_uid Demo.writer_fails_on_a Demo.rmtree_stops_at_once Demo.as_origin Demo.as_spacing Demo.as_direction Demo.plane_geometry Demo.no_companion
             "data/converted/S1.zarr" "data/converted/S1.json" "S1"
             (Demo.converted (Demo.sidecar ["data/raw/S1/a.dcm"; "data/raw/S1/b.dcm"] Demo.tags)) in
  fs r.2 !! "data/converted/S1.zarr" = Some (NZarr Demo.store).
Proof.
  cbv zeta.
  rewrite (reconstruction_stays_in_its_directory Demo.all_writable Demo.decompress Demo.refuse_uid Demo.writer_fails_on_a Demo.rmtree_stops_at_once Demo.as_origin Demo.as_spacing Demo.as_direction Demo.plane_geometry Demo.no_companion
             "data/converted/S1.zarr" "data/converted/S1.json" "S1"
             (Demo.converted (Demo.sidecar ["data/raw/S1/a.dcm"; "data/raw/S1/b.dcm"] Demo.tags))
             (zarr_to_dicom Demo.all_writable Demo.decompress Demo.refuse_uid Demo.writer_fails_on_a Demo.rmtree_stops_at_once Demo.as_origin Demo.as_spacing Demo.as_direction Demo.plane_geometry Demo.no_companion
                "data/converted/S1.zarr" "data/converted/S1.json" "S1"
                (Demo.converted (Demo.sidecar ["data/raw/S1/a.dcm"; "data/raw/S1/b.dcm"] Demo.tags))).1
             _ "data/converted/S1.zarr").
  - vm_compute. reflexivity.
  - reflexivity.
  - vm_compute. reflexivity.
  - vm_compute. reflexivity.
  - vm_compute. reflexivity.
Defined.

Lemma conversion_stays_in_the_converted_tree_witness :
  let r := dicom_to_zarr little Demo.series_files Demo.read_series Demo.all_writable Demo.compress Demo.rmtree_stops_at_once "data/raw/S1" DemoBatch.with_raw_dir in
  fs r.2 !! "data/raw" = Some NDir.
Proof.
  cbv zeta.
  rewrite (conversion_stays_in_the_converted_tree little Demo.series_files Demo.read_series Demo.all_writable Demo.compress Demo.rmtree_stops_at_once "data/raw/S1"
             DemoBatch.with_raw_dir
             (dicom_to_zarr little Demo.series_files Demo.read_series Demo.all_writable Demo.compress Demo.rmtree_stops_at_once "data/raw/S1" DemoBatch.with_raw_dir).1
             _ "data/raw").
  - vm_compute. reflexivity.
  - vm_compute. reflexivity.
  - vm_compute. reflexivity.
  - vm_compute. discriminate.
  - vm_compute. reflexivity.
Defined.

Lemma reconstructing_twice_is_once_witness :
  ∃ s1 s2,
    zarr_to_dicom Demo.all_writable Demo.decompress Demo.refuse_uid Demo.writer_fails_on_a Demo.rmtree_stops_at_once Demo.as_origin Demo.as_spacing Demo.as_direction Demo.plane_geometry Demo.no_companion
      "data/converted/S1.zarr" "data/converted/S1.json" "S1"
      (Demo.converted (Demo.sidecar ["data/raw/S1/a.dcm"; "data/raw/S1/b.dcm"] Demo.tags))
    = (Ok (), s1)
    ∧ zarr_to_dicom Demo.all_writable Demo.decompress Demo.refuse_uid Demo.writer_fails_on_a Demo.rmtree_stops_at_once Demo.as_origin Demo.as_spacing Demo.as_direction Demo.plane_geometry Demo.no_companion
        "data/converted/S1.zarr" "data/converted/S1.json" "S1" s1
      = (Ok (), s2)
    ∧ fs s2 = fs s1
    ∧ length (writer_log s2) = 4.
Proof.
  destruct (reconstructing_twice_is_once Demo.all_writable Demo.decompress Demo.refuse_uid Demo.writer_fails_on_a Demo.rmtree_stops_at_once Demo.as_origin Demo.as_spacing Demo.as_direction Demo.plane_geometry Demo.no_companion
              "data/converted/S1.zarr" "data/converted/S1.json" "S1" Demo.volume
              (Demo.sidecar ["data/raw/S1/a.dcm"; "data/raw/S1/b.dcm"] Demo.tags)
              (Demo.converted (Demo.sidecar ["data/raw/S1/a.dcm"; "data/raw/S1/b.dcm"] Demo.tags))
              (demo_reconstructible _ _))
    as (s1 & s2 & cs & H1 & H2 & Hfs & Hlen & Hlog1 & Hlog2 & _).
  - vm_compute. reflexivity.
  - vm_compute. reflexivity.
  - intros H. vm_compute in H. discriminate.
  - exists s1, s2. split; [exact H1|]. split; [exact H2|]. split; [exact Hfs|].
    rewrite Hlog2, Hlog1. cbn [writer_log Demo.converted].
    rewrite !length_app, Hlen. reflexivity.
Defined.

Lemma process_series_stays_with_its_series_witness :
  let s := {| fs := {[ "data/converted/S2.zarr" := NZarr Demo.store ]};
              stdout := []; writer_log := [] |} in
  let r := process_series little Demo.series_files Demo.read_series Demo.all_writable Demo.compress Demo.decompress Demo.refuse_uid Demo.writer_ok Demo.rmtree_stops_at_once Demo.as_origin Demo.as_spacing Demo.as_direction Demo.plane_geometry Demo.no_companion "data/raw/S1" s in
  fs r.2 !! "data/converted/S2.zarr" = Some (NZarr Demo.store).
Proof.
  cbv zeta.
  rewrite (process_series_stays_with_its_series little Demo.series_files Demo.read_series Demo.all_writable Demo.compress Demo.decompress Demo.refuse_uid Demo.writer_ok Demo.rmtree_stops_at_once Demo.as_origin Demo.as_spacing Demo.as_direction Demo.plane_geometry Demo.no_companion "data/raw/S1"
             {| fs := {[ "data/converted/S2.zarr" := NZarr Demo.store ]};
                stdout := []; writer_log := [] |}
             (process_series little Demo.series_files Demo.read_series Demo.all_writable Demo.compress Demo.decompress Demo.refuse_uid Demo.writer_ok Demo.rmtree_stops_at_once Demo.as_origin Demo.as_spacing Demo.as_direction Demo.plane_geometry Demo.no_companion "data/raw/S1"
                {| fs := {[ "data/converted/S2.zarr" := NZarr Demo.store ]};
                   stdout := []; writer_log := [] |}).1
             _ "data/converted/S2.zarr").
  - vm_compute. reflexivity.
  - reflexivity.
  - vm_compute. reflexivity.
  - vm_compute. reflexivity.
  - vm_compute. discriminate.
  - vm_compute. reflexivity.
  - vm_compute. reflexivity.
  - vm_compute. reflexivity.
Defined.

Lemma main_stays_in_its_two_trees_witness :
  let r := main little Demo.series_files Demo.read_series Demo.all_writable Demo.compress Demo.decompress Demo.refuse_uid Demo.writer_ok Demo.rmtree_stops_at_once Demo.as_origin Demo.as_spacing Demo.as_direction Demo.plane_geometry Demo.no_companion DemoBatch.two_dirs DemoBatch.start in
  fs (b_state r.2) !! "data/raw" = Some NDir.
Proof.
  cbv zeta.
  rewrite (main_stays_in_its_two_trees little Demo.series_files Demo.read_series Demo.all_writable Demo.compress Demo.decompress Demo.refuse_uid Demo.writer_ok Demo.rmtree_stops_at_once Demo.as_origin Demo.as_spacing Demo.as_direction Demo.plane_geometry Demo.no_companion DemoBatch.two_dirs DemoBatch.start
             (main little Demo.series_files Demo.read_series Demo.all_writable Demo.compress Demo.decompress Demo.refuse_uid Demo.writer_ok Demo.rmtree_stops_at_once Demo.as_origin Demo.as_spacing Demo.as_direction Demo.plane_geometry Demo.no_companion DemoBatch.two_dirs DemoBatch.start).1
             _ "data/raw").
  - vm_compute. reflexivity.
  - constructor; [reflexivity|]. constructor; [reflexivity | constructor].
  - vm_compute. reflexivity.
  - vm_compute. reflexivity.
  - vm_compute. reflexivity.
  - vm_compute. reflexivity.
  - vm_compute. reflexivity.
Defined.

Lemma colliding_names_lose_a_slice_witness :
  ∃ s' cs ci cj,
    zarr_to_dicom Demo.all_writable Demo.decompress Demo.refuse_uid Demo.writer_ok Demo.rmtree_stops_at_once Demo.as_origin Demo.as_spacing Demo.as_direction Demo.plane_geometry Demo.no_companion
      "data/converted/S1.zarr" "data/converted/S1.json" "S1"
      (Demo.converted (Demo.sidecar ["x/s.dcm"; "y/s.dcm"] Demo.tags))
    = (Ok (), s')
    ∧ writer_log s' = cs
    ∧ cs !! 0 = Some ci ∧ cs !! 1 = Some cj
    ∧ wc_path ci = "data/reconstructed/S1/s.dcm"
    ∧ wc_path cj = "data/reconstructed/S1/s.dcm"
    ∧ sl_pixels (wc_image cj) = [5; 6; 7; -8]%Z
    ∧ size (listdir (fs s') "data/reconstructed/S1") < 2
    ∧ fs s' !! "data/reconstructed/S1/s.dcm" = Some (NDicom (wc_image cj)).
Proof.
  destruct (colliding_names_lose_a_slice Demo.all_writable Demo.decompress Demo.refuse_uid Demo.writer_ok Demo.rmtree_stops_at_once Demo.as_origin Demo.as_spacing Demo.as_direction Demo.plane_geometry Demo.no_companion
              "data/converted/S1.zarr" "data/converted/S1.json" "S1" Demo.volume
              (Demo.sidecar ["x/s.dcm"; "y/s.dcm"] Demo.tags)
              (Demo.converted (Demo.sidecar ["x/s.dcm"; "y/s.dcm"] Demo.tags))
              ["x/s.dcm"; "y/s.dcm"] 0 1 "x/s.dcm" "y/s.dcm"
              (demo_reconstructible _ _))
    as (s' & cs & ci & cj & Hrun & Hlog & _ & Hci & Hcj & Hpi & Hpj & _ & Hplane
        & Hsize & Hfile).
  - intros H. vm_compute in H. discriminate.
  - reflexivity.
  - lia.
  - cbn. lia.
  - reflexivity.
  - reflexivity.
  - reflexivity.
  - exists s', cs, ci, cj. split; [exact Hrun|]. split; [exact Hlog|].
    split; [exact Hci|]. split; [exact Hcj|]. split; [exact Hpi|].
    split; [exact Hpj|]. destruct Hplane as (_ & Hpx & _). split; [exact Hpx|].
    split.
    + apply Hsize. intros i' Hi'. reflexivity.
    + change "data/reconstructed/S1/s.dcm"
        with (ospath.join (ospath.join RECONSTRUCTED_DIR "S1") (ospath.basename "y/s.dcm")).
      rewrite <- Hpj. apply Hfile.
      * vm_compute in Hrun. injection Hrun as <-. vm_compute in Hlog. subst cs.
        vm_compute in Hcj. injection Hcj as <-. reflexivity.
      * intros j' Hlt Hj'. cbn in Hj'. lia.
Defined.

Lemma plain_file_in_the_way_is_not_replaced_witness :
  let f : gmap string node :=
    {[ "data/converted/S1.zarr" := NZarr Demo.store;
       "data/converted/S1.json" := NJson (Demo.sidecar [] Demo.tags);
       "data/reconstructed/S1" := NDicom Demo.stale_slice ]} in
  zarr_to_dicom Demo.all_writable Demo.decompress Demo.refuse_uid Demo.writer_ok Demo.rmtree_stops_at_once Demo.as_origin Demo.as_spacing Demo.as_direction Demo.plane_geometry Demo.no_companion
    "data/converted/S1.zarr" "data/converted/S1.json" "S1"
    {| fs := f; stdout := []; writer_log := [] |}
  = (Raise (NotADirectoryError "data/reconstructed/S1"),
     {| fs := f; stdout := [PrintLoadingBack; PrintReconstructing]; writer_log := [] |}).
Proof.
  cbv zeta.
  apply (proj2 (plain_file_in_the_way_is_not_replaced little Demo.series_files Demo.read_series Demo.all_writable Demo.compress Demo.decompress Demo.refuse_uid Demo.writer_ok Demo.rmtree_stops_at_once Demo.as_origin Demo.as_spacing Demo.as_direction Demo.plane_geometry Demo.no_companion)
           "data/converted/S1.zarr" "data/converted/S1.json" "S1" Demo.store Demo.volume
           (Demo.sidecar [] Demo.tags)
           (img_origin Demo.image) (img_origin Demo.image)
           (img_spacing Demo.image) (img_spacing Demo.image)
           (img_direction Demo.image) (img_direction Demo.image)).
  - vm_compute. reflexivity.
  - vm_compute. reflexivity.
  - vm_compute. reflexivity.
  - reflexivity.
  - vm_compute. reflexivity.
  - reflexivity.
  - vm_compute. reflexivity.
  - reflexivity.
  - vm_compute. reflexivity.
  - vm_compute. eexists. reflexivity.
  - vm_compute. reflexivity.
Defined.

(** ** Regression examples *)

Example basename_of_a_file : ospath.basename "data/raw/S1/IM_0001.dcm" = "IM_0001.dcm".
Proof. reflexivity. Qed.

Example basename_of_a_directory : ospath.basename "data/raw/S1/" = "".
Proof. reflexivity. Qed.

Example basename_without_separator : ospath.basename "plain" = "plain".
Proof. reflexivity. Qed.

Example splitext_of_a_file : ospath.splitext "a/b.c/IM_0001.dcm" = ("a/b.c/IM_0001", ".dcm").
Proof. reflexivity. Qed.

Example splitext_dot_in_directory : ospath.splitext "a.b/IM0001" = ("a.b/IM0001", "").
Proof. reflexivity. Qed.

Example splitext_hidden_file : ospath.splitext "dir/.hidden" = ("dir/.hidden", "").
Proof. reflexivity. Qed.

Example splitext_leading_dots : ospath.splitext "..a.tar.gz" = ("..a.tar", ".gz").
Proof. reflexivity. Qed.

Example join_relative : ospath.join "data/converted" "S1.zarr" = "data/converted/S1.zarr".
Proof. reflexivity. Qed.

Example join_absolute : ospath.join "data/converted" "/abs" = "/abs".
Proof. reflexivity. Qed.

Example join_after_separator : ospath.join "data/" "x" = "data/x".
Proof. reflexivity. Qed.

Example zfill4_pads : zfill4 7 = "0007" ∧ zfill4 0 = "0000" ∧ zfill4 (12 * 1000 + 345) = "12345".
Proof. by vm_compute. Qed.

Example encode_int16_both_orders :
  encode_elem little int16 (-2) = [254; 255]%Z ∧ encode_elem big int16 (-2) = [255; 254]%Z
  ∧ decode_elem big int16 [255; 254]%Z = (-2)%Z.
Proof. by vm_compute. Qed.

(** A store read back whatever its chunk shape: the demo volume kept in
    chunks of two planes of one row each. *)
Example store_with_other_chunks_reads_back :
  zarr_getitem Demo.decompress
    {| zarr_format := 3; z_shape := (2, 2, 2); z_chunks := (2, 1, 2);
       z_dtype := int16; z_endian := little;
       z_blosc := {| cname := "zstd"; clevel := 1; shuffle := "bitshuffle"; typesize := 2 |};
       z_chunkdata := {[ (0, 0, 0) := [2; 1; 0; 254; 255; 5; 0; 6; 0]%Z;
                         (0, 1, 0) := [2; 3; 0; 4; 0; 7; 0; 248; 255]%Z ]} |}
  = Ok Demo.volume.
Proof. by vm_compute. Qed.

(** The whole pipeline on the demo series. *)
Example process_series_on_the_demo_series :
  let r := process_series little Demo.series_files Demo.read_series Demo.all_writable Demo.compress Demo.decompress Demo.refuse_uid Demo.writer_ok Demo.rmtree_stops_at_once Demo.as_origin Demo.as_spacing Demo.as_direction Demo.plane_geometry Demo.no_companion
             "data/raw/S1" Demo.initial in
  r.1 = Ok ()
  ∧ stdout r.2
    = [PrintProcessing "S1"; PrintLoadingDicom; PrintConverting;
       PrintSaved "data/converted/S1.zarr" "data/converted/S1.json";
       PrintLoadingBack; PrintReconstructing;
       PrintReconstructed "data/reconstructed/S1"; PrintRule]
  ∧ wc_path <$> writer_log r.2
    = ["data/reconstructed/S1/a.dcm"; "data/reconstructed/S1/b.dcm"]
  ∧ sl_pixels ∘ wc_image <$> writer_log r.2 = [[1; -2; 3; 4]; [5; 6; 7; -8]]%Z
  ∧ fs r.2 !! "data/converted/S1.zarr" = Some (NZarr Demo.store)
  ∧ size (listdir (fs r.2) "data/reconstructed/S1") = 2.
Proof. by vm_compute. Qed.

(** The same with a writer that fails on the first slice: the second slice is
    written all the same. *)
Example process_series_with_a_failing_slice :
  let r := process_series little Demo.series_files Demo.read_series Demo.all_writable Demo.compress Demo.decompress Demo.refuse_uid Demo.writer_fails_on_a Demo.rmtree_stops_at_once Demo.as_origin Demo.as_spacing Demo.as_direction Demo.plane_geometry Demo.no_companion
             "data/raw/S1" Demo.initial in
  r.1 = Ok ()
  ∧ PrintErrorWritingSlice 0 (RuntimeError "disk full") ∈ stdout r.2
  ∧ fs r.2 !! "data/reconstructed/S1/a.dcm" = None
  ∧ sl_pixels <$> (fs r.2 !! "data/reconstructed/S1/b.dcm"
                     ≫= λ n, match n with NDicom sl => Some sl | _ => None end)
    = Some [5; 6; 7; -8]%Z.
Proof.
  vm_compute. split_and!; try reflexivity.
  do 6 apply list_elem_of_further. apply list_elem_of_here.
Qed.

(** Two recorded names with the same last component go to one file: the
    second slice replaces the first, and an entry from an earlier run is gone
    all the same. *)
Example recorded_names_with_one_basename :
  let r := zarr_to_dicom Demo.all_writable Demo.decompress Demo.refuse_uid Demo.writer_ok Demo.rmtree_stops_at_once Demo.as_origin Demo.as_spacing Demo.as_direction Demo.plane_geometry Demo.no_companion
             "data/converted/S1.zarr" "data/converted/S1.json" "S1"
             (Demo.converted (Demo.sidecar ["x/s.dcm"; "y/s.dcm"] Demo.tags)) in
  r.1 = Ok ()
  ∧ wc_path <$> writer_log r.2
    = ["data/reconstructed/S1/s.dcm"; "data/reconstructed/S1/s.dcm"]
  ∧ size (listdir (fs r.2) "data/reconstructed/S1") = 1
  ∧ fs r.2 !! "data/reconstructed/S1/0002.dcm" = None.
Proof. by vm_compute. Qed.

(** A writer that puts a header next to every [.img] file leaves four
    entries for two slices. *)
Example header_files_next_to_the_slices :
  let r := zarr_to_dicom Demo.all_writable Demo.decompress Demo.refuse_uid Demo.writer_ok Demo.rmtree_stops_at_once Demo.as_origin Demo.as_spacing Demo.as_direction Demo.plane_geometry Demo.header_companion
             "data/converted/S1.zarr" "data/converted/S1.json" "S1"
             (Demo.converted
                (Demo.sidecar ["data/raw/S1/a.img"; "data/raw/S1/b.img"] Demo.tags)) in
  r.1 = Ok ()
  ∧ wc_path <$> writer_log r.2
    = ["data/reconstructed/S1/a.img"; "data/reconstructed/S1/b.img"]
  ∧ is_Some (fs r.2 !! "data/reconstructed/S1/a.hdr")
  ∧ is_Some (fs r.2 !! "data/reconstructed/S1/b.hdr")
  ∧ size (listdir (fs r.2) "data/reconstructed/S1") = 4.
Proof. vm_compute. split_and!; try reflexivity; by eexists. Qed.

(** A spacing with a zero entry is refused by [SetSpacing]: the
    reconstruction raises before it touches the output directory of the
    earlier run. *)
Example zero_spacing_is_refused :
  let r := zarr_to_dicom Demo.all_writable Demo.decompress Demo.refuse_uid Demo.writer_ok Demo.rmtree_stops_at_once Demo.as_origin Demo.as_spacing Demo.as_direction Demo.plane_geometry Demo.no_companion
             "data/converted/S1.zarr" "data/converted/S1.json" "S1"
             (Demo.converted Demo.sidecar_with_zero_spacing) in
  r.1 = Raise (RuntimeError "zero-valued spacing")
  ∧ fs r.2 = fs (Demo.converted Demo.sidecar_with_zero_spacing)
  ∧ writer_log r.2 = [].
Proof. by vm_compute. Qed.

(** A failing [shutil.rmtree] may have emptied the directory before it
    raises: the slice of the earlier run is gone, the directory is still
    there and no slice has been written. *)
Example rmtree_that_fails_on_the_directory :
  let r := zarr_to_dicom Demo.read_only Demo.decompress Demo.refuse_uid Demo.writer_ok Demo.rmtree_fails_on_the_directory Demo.as_origin Demo.as_spacing Demo.as_direction Demo.plane_geometry Demo.no_companion
             "data/converted/S1.zarr" "data/converted/S1.json" "S1"
             (Demo.converted (Demo.sidecar [] Demo.tags)) in
  r.1 = Raise (PermissionError "data/reconstructed/S1")
  ∧ fs r.2 !! "data/reconstructed/S1" = Some NDir
  ∧ fs r.2 !! "data/reconstructed/S1/0002.dcm" = None
  ∧ writer_log r.2 = [].
Proof. by vm_compute. Qed.

(** The slices of the demo volume carry a two-dimensional geometry. *)
Example slice_geometry_is_two_dimensional :
  let sl := extract_slice Demo.plane_geometry Demo.image 1 in
  sl_origin sl = [float_zero; float_zero]
  ∧ sl_spacing sl = [float_one; float_one]
  ∧ sl_direction sl = [float_one; float_zero; float_zero; float_one]
  ∧ sl_size sl = (2, 2).
Proof. by vm_compute. Qed.
